(** * ConectAI-JVA: the AI manager (back-end/ai_manager.py)

    A shallow embedding of [AIManager]: the query classifier, the usefulness
    judge, the Gemini rate limiter, the model chain runner and the fallback
    orchestrator, with the properties the specification states about them.

    Python values are modelled as follows.
    - A [str] is the list of its Unicode code points, so [len], slicing and
      the substring test [in] are the list operations.
    - [Optional[str]] is [option str]; Python truthiness of such a value is
      [truthy] (both [None] and the empty string are falsy).
    - [str.lower] and the character class [\d] depend on the Unicode tables
      of the interpreter; they are the two fields of the class [Unicode].
    - The network, the Gemini SDK and the clock are the operations of the
      class [Platform]; the manager runs in a state monad over them and
      keeps a ghost log of the provider calls it makes.

    Around the manager, the file also embeds its caller, the handler of
    [/api/chat] with [sanitize_input] (back-end/app.py), and the methods
    of the Sheets manager that the handler calls: [get_sheets_manager]
    with the constructor and [_ensure_headers], [update_consultation],
    [log_consultation] and [find_recent_duplicate]
    (back-end/google_sheets.py).  They run over the class [Server] of what
    they ask of Flask, of the Sheets API and of the other managers, and
    keep a ghost log of the write requests sent to the Sheets API.  Three
    more functions are embedded on their own: [get_statistics]
    (google_sheets.py), [get_page_content] (web_scraper.py) and
    [download_pdf] (google_drive.py). *)

From Stdlib Require Import String Ascii.
From Stdlib Require Import List Bool Arith NArith ZArith Lia DecimalString.
Import ListNotations.

(* ================================================================== *)
(** ** Python strings *)

Definition str := list N.

Definition bytes_of_string (s : string) : list N :=
  map N_of_ascii (list_ascii_of_string s).

(** Decoding of the UTF-8 text of a literal into code points. *)
Fixpoint utf8_decode (bs : list N) : str :=
  match bs with
  | [] => []
  | b0 :: t0 =>
      if (b0 <? 128)%N then b0 :: utf8_decode t0
      else if (b0 <? 224)%N then
        match t0 with
        | b1 :: t1 => ((b0 - 192) * 64 + (b1 - 128))%N :: utf8_decode t1
        | _ => []
        end
      else if (b0 <? 240)%N then
        match t0 with
        | b1 :: b2 :: t2 =>
            ((b0 - 224) * 4096 + (b1 - 128) * 64 + (b2 - 128))%N
              :: utf8_decode t2
        | _ => []
        end
      else
        match t0 with
        | b1 :: b2 :: b3 :: t3 =>
            ((b0 - 240) * 262144 + (b1 - 128) * 4096
             + (b2 - 128) * 64 + (b3 - 128))%N :: utf8_decode t3
        | _ => []
        end
  end.

(** [u "..."] is the Python literal ["..."]. *)
Definition u (s : string) : str := utf8_decode (bytes_of_string s).

Fixpoint str_eqb (a b : str) : bool :=
  match a, b with
  | [], [] => true
  | x :: a', y :: b' => (x =? y)%N && str_eqb a' b'
  | _, _ => false
  end.

(** [a.startswith(p)] *)
Fixpoint startswith (p a : str) : bool :=
  match p, a with
  | [], _ => true
  | x :: p', y :: a' => (x =? y)%N && startswith p' a'
  | _ :: _, [] => false
  end.

(** [p in a] for strings: [p] occurs in [a] as a contiguous run. *)
Fixpoint contains (p a : str) : bool :=
  startswith p a ||
  match a with
  | [] => false
  | _ :: a' => contains p a'
  end.

(** [x in xs] for a list of strings. *)
Definition str_in (x : str) (xs : list str) : bool :=
  existsb (str_eqb x) xs.

(** Truthiness of an [Optional[str]]. *)
Definition truthy (r : option str) : bool :=
  match r with
  | Some (_ :: _) => true
  | _ => false
  end.

(** [s[:n]] for [n >= 0]. *)
Definition slice_to (n : N) (s : str) : str := firstn (N.to_nat n) s.

(** [xs[-2:]] *)
Definition last_two {A} (xs : list A) : list A :=
  skipn (length xs - 2) xs.

(* ================================================================== *)
(** ** The interpreter's Unicode tables *)

Class Unicode := {
  (** [str.lower] *)
  lower : str -> str;
  (** membership in the class [\d] of [re] (category Nd) *)
  is_decimal : N -> bool
}.

(* ================================================================== *)
(** ** Regular expressions, as far as [re.search] is used

    The two patterns of the judge use literals, [\d], alternation,
    [+], [?] and [{1,2}].  Whether [re.search] finds a match depends only
    on the language of the pattern, which is decided here by derivatives. *)

Inductive regex : Type :=
| ReNone : regex
| ReEps : regex
| ReChar : N -> regex
| ReDigit : regex
| ReSeq : regex -> regex -> regex
| ReAlt : regex -> regex -> regex
| ReStar : regex -> regex.

Definition re_lit (s : str) : regex :=
  fold_right (fun c r => ReSeq (ReChar c) r) ReEps s.

Definition re_plus (r : regex) : regex := ReSeq r (ReStar r).
Definition re_opt (r : regex) : regex := ReAlt r ReEps.

Fixpoint nullable (r : regex) : bool :=
  match r with
  | ReNone => false
  | ReEps => true
  | ReChar _ => false
  | ReDigit => false
  | ReSeq a b => nullable a && nullable b
  | ReAlt a b => nullable a || nullable b
  | ReStar _ => true
  end.

Section Regex.
Context {U : Unicode}.

Fixpoint deriv (c : N) (r : regex) : regex :=
  match r with
  | ReNone => ReNone
  | ReEps => ReNone
  | ReChar d => if (c =? d)%N then ReEps else ReNone
  | ReDigit => if is_decimal c then ReEps else ReNone
  | ReSeq a b =>
      if nullable a
      then ReAlt (ReSeq (deriv c a) b) (deriv c b)
      else ReSeq (deriv c a) b
  | ReAlt a b => ReAlt (deriv c a) (deriv c b)
  | ReStar a => ReSeq (deriv c a) (ReStar a)
  end.

(** Some prefix of [s] matches [r] ([re.match] finds a match). *)
Fixpoint re_match (r : regex) (s : str) : bool :=
  nullable r ||
  match s with
  | [] => false
  | c :: s' => re_match (deriv c r) s'
  end.

(** Some substring of [s] matches [r] ([re.search] finds a match). *)
Fixpoint re_search (r : regex) (s : str) : bool :=
  re_match r s ||
  match s with
  | [] => false
  | _ :: s' => re_search r s'
  end.
(** The strings a pattern matches in full. *)
Inductive re_lang : regex -> str -> Prop :=
| lang_eps : re_lang ReEps []
| lang_char (c : N) : re_lang (ReChar c) [c]
| lang_digit (c : N) : is_decimal c = true -> re_lang ReDigit [c]
| lang_seq (a b : regex) (s t : str) :
    re_lang a s -> re_lang b t -> re_lang (ReSeq a b) (s ++ t)
| lang_alt_l (a b : regex) (s : str) : re_lang a s -> re_lang (ReAlt a b) s
| lang_alt_r (a b : regex) (s : str) : re_lang b s -> re_lang (ReAlt a b) s
| lang_star_nil (a : regex) : re_lang (ReStar a) []
| lang_star_cons (a : regex) (s t : str) :
    re_lang a s -> re_lang (ReStar a) t -> re_lang (ReStar a) (s ++ t).
End Regex.

(** [r's/\.|soles|\d+(\.\d+)?'] *)
Definition money_pattern : regex :=
  ReAlt (re_lit (u "s/."))
    (ReAlt (re_lit (u "soles"))
       (ReSeq (re_plus ReDigit)
          (re_opt (ReSeq (ReChar 46) (re_plus ReDigit))))).

(** [r'\d{1,2}'] *)
Definition day_pattern : regex := ReSeq ReDigit (re_opt ReDigit).

(* ================================================================== *)
(** ** Query classification and the usefulness judge *)

(** [QUERY_CLASSIFICATIONS]: a dict literal, iterated in insertion order. *)
Definition QUERY_CLASSIFICATIONS : list (str * list str) :=
  [ (u "matrícula",
      [u "matrícula"; u "matricula"; u "matricularme"; u "inscripción"]);
    (u "traslado", [u "traslado"; u "trasladar"; u "cambiar de instituto"]);
    (u "reserva", [u "reserva"; u "reservar"]);
    (u "reincorporación",
      [u "reincorporación"; u "reincorporacion"; u "volver"]);
    (u "cambio_turno", [u "cambio de turno"; u "turno"; u "horario"]);
    (u "titulación",
      [u "titulación"; u "título"; u "bachiller"; u "titulado"]);
    (u "costos", [u "costo"; u "precio"; u "pago"; u "cuánto"; u "tarifa"]);
    (u "fechas", [u "fecha"; u "plazo"; u "cuándo"; u "cronograma"]);
    (u "requisitos", [u "requisito"; u "documento"; u "necesito"]);
    (u "vacantes", [u "vacante"; u "cupos"; u "disponibilidad"]);
    (u "carreras", [u "carrera"; u "programa"; u "especialidad"]);
    (u "certificados", [u "certificado"; u "constancia"; u "récord"]);
    (u "becas", [u "beca"; u "becado"; u "descuento"; u "exoneración"]);
    (u "saludo",
      [u "hola"; u "buenos días"; u "buenas tardes"; u "saludos"]);
    (u "despedida", [u "gracias"; u "adiós"; u "chau"; u "hasta luego"]) ].

Definition useless_phrases : list str :=
  [ u "no tengo información"; u "no encuentro información";
    u "no se menciona en los documentos"; u "lo siento";
    u "no puedo responder"; u "no hay documentos";
    u "contacta a la secretaría";
    u "no está especificado"; u "no se proporciona"; u "no se encuentra";
    u "no aparece en el texto"; u "no se detalla";
    u "no cuento con la información";
    u "no se indica"; u "no se menciona"; u "no dispongo de información" ].

Definition contact_indicators : list str :=
  [ u "correo"; u "teléfono"; u "presencialmente"; u "dirección" ].

Definition money_labels : list str :=
  [ u "costos"; u "matrícula"; u "titulación" ].

Definition cost_words : list str := [ u "costo"; u "pago"; u "precio" ].

Definition date_labels : list str := [ u "fechas"; u "cronograma" ].

Definition months : list str :=
  [ u "enero"; u "febrero"; u "marzo"; u "abril"; u "mayo"; u "junio";
    u "julio"; u "agosto"; u "septiembre"; u "octubre"; u "noviembre";
    u "diciembre" ].

(** [any(p in low for p in ps)] *)
Definition any_in (ps : list str) (low : str) : bool :=
  existsb (fun p => contains p low) ps.

Section Judge.
Context {U : Unicode}.

(** [AIManager._is_useful_response] *)
Definition _is_useful_response (response : option str) (query_type : str)
  : bool :=
  match response with
  | None => false
  | Some r =>
      if negb (truthy response) || (length r <? 50) then false
      else
        let low := lower r in
        if any_in useless_phrases low then
          if contains (u "correo") low || contains (u "teléfono") low
             || contains (u "presencialmente") low
             || contains (u "dirección") low
          then true
          else false
        else if str_in query_type money_labels
                && (contains (u "costo") low || contains (u "pago") low
                    || contains (u "precio") low)
                && negb (re_search money_pattern low)
        then false
        else if str_in query_type date_labels
                && negb (re_search day_pattern low || any_in months low)
        then false
        else true
  end.

(** The loop of [AIManager.classify_query] over the items of the dict. *)
Fixpoint classify_items (items : list (str * list str)) (msg_lower : str)
  : str :=
  match items with
  | [] => u "general"
  | (qtype, keywords) :: rest =>
      if any_in keywords msg_lower then qtype
      else classify_items rest msg_lower
  end.

(** [AIManager.classify_query] *)
Definition classify_query (message : str) : str :=
  let msg_lower := lower message in
  classify_items QUERY_CLASSIFICATIONS msg_lower.
(** A keyword of [keywords] occurs in the lowered message. *)
Definition keyword_hit (keywords : list str) (message : str) : Prop :=
  exists kw, In kw keywords /\ contains kw (lower message) = true.

End Judge.

(* ================================================================== *)
(** ** Prompts, the platform and the manager's state *)

(** The holes of the fixed template of [_build_prompt]; the text of the
    template around them is the same for every call and is left out.
    [prompt_history] is [None] where the template shows ["Inicio"]. *)
Record prompt (turn : Type) : Type := {
  prompt_pdf : str;
  prompt_web : str;
  prompt_history : option (list turn);
  prompt_query : str
}.

(** What a call of the Gemini SDK in [_call_gemini] comes to: the text of
    the reply ([None] when it has neither [text] nor [parts]), or an
    exception, of which the handler sees [str(e)]. *)
Inductive gemini_result : Type :=
| GeminiReply : option str -> gemini_result
| GeminiRaised : str -> gemini_result.

Class Platform := {
  (** an entry of the conversation history *)
  turn : Type;
  (** values of [time.time()] and of [gemini_cooldown_until] *)
  timestamp : Type;
  (** the integer [z] as a time *)
  ts_of_int : Z -> timestamp;
  (** [t + z] for a time [t] and an integer [z] *)
  ts_add : timestamp -> Z -> timestamp;
  (** [a < b] *)
  ts_ltb : timestamp -> timestamp -> bool;
  (** everything outside the process *)
  world : Type;
  (** [time.time()] *)
  time_time : world -> timestamp * world;
  (** the POST of [_call_openrouter] with its status check and its
      exception handler: the content of a 200 reply, or [None] *)
  openrouter_chat : str -> prompt turn -> world -> option str * world;
  (** [GenerativeModel(model).generate_content(prompt)] and the reading of
      the reply *)
  gemini_generate : str -> prompt turn -> world -> gemini_result * world;
  (** [config.GEMINI_API_KEY] *)
  GEMINI_API_KEY : str
}.

(** [config.OPENROUTER_MODELS] and [config.GEMINI_MODELS] *)
Definition OPENROUTER_MODELS : list str :=
  [ u "meta-llama/llama-3.3-70b-instruct:free";
    u "google/gemma-2-9b-it:free";
    u "mistralai/mistral-7b-instruct:free" ].

Definition GEMINI_MODELS : list str :=
  [ u "gemini-2.0-flash"; u "gemini-1.5-flash"; u "gemini-1.5-pro" ].

(** [AIManager.GEMINI_COOLDOWN] *)
Definition GEMINI_COOLDOWN : Z := 60.

(** The provider calls a run makes, in order (ghost state). *)
Inductive event (turn : Type) : Type :=
| OpenRouterCall : str -> prompt turn -> event turn
| GeminiCall : str -> prompt turn -> event turn.

Arguments OpenRouterCall {turn} _ _.
Arguments GeminiCall {turn} _ _.

Definition is_gemini_call {turn} (e : event turn) : bool :=
  match e with
  | GeminiCall _ _ => true
  | OpenRouterCall _ _ => false
  end.

Definition event_model {turn} (e : event turn) : str :=
  match e with
  | GeminiCall m _ => m
  | OpenRouterCall m _ => m
  end.

Definition event_prompt {turn} (e : event turn) : prompt turn :=
  match e with
  | GeminiCall _ p => p
  | OpenRouterCall _ p => p
  end.

Section Manager.
Context {U : Unicode} {P : Platform}.

(** The attributes of an [AIManager] instance the code reads or writes. *)
Record AIManager : Type := {
  openrouter_models : list str;
  gemini_models : list str;
  gemini_cooldown_until : timestamp;
  gemini_consecutive_429 : Z
}.

(** [AIManager.__init__] *)
Definition AIManager_init : AIManager :=
  {| openrouter_models := OPENROUTER_MODELS;
     gemini_models := GEMINI_MODELS;
     gemini_cooldown_until := ts_of_int 0;
     gemini_consecutive_429 := 0%Z |}.

Record state : Type := {
  st_world : world;
  st_self : AIManager;
  st_log : list (event turn)
}.

(** Computations of the manager: a state monad. *)
Definition M (A : Type) : Type := state -> A * state.

Definition ret {A} (a : A) : M A := fun s => (a, s).

Definition bind {A B} (m : M A) (k : A -> M B) : M B :=
  fun s => let (a, s') := m s in k a s'.

Notation "x <- m ;; k" := (bind m (fun x => k))
  (at level 61, m at next level, right associativity).
Notation "m ;;; k" := (bind m (fun _ => k))
  (at level 61, right associativity).

Definition get_self : M AIManager := fun s => (st_self s, s).

Definition set_self (a : AIManager) : M unit :=
  fun s => (tt, {| st_world := st_world s; st_self := a;
                   st_log := st_log s |}).

Definition record (e : event turn) : M unit :=
  fun s => (tt, {| st_world := st_world s; st_self := st_self s;
                   st_log := st_log s ++ [e] |}).

(** An operation of the platform, run on the world of the state. *)
Definition perform {A} (op : world -> A * world) : M A :=
  fun s => let (a, w) := op (st_world s) in
           (a, {| st_world := w; st_self := st_self s;
                  st_log := st_log s |}).

(** [AIManager._can_call_gemini] *)
Definition _can_call_gemini : M bool :=
  if negb (truthy (Some GEMINI_API_KEY)) then ret false
  else
    now <- perform time_time ;;
    self <- get_self ;;
    if ts_ltb now (gemini_cooldown_until self) then ret false
    else ret true.

(** ["429" in error_str or "Resource exhausted" in error_str] *)
Definition is_throttling (error_str : str) : bool :=
  contains (u "429") error_str
  || contains (u "Resource exhausted") error_str.

(** [min(GEMINI_COOLDOWN * (2 ** (count - 1)), 600)] *)
Definition backoff_of (count : Z) : Z :=
  Z.min (GEMINI_COOLDOWN * 2 ^ (count - 1))%Z 600%Z.

(** [AIManager._handle_gemini_error] *)
Definition _handle_gemini_error (error_str : str) : M unit :=
  if is_throttling error_str then
    self <- get_self ;;
    let count := (gemini_consecutive_429 self + 1)%Z in
    let backoff := backoff_of count in
    now <- perform time_time ;;
    set_self {| openrouter_models := openrouter_models self;
                gemini_models := gemini_models self;
                gemini_cooldown_until := ts_add now backoff;
                gemini_consecutive_429 := count |}
  else ret tt.

(** [AIManager._build_prompt] *)
Definition _build_prompt (user_message pdf_context web_context : str)
    (history : option (list turn)) : prompt turn :=
  {| prompt_pdf := pdf_context;
     prompt_web := slice_to 20000 web_context;
     prompt_history :=
       match history with
       | Some (t :: h) => Some (last_two (t :: h))
       | _ => None
       end;
     prompt_query := user_message |}.

(** [AIManager._call_openrouter] *)
Definition _call_openrouter (model user_message pdf_context web_context : str)
    (history : option (list turn)) : M (option str) :=
  let p := _build_prompt user_message pdf_context web_context history in
  record (OpenRouterCall model p) ;;;
  perform (openrouter_chat model p).

(** [AIManager._call_gemini] *)
Definition _call_gemini (model_name user_message pdf_context web_context : str)
    (history : option (list turn)) : M (option str) :=
  let p := _build_prompt user_message pdf_context web_context history in
  record (GeminiCall model_name p) ;;;
  r <- perform (gemini_generate model_name p) ;;
  match r with
  | GeminiReply text => ret text
  | GeminiRaised e => _handle_gemini_error e ;;; ret None
  end.

(** The body of the loop of [_run_model_chain]: one provider call. *)
Definition call_provider (provider model_name user_message pdf_context
    web_context : str) (history : option (list turn)) : M (option str) :=
  if str_eqb provider (u "openrouter")
  then _call_openrouter model_name user_message pdf_context web_context
         history
  else _call_gemini model_name user_message pdf_context web_context history.

(** The loop of [_run_model_chain] over [models]. *)
Fixpoint chain_loop (provider user_message pdf_context web_context : str)
    (history : option (list turn)) (query_type : str) (models : list str)
  : M (option str) :=
  match models with
  | [] => ret None
  | model_name :: rest =>
      response <- call_provider provider model_name user_message
                    pdf_context web_context history ;;
      if truthy response then
        if _is_useful_response response query_type then ret response
        else chain_loop provider user_message pdf_context web_context
               history query_type rest
      else chain_loop provider user_message pdf_context web_context
             history query_type rest
  end.

(** [AIManager._run_model_chain] *)
Definition _run_model_chain (provider user_message pdf_context
    web_context : str) (history : option (list turn)) (query_type : str)
  : M (option str) :=
  self <- get_self ;;
  let models :=
    if str_eqb provider (u "openrouter") then openrouter_models self
    else gemini_models self in
  chain_loop provider user_message pdf_context web_context history
    query_type models.

(** [AIManager.generate_response] *)
Definition generate_response (user_message pdf_context web_context : str)
    (conversation_history : option (list turn)) : M (option str) :=
  let query_type := classify_query user_message in
  let context_limited := slice_to 200000 pdf_context in
  or_response <- _run_model_chain (u "openrouter") user_message
                   context_limited web_context conversation_history
                   query_type ;;
  if truthy or_response && _is_useful_response or_response query_type
  then ret or_response
  else
    ok <- _can_call_gemini ;;
    if ok then
      gm_response <- _run_model_chain (u "gemini") user_message pdf_context
                       web_context conversation_history query_type ;;
      if truthy gm_response then ret gm_response
      else ret or_response
    else ret or_response.

(** *** Reading a run *)

(** The events a computation adds to the log of [s]. *)
Definition new_events {A} (m : M A) (s : state) : list (event turn) :=
  skipn (length (st_log s)) (st_log (snd (m s))).

(** The number of Gemini calls in a log. *)
Definition gemini_calls (l : list (event turn)) : nat :=
  length (filter is_gemini_call l).

(** The responses the models of a chain would give if each of them were
    called, one after the other, from [s]. *)
Fixpoint chain_responses (provider user_message pdf_context
    web_context : str) (history : option (list turn)) (models : list str)
    (s : state) : list (option str) :=
  match models with
  | [] => []
  | model_name :: rest =>
      let (r, s') := call_provider provider model_name user_message
                       pdf_context web_context history s in
      r :: chain_responses provider user_message pdf_context web_context
             history rest s'
  end.

(** The state after calling each of [models] in turn. *)
Fixpoint after_calls (provider user_message pdf_context web_context : str)
    (history : option (list turn)) (models : list str) (s : state)
  : state :=
  match models with
  | [] => s
  | model_name :: rest =>
      after_calls provider user_message pdf_context web_context history
        rest
        (snd (call_provider provider model_name user_message pdf_context
                web_context history s))
  end.

(** The event of the call of [model_name]. *)
Definition call_event (provider user_message pdf_context web_context : str)
    (history : option (list turn)) (model_name : str) : event turn :=
  let p := _build_prompt user_message pdf_context web_context history in
  if str_eqb provider (u "openrouter") then OpenRouterCall model_name p
  else GeminiCall model_name p.

(** The models of a provider, as [_run_model_chain] selects them. *)
Definition models_of (provider : str) (self : AIManager) : list str :=
  if str_eqb provider (u "openrouter") then openrouter_models self
  else gemini_models self.

(** *** The life of a manager

    What is done with a manager between its creation and an error: calls
    of the methods that reach the rate limiter or a provider.  The only
    caller of [_handle_gemini_error] in the code is [_call_gemini]. *)
Inductive use : Type :=
| Handles (error_str : str)
| CallsGemini (model_name user_message pdf_context web_context : str)
    (history : option (list turn))
| CallsOpenRouter (model user_message pdf_context web_context : str)
    (history : option (list turn))
| AsksGate.

Definition run_use (x : use) : M unit :=
  match x with
  | Handles error_str => _handle_gemini_error error_str
  | CallsGemini model_name user_message pdf_context web_context history =>
      _call_gemini model_name user_message pdf_context web_context history ;;;
      ret tt
  | CallsOpenRouter model user_message pdf_context web_context history =>
      _call_openrouter model user_message pdf_context web_context history ;;;
      ret tt
  | AsksGate => _can_call_gemini ;;; ret tt
  end.

Fixpoint run_uses (uses : list use) : M unit :=
  match uses with
  | [] => ret tt
  | x :: rest => run_use x ;;; run_uses rest
  end.

(** The call of the model [model_name] in [_run_model_chain], as a use. *)
Definition use_of (provider user_message pdf_context web_context : str)
    (history : option (list turn)) (model_name : str) : use :=
  if str_eqb provider (u "openrouter")
  then CallsOpenRouter model_name user_message pdf_context web_context
         history
  else CallsGemini model_name user_message pdf_context web_context history.

(** Whether the use [x], made in the state [s], has the handler handle a
    throttling error: the handler is given one, or the SDK raises one in
    [_call_gemini]. *)
Definition throttled (x : use) (s : state) : bool :=
  match x with
  | Handles error_str => is_throttling error_str
  | CallsGemini model_name user_message pdf_context web_context history =>
      match fst (gemini_generate model_name
                   (_build_prompt user_message pdf_context web_context
                      history) (st_world s)) with
      | GeminiRaised e => is_throttling e
      | GeminiReply _ => false
      end
  | CallsOpenRouter _ _ _ _ _ => false
  | AsksGate => false
  end.

(** The number of throttling errors handled in the course of [uses],
    made one after the other from [s]. *)
Fixpoint throttlings (uses : list use) (s : state) : Z :=
  match uses with
  | [] => 0%Z
  | x :: rest =>
      ((if throttled x s then 1 else 0)
       + throttlings rest (snd (run_use x s)))%Z
  end.
End Manager.

(* ================================================================== *)
(** ** A concrete interpreter and a scripted platform

    Used to run the definitions on concrete inputs. *)

(** [str.lower] on one code point below 256: the letters A-Z and the
    capital letters of Latin-1 (all of 192..222 but the sign 215). *)
Definition lower_latin1 (c : N) : N :=
  if ((65 <=? c) && (c <=? 90)
      || (192 <=? c) && (c <=? 222) && negb (c =? 215))%N
  then (c + 32)%N else c.

(** The tables restricted to Latin-1 text: lowering is letter by letter
    and the decimal digits are 0-9. *)
Definition Latin1 : Unicode :=
  {| lower := map lower_latin1;
     is_decimal := fun c => ((48 <=? c) && (c <=? 57))%N |}.

(** What the outside world will answer, in order: the readings of the
    clock (in whole seconds), the replies of OpenRouter and the results of
    the Gemini SDK. *)
Record script : Type := {
  clock_readings : list Z;
  openrouter_replies : list (option str);
  gemini_results : list gemini_result
}.

Definition script_time (w : script) : Z * script :=
  match clock_readings w with
  | [] => (0%Z, w)
  | t :: rest =>
      (t, {| clock_readings := rest;
             openrouter_replies := openrouter_replies w;
             gemini_results := gemini_results w |})
  end.

Definition script_openrouter (w : script) : option str * script :=
  match openrouter_replies w with
  | [] => (None, w)
  | r :: rest =>
      (r, {| clock_readings := clock_readings w;
             openrouter_replies := rest;
             gemini_results := gemini_results w |})
  end.

Definition script_gemini (w : script) : gemini_result * script :=
  match gemini_results w with
  | [] => (GeminiReply None, w)
  | r :: rest =>
      (r, {| clock_readings := clock_readings w;
             openrouter_replies := openrouter_replies w;
             gemini_results := rest |})
  end.

(** A platform that plays a script; history entries are plain strings. *)
Definition Scripted (api_key : str) : Platform :=
  {| turn := str;
     timestamp := Z;
     ts_of_int := fun z => z;
     ts_add := Z.add;
     ts_ltb := Z.ltb;
     world := script;
     time_time := script_time;
     openrouter_chat := fun _ _ => script_openrouter;
     gemini_generate := fun _ _ => script_gemini;
     GEMINI_API_KEY := api_key |}.

(** A fresh manager in front of the world [w]. *)
Definition fresh {U : Unicode} {P : Platform} (w : world) : state :=
  {| st_world := w; st_self := AIManager_init; st_log := [] |}.

(** Sample texts. *)
Definition ask_matricula : str := u "¿Cuánto cuesta la matrícula?".

Definition reply_price : str :=
  u "La matrícula cuesta S/. 450.00 y se paga en la caja del instituto.".

Definition reply_decline : str :=
  u "No encuentro información sobre ese tema en los documentos disponibles.".

Definition reply_decline_contact : str :=
  u "No encuentro información sobre ese tema. Escriba al correo: x@y.com por favor.".

Definition reply_cost_vague : str :=
  u "El costo varía según el programa de estudios que elija el estudiante.".

Definition reply_dates_vague : str :=
  u "Las fechas se publicarán pronto en la página web del instituto superior.".

Definition reply_deadline : str :=
  u "El plazo para presentar los documentos vence el 15 de marzo de este año.".

(** OpenRouter fails, then declines, then answers too briefly; Gemini is
    throttled, then returns nothing, then a vague answer. *)
Definition world_exhausted : script :=
  {| clock_readings := [1000; 1001]%Z;
     openrouter_replies := [None; Some reply_decline; Some (u "Hola")];
     gemini_results := [GeminiRaised (u "429 Too Many Requests");
                        GeminiReply None;
                        GeminiReply (Some reply_cost_vague)] |}.

(** The second OpenRouter model gives a useful answer. *)
Definition world_second_model : script :=
  {| clock_readings := [1000]%Z;
     openrouter_replies := [None; Some reply_price];
     gemini_results := [GeminiReply (Some reply_decline)] |}.

(** OpenRouter gives nothing; the first Gemini model answers. *)
Definition world_gemini_answers : script :=
  {| clock_readings := [1000]%Z;
     openrouter_replies := [];
     gemini_results := [GeminiReply (Some reply_price)] |}.

(** The Gemini SDK is throttled, then answers, then is throttled again a
    thousand seconds later. *)
Definition world_throttled_again : script :=
  {| clock_readings := [1000; 2000]%Z;
     openrouter_replies := [];
     gemini_results := [GeminiRaised (u "429 Too Many Requests");
                        GeminiReply (Some reply_price);
                        GeminiRaised (u "429 Too Many Requests")] |}.

(** The clock of a world in which two errors are handled. *)
Definition world_two_errors : script :=
  {| clock_readings := [1000; 1070]%Z;
     openrouter_replies := [];
     gemini_results := [] |}.

(* ================================================================== *)
(** ** The server (back-end/app.py): sanitising the message *)

(** [s.replace(c, by)] for a pattern of one character. *)
Definition replace_char (c : N) (by_ : str) (s : str) : str :=
  flat_map (fun x => if (x =? c)%N then by_ else [x]) s.

(** [html.escape(s)], with its default [quote=True]: five replacements,
    the one of the ampersand first. *)
Definition html_escape (s : str) : str :=
  let s := replace_char 38 (u "&amp;") s in
  let s := replace_char 60 (u "&lt;") s in
  let s := replace_char 62 (u "&gt;") s in
  let s := replace_char 34 (u "&quot;") s in
  replace_char 39 (u "&#x27;") s.

(** What [html.escape] puts in the place of one character. *)
Definition escape_char (c : N) : str :=
  if (c =? 38)%N then u "&amp;"
  else if (c =? 60)%N then u "&lt;"
  else if (c =? 62)%N then u "&gt;"
  else if (c =? 34)%N then u "&quot;"
  else if (c =? 39)%N then u "&#x27;"
  else [c].

(** The class [[\x00-\x08\x0b\x0c\x0e-\x1f\x7f]]. *)
Definition is_control (c : N) : bool :=
  ((c <=? 8) || (c =? 11) || (c =? 12)
   || (14 <=? c) && (c <=? 31) || (c =? 127))%N.

(** [re.sub(r'[\x00-\x08\x0b\x0c\x0e-\x1f\x7f]', '', s)] *)
Definition remove_control (s : str) : str :=
  filter (fun c => negb (is_control c)) s.

(** The characters [str.strip()] removes: those CPython counts as
    whitespace. *)
Definition is_space (c : N) : bool :=
  ((9 <=? c) && (c <=? 13) || (28 <=? c) && (c <=? 32)
   || (c =? 133) || (c =? 160) || (c =? 5760)
   || (8192 <=? c) && (c <=? 8202)
   || (c =? 8232) || (c =? 8233) || (c =? 8239) || (c =? 8287)
   || (c =? 12288))%N.

Fixpoint lstrip (s : str) : str :=
  match s with
  | c :: s' => if is_space c then lstrip s' else s
  | [] => []
  end.

Definition rstrip (s : str) : str := rev (lstrip (rev s)).

(** [s.strip()] *)
Definition strip (s : str) : str := rstrip (lstrip s).

Local Unset Elimination Schemes.

(** The values [request.get_json()] gives, over the floats of the
    interpreter. *)
Inductive json (float : Type) : Type :=
| JNull : json float
| JBool : bool -> json float
| JInt : Z -> json float
| JFloat : float -> json float
| JStr : str -> json float
| JList : list (json float) -> json float
| JDict : list (str * json float) -> json float.

Local Set Elimination Schemes.

Arguments JNull {float}.
Arguments JBool {float} _.
Arguments JInt {float} _.
Arguments JFloat {float} _.
Arguments JStr {float} _.
Arguments JList {float} _.
Arguments JDict {float} _.

(** [MAX_MESSAGE_LENGTH] *)
Definition MAX_MESSAGE_LENGTH : nat := 2000.

(** [sanitize_input] *)
Definition sanitize_input {float} (text : json float) : str :=
  match text with
  | JStr t =>
      let sanitized := html_escape t in
      let sanitized := remove_control sanitized in
      strip sanitized
  | _ => []
  end.

(* ================================================================== *)
(** ** The server: the chat endpoint *)

(** A call that returns or raises. *)
Inductive result (E A : Type) : Type :=
| Returned : A -> result E A
| Raised : E -> result E A.

Arguments Returned {E A} _.
Arguments Raised {E A} _.

(** What [log_consultation] returns: a row number, or [False] when the
    service is not connected. *)
Inductive row_ref : Type :=
| RowInt : Z -> row_ref
| RowFalse : row_ref.

(** What the handler of [/api/chat] and the Sheets manager depend on
    besides the AI manager: the interpreter's floats, exceptions and
    dates, Flask's request, the two other managers, and the Sheets API.
    Their operations return or raise. *)
Class Server {P : Platform} := {
  float : Type;
  (** [bool(f)] *)
  float_truthy : float -> bool;
  exn : Type;
  (** [str(e)] *)
  str_of_exn : exn -> str;
  (** [int(f)] for a float *)
  int_of_float : float -> result exn Z;
  (** [int(s)] for a string *)
  int_of_str : str -> result exn Z;
  (** the [TypeError] of [int(v)] for [None], a list or a dict *)
  int_type_error : json float -> exn;
  (** the [TypeError] of ['message' in v] for a number or [True] *)
  contains_type_error : json float -> exn;
  (** the [TypeError] of [v['message']] for a list or a string *)
  getitem_type_error : json float -> exn;
  (** an entry of the ['history'] list as the prompt shows it *)
  history_entry : json float -> turn;
  (** [google_drive.is_authenticated()] *)
  is_authenticated : world -> result exn bool * world;
  (** [request.get_json()] *)
  get_json : world -> result exn (json float) * world;
  (** [get_drive_manager()] and [get_web_scraper()]: the first call
      builds the instance *)
  get_drive_manager : world -> result exn unit * world;
  get_web_scraper : world -> result exn unit * world;
  (** [GoogleDriveManager.get_all_documents_text()] *)
  get_all_documents_text : world -> result exn str * world;
  (** [WebScraper.get_all_website_content()] *)
  get_all_website_content : world -> result exn str * world;
  (** [google_drive.get_credentials()]: whether it returns credentials;
      it catches its own exceptions *)
  get_credentials : world -> bool * world;
  (** [build('sheets', 'v4', credentials=creds)] *)
  build_sheets : world -> result exn unit * world;
  (** the values of [datetime] *)
  datetime : Type;
  (** [datetime.now()] *)
  datetime_now : world -> datetime * world;
  (** [d.strftime("%Y-%m-%d")] and [d.strftime("%H:%M:%S")] *)
  strftime_date : datetime -> str;
  strftime_time : datetime -> str;
  (** [datetime.strptime(s, "%Y-%m-%d %H:%M:%S")] *)
  strptime : str -> result exn datetime;
  (** [d - timedelta(seconds=n)] *)
  minus_seconds : datetime -> Z -> datetime;
  (** [a < b] for two dates *)
  datetime_ltb : datetime -> datetime -> bool;
  (** [values().get(spreadsheetId=GOOGLE_SHEET_ID, range=r).execute()]
      and the ['values'] of the reply, [[]] when it has none *)
  values_get : str -> world -> result exn (list (list str)) * world;
  (** [values().update(spreadsheetId=GOOGLE_SHEET_ID, range=r,
      valueInputOption='RAW', body={'values': [row]}).execute()] *)
  values_update : str -> list str -> world -> result exn unit * world;
  (** [values().append(spreadsheetId=GOOGLE_SHEET_ID, range='A:I',
      valueInputOption='RAW', insertDataOption='INSERT_ROWS',
      body={'values': [row]}).execute()] and the ['updatedRange'] of the
      ['updates'] of the reply, [''] when it has none *)
  values_append : list str -> world -> result exn str * world
}.

(** [config.DEBUG_MODE] *)
Definition DEBUG_MODE : bool := true.

(** The write requests sent to the Sheets API (ghost state): an update
    of a range with a row, or a row appended to the range A:I. *)
Inductive sheet_write : Type :=
| ValuesUpdate (range_name : str) (row : list str)
| ValuesAppend (row : list str).

(** The attribute of a [GoogleSheetsManager]; [sheets_service_ready] is
    [self.service is not None]. *)
Record GoogleSheetsManager : Type := {
  sheets_service_ready : bool
}.

(** The header row of [_ensure_headers]. *)
Definition headers : list str :=
  [ u "Fecha"; u "Hora"; u "Consulta del Usuario"; u "Respuesta del Bot";
    u "Tipo de Consulta"; u "Estado"; u "Feedback";
    u "Comentario Feedback"; u "ID Mensaje" ].

(** [f"{n}"] for an integer. *)
Definition str_of_int (n : Z) : str :=
  bytes_of_string (NilZero.string_of_int (Z.to_int n)).

(** [f"A{row_number}:F{row_number}"] *)
Definition range_name (row_number : Z) : str :=
  u "A" ++ str_of_int row_number ++ u ":F" ++ str_of_int row_number.

(** [r'!A(\d+):'] *)
Definition row_pattern : regex :=
  ReSeq (re_lit (u "!A")) (ReSeq (re_plus ReDigit) (ReChar 58)).

(** The replies of [chat]: the status code and the fields of the body
    that vary. *)
Inductive chat_response : Type :=
| Response401 : chat_response
| Response400 (error : str) : chat_response
| Response200 (response query_type : str) (row_number : row_ref)
  : chat_response
| Response500 (details : option str) : chat_response.

(** The text sent when both providers fail. *)
Definition apology : str :=
  u "Lo siento, estoy teniendo dificultades técnicas para procesar tu consulta en este momento. Por favor, intenta nuevamente en unos segundos.".

(** The message of [search_in_documents] when no text could be loaded. *)
Definition no_documents : str :=
  u "No se pudieron cargar los documentos. Por favor, intenta más tarde.".

Section Chat.
Context {U : Unicode} {P : Platform} {V : Server}.

(** [bool(v)] *)
Definition json_truthy (v : json float) : bool :=
  match v with
  | JNull => false
  | JBool b => b
  | JInt z => negb (z =? 0)%Z
  | JFloat f => float_truthy f
  | JStr t => negb (str_eqb t [])
  | JList l => match l with [] => false | _ => true end
  | JDict d => match d with [] => false | _ => true end
  end.

(** [key in d] and [d.get(key)] for the items of a dict. *)
Fixpoint dict_has (d : list (str * json float)) (key : str) : bool :=
  match d with
  | [] => false
  | (k, _) :: d' => str_eqb k key || dict_has d' key
  end.

Fixpoint dict_get (d : list (str * json float)) (key : str)
    (default : json float) : json float :=
  match d with
  | [] => default
  | (k, v) :: d' => if str_eqb k key then v else dict_get d' key default
  end.

(** [key in v] for a string [key] *)
Definition json_contains (key : str) (v : json float) : result exn bool :=
  match v with
  | JDict d => Returned (dict_has d key)
  | JList l =>
      Returned (existsb (fun x => match x with
                                  | JStr t => str_eqb t key
                                  | _ => false
                                  end) l)
  | JStr t => Returned (contains key t)
  | _ => Raised (contains_type_error v)
  end.

(** [int(v)] *)
Definition py_int (v : json float) : result exn Z :=
  match v with
  | JBool b => Returned (if b then 1 else 0)%Z
  | JInt z => Returned z
  | JFloat f => int_of_float f
  | JStr t => int_of_str t
  | _ => Raised (int_type_error v)
  end.

(** [row_number_input and int(row_number_input) > 0] *)
Definition row_given (row_number_input : json float) : result exn bool :=
  if json_truthy row_number_input then
    match py_int row_number_input with
    | Returned n => Returned (0 <? n)%Z
    | Raised e => Raised e
    end
  else Returned false.

(** The state of a request: the AI manager in front of the world, the
    module's [_sheets_manager] ([None] until the first call of
    [get_sheets_manager]), and the write requests sent to the Sheets API
    so far. *)
Record server_state : Type := {
  sv_ai : state;
  sv_sheets_manager : option GoogleSheetsManager;
  sv_sheets : list sheet_write
}.

Definition Handler (A : Type) : Type := server_state -> A * server_state.

Definition sret {A} (a : A) : Handler A := fun s => (a, s).

Definition sbind {A B} (m : Handler A) (k : A -> Handler B) : Handler B :=
  fun s => let (a, s') := m s in k a s'.

(** Sequencing that stops at the first exception. *)
Definition tbind {A B} (m : Handler (result exn A)) (k : A -> Handler (result exn B))
    : Handler (result exn B) :=
  sbind m (fun r => match r with
                    | Returned a => k a
                    | Raised e => sret (Raised e)
                    end).

Notation "x <-- m ;; k" := (tbind m (fun x => k))
  (at level 61, m at next level, right associativity).
Notation "x <~ m ;; k" := (sbind m (fun x => k))
  (at level 61, m at next level, right associativity).

(** A computation of the AI manager inside a request. *)
Definition with_ai {A} (m : M A) : Handler A :=
  fun s => let (a, t) := m (sv_ai s) in
           (a, {| sv_ai := t; sv_sheets_manager := sv_sheets_manager s;
                  sv_sheets := sv_sheets s |}).

(** An operation of the server, run on the world. *)
Definition call {A} (op : world -> result exn A * world)
    : Handler (result exn A) :=
  with_ai (perform op).

(** An operation of the server that does not raise. *)
Definition ask {A} (op : world -> A * world) : Handler A :=
  with_ai (perform op).

Definition wrote (x : sheet_write) : Handler unit :=
  fun s => (tt, {| sv_ai := sv_ai s;
                   sv_sheets_manager := sv_sheets_manager s;
                   sv_sheets := sv_sheets s ++ [x] |}).

(** [_sheets_manager = m] *)
Definition set_sheets_manager (m : GoogleSheetsManager) : Handler unit :=
  fun s => (tt, {| sv_ai := sv_ai s; sv_sheets_manager := Some m;
                   sv_sheets := sv_sheets s |}).

(** A value computed by the interpreter, which may have raised. *)
Definition pure {A} (r : result exn A) : Handler (result exn A) := sret r.

(** [GoogleDriveManager.search_in_documents] *)
Definition search_in_documents (query : str) : Handler (result exn str) :=
  all_text <-- call get_all_documents_text ;;
  if negb (truthy (Some all_text)) then sret (Returned no_documents)
  else sret (Returned all_text).

(** *** The Sheets manager (back-end/google_sheets.py) *)

(** [GoogleSheetsManager.is_ready] *)
Definition is_ready (self : GoogleSheetsManager) : bool :=
  sheets_service_ready self.

(** [GoogleSheetsManager._ensure_headers]; the method catches the
    exceptions of the API. *)
Definition _ensure_headers (self : GoogleSheetsManager) : Handler unit :=
  if negb (is_ready self) then sret tt
  else
    result <~ call (values_get (u "A1:I1")) ;;
    match result with
    | Returned values =>
        if match values with
           | [] => true
           | first :: _ => length first <? 9
           end
        then
          _ <~ wrote (ValuesUpdate (u "A1:I1") headers) ;;
          _ <~ call (values_update (u "A1:I1") headers) ;;
          sret tt
        else sret tt
    | Raised _ => sret tt
    end.

(** [GoogleSheetsManager.__init__]: the manager it builds, unless
    [build] raises. *)
Definition GoogleSheetsManager_init
    : Handler (result exn GoogleSheetsManager) :=
  creds <~ ask get_credentials ;;
  if creds then
    _ <-- call build_sheets ;;
    let self := {| sheets_service_ready := true |} in
    _ <~ _ensure_headers self ;;
    sret (Returned self)
  else sret (Returned {| sheets_service_ready := false |}).

(** [get_sheets_manager]: the module's manager, built at the first
    call; when the constructor raises there is still none. *)
Definition get_sheets_manager : Handler (result exn GoogleSheetsManager) :=
  fun s =>
    match sv_sheets_manager s with
    | Some self => (Returned self, s)
    | None =>
        (self <-- GoogleSheetsManager_init ;;
         _ <~ set_sheets_manager self ;;
         sret (Returned self)) s
    end.

(** The loop of [find_recent_duplicate], at the index [i] and below: a
    row of fewer than three cells or whose date does not parse is passed
    over, a row older than the cutoff ends the search. *)
Fixpoint duplicate_scan (values : list (list str)) (cutoff_time : datetime)
    (user_query : str) (i : nat) : Z :=
  match i with
  | O => 0%Z
  | S i' =>
      let row := nth i values [] in
      if length row <? 3
      then duplicate_scan values cutoff_time user_query i'
      else
        let fecha_str := nth 0 row [] in
        let hora_str := nth 1 row [] in
        let consulta := if 2 <? length row then nth 2 row [] else [] in
        match strptime (fecha_str ++ u " " ++ hora_str) with
        | Returned row_datetime =>
            if datetime_ltb row_datetime cutoff_time then 0%Z
            else if str_eqb (lower (strip consulta))
                      (lower (strip (slice_to 1000 user_query)))
            then (Z.of_nat i + 1)%Z
            else duplicate_scan values cutoff_time user_query i'
        | Raised _ => duplicate_scan values cutoff_time user_query i'
        end
  end.

(** [GoogleSheetsManager.find_recent_duplicate]: it only reads the
    sheet, and gives 0 when the read raises. *)
Definition find_recent_duplicate (self : GoogleSheetsManager)
    (user_query : str) (time_window_seconds : Z) : Handler Z :=
  if negb (is_ready self) then sret 0%Z
  else
    result <~ call (values_get (u "A:F")) ;;
    match result with
    | Returned values =>
        if length values <=? 1 then sret 0%Z
        else
          now <~ ask datetime_now ;;
          let cutoff_time := minus_seconds now time_window_seconds in
          sret (duplicate_scan values cutoff_time user_query
                  (length values - 1))
    | Raised _ => sret 0%Z
    end.

(** [GoogleSheetsManager.update_consultation]; the write request is
    entered in the ghost log as it is sent, and an exception of the API
    gives [False]. *)
Definition update_consultation (self : GoogleSheetsManager)
    (row_number : Z) (user_query bot_response query_type status : str)
    : Handler bool :=
  if negb (is_ready self) || (row_number <=? 0)%Z then sret false
  else
    now <~ ask datetime_now ;;
    let row :=
      [ strftime_date now; strftime_time now; slice_to 1000 user_query;
        slice_to 50000 bot_response; query_type; status ] in
    _ <~ wrote (ValuesUpdate (range_name row_number) row) ;;
    done <~ call (values_update (range_name row_number) row) ;;
    match done with
    | Returned _ => sret true
    | Raised _ => sret false
    end.

(** The digits at the head of [s], and the rest of it. *)
Fixpoint span_digits (s : str) : str * str :=
  match s with
  | c :: s' =>
      if is_decimal c
      then let (digits, rest) := span_digits s' in (c :: digits, rest)
      else ([], s)
  | [] => ([], [])
  end.

(** [re.search(r'!A(\d+):', s)] and the group 1 of the match: the
    digits of the first "!A" that digits and a colon follow
    ([search_row_none] and [search_row_some] compare it with
    [row_pattern]). *)
Fixpoint search_row (s : str) : option str :=
  match s with
  | [] => None
  | c :: s' =>
      if startswith (u "!A") s then
        match span_digits (skipn 2 s) with
        | (d :: digits, 58%N :: _) => Some (d :: digits)
        | _ => search_row s'
        end
      else search_row s'
  end.

(** The test [search_row] makes at one position: the digits of a match
    that starts there. *)
Definition row_here (s : str) : option str :=
  if startswith (u "!A") s then
    match span_digits (skipn 2 s) with
    | (d :: digits, 58%N :: _) => Some (d :: digits)
    | _ => None
    end
  else None.

(** [GoogleSheetsManager.log_consultation]: [False] without a service;
    the update of a recent duplicate, when there is one; a new row
    otherwise, with the row number read off the range of the reply, 0
    when the API raises or no number can be read. *)
Definition log_consultation (self : GoogleSheetsManager)
    (user_query bot_response query_type status : str) : Handler row_ref :=
  if negb (is_ready self) then sret RowFalse
  else
    duplicate_row <~ find_recent_duplicate self user_query 60 ;;
    if (0 <? duplicate_row)%Z then
      success <~ update_consultation self duplicate_row user_query
                   bot_response query_type status ;;
      sret (RowInt (if success then duplicate_row else 0))
    else
      now <~ ask datetime_now ;;
      let row :=
        [ strftime_date now; strftime_time now; slice_to 1000 user_query;
          slice_to 50000 bot_response; query_type; status; []; []; [] ] in
      _ <~ wrote (ValuesAppend row) ;;
      result <~ call (values_append row) ;;
      match result with
      | Returned updated_range =>
          let row_number :=
            if truthy (Some updated_range) then
              match search_row updated_range with
              | Some digits =>
                  match int_of_str digits with
                  | Returned n => n
                  | Raised _ => 0%Z
                  end
              | None => 0%Z
              end
            else 0%Z in
          sret (RowInt row_number)
      | Raised _ => sret (RowInt 0)
      end.

(** *** The handler of [/api/chat] *)

(** The part of [chat] from the AI call on: the reply and the record in
    Sheets. *)
Definition chat_answer (sheets_manager : GoogleSheetsManager)
    (data : list (str * json float))
    (user_message query_type pdf_context web_context : str)
    (conversation_history : list (json float))
    : Handler (result exn chat_response) :=
  response <-- with_ai
                 (fun s =>
                    let (r, s') :=
                      generate_response user_message pdf_context web_context
                        (Some (map history_entry conversation_history)) s in
                    (Returned r, s')) ;;
  match response with
  | None =>
      let row_number_input := dict_get data (u "row_number") JNull in
      given <-- pure (row_given row_number_input) ;;
      if given then
        row_number <-- pure (py_int row_number_input) ;;
        sret (Returned (Response200 apology query_type (RowInt row_number)))
      else sret (Returned (Response200 apology query_type (RowInt 0)))
  | Some response =>
      let status := u "completado" in
      let row_number_input := dict_get data (u "row_number") JNull in
      given <-- pure (row_given row_number_input) ;;
      if given then
        row <-- pure (py_int row_number_input) ;;
        _ <~ update_consultation sheets_manager row user_message response
               query_type status ;;
        row_number <-- pure (py_int row_number_input) ;;
        sret (Returned (Response200 response query_type (RowInt row_number)))
      else
        row_number <~ log_consultation sheets_manager user_message response
                        query_type status ;;
        sret (Returned (Response200 response query_type row_number))
  end.

(** The body of the [try] of [chat].  [data['message']] raises for a
    list or a string that has 'message' in it. *)
Definition chat_body : Handler (result exn chat_response) :=
  authenticated <-- call is_authenticated ;;
  if negb authenticated then sret (Returned Response401)
  else
    data <-- call get_json ;;
    if negb (json_truthy data)
    then sret (Returned (Response400 (u "No se proporcionó un mensaje")))
    else
      has_message <-- pure (json_contains (u "message") data) ;;
      if negb has_message
      then sret (Returned (Response400 (u "No se proporcionó un mensaje")))
      else
        match data with
        | JDict items =>
            let raw_message := dict_get items (u "message") JNull in
            match raw_message with
            | JStr _ =>
                let user_message := sanitize_input raw_message in
                if negb (truthy (Some user_message))
                then sret (Returned (Response400 (u "El mensaje está vacío")))
                else if MAX_MESSAGE_LENGTH <? length user_message
                then sret (Returned
                             (Response400
                                (u "El mensaje excede el límite de 2000 caracteres")))
                else
                  let conversation_history :=
                    match dict_get items (u "history") (JList []) with
                    | JList l => l
                    | _ => []
                    end in
                  _ <-- call get_drive_manager ;;
                  sheets_manager <-- get_sheets_manager ;;
                  _ <-- call get_web_scraper ;;
                  let query_type := classify_query user_message in
                  pdf_context <-- search_in_documents user_message ;;
                  web_context <-- call get_all_website_content ;;
                  chat_answer sheets_manager items user_message query_type
                    pdf_context web_context conversation_history
            | _ =>
                sret (Returned (Response400 (u "El mensaje debe ser texto")))
            end
        | _ => sret (Raised (getitem_type_error data))
        end.

(** [chat]: the body, and the reply of the [except] clause. *)
Definition chat : Handler chat_response :=
  sbind chat_body
    (fun r => match r with
              | Returned reply => sret reply
              | Raised e =>
                  sret (Response500
                          (if DEBUG_MODE then Some (str_of_exn e) else None))
              end).

(** The write requests and the provider calls a computation adds. *)
Definition new_writes {A} (m : Handler A) (s : server_state) : list sheet_write :=
  skipn (length (sv_sheets s)) (sv_sheets (snd (m s))).

Definition new_calls {A} (m : Handler A) (s : server_state)
    : list (event turn) :=
  skipn (length (st_log (sv_ai s))) (st_log (sv_ai (snd (m s)))).

(** The ['message'] of the body of the request that [chat] answers from
    [s], when the body is a dict and the message a string. *)
Definition request_message (s : server_state) : option str :=
  match fst (call get_json (snd (call is_authenticated s))) with
  | Returned (JDict items) =>
      match dict_get items (u "message") JNull with
      | JStr raw => Some raw
      | _ => None
      end
  | _ => None
  end.

(** A request arriving at a fresh server. *)
Definition arriving (w : world) : server_state :=
  {| sv_ai := fresh w; sv_sheets_manager := None; sv_sheets := [] |}.
End Chat.

(* ================================================================== *)
(** ** Statistics of the consultations (back-end/google_sheets.py) *)

(** [d.get(k, default)] and [d[k] = v] for a dict from strings to counts,
    kept as its items in insertion order. *)
Fixpoint count_get (d : list (str * Z)) (k : str) (default : Z) : Z :=
  match d with
  | [] => default
  | (k', v) :: d' => if str_eqb k' k then v else count_get d' k default
  end.

Fixpoint count_set (d : list (str * Z)) (k : str) (v : Z)
    : list (str * Z) :=
  match d with
  | [] => [(k, v)]
  | (k', v') :: d' =>
      if str_eqb k' k then (k', v) :: d' else (k', v') :: count_set d' k v
  end.

(** The loop of [get_statistics] over the rows below the header. *)
Definition tally (rows : list (list str)) : list (str * Z) :=
  fold_left
    (fun tipo_count row =>
       if 5 <=? length row then
         let tipo := nth 4 row [] in
         count_set tipo_count tipo (count_get tipo_count tipo 0 + 1)%Z
       else tipo_count)
    rows [].

(** The dict [get_statistics] returns. *)
Record statistics : Type := {
  total : Z;
  por_tipo : list (str * Z);
  stat_error : option str
}.

(** [GoogleSheetsManager.get_statistics]; [ready] is [is_ready()] and
    [read] is what reading the range A:F comes to: the ['values'] of the
    reply, when it has any, or an exception. *)
Definition get_statistics {E : Type} (str_of : E -> str) (ready : bool)
    (read : result E (option (list (list str)))) : statistics :=
  if negb ready then
    {| total := 0; por_tipo := [];
       stat_error := Some (u "Servicio no disponible") |}
  else
    match read with
    | Returned reply =>
        let values := match reply with Some v => v | None => [] end in
        if length values <=? 1 then
          {| total := 0; por_tipo := []; stat_error := None |}
        else
          {| total := Z.of_nat (length values) - 1;
             por_tipo := tally (tl values);
             stat_error := None |}
    | Raised e =>
        {| total := 0; por_tipo := []; stat_error := Some (str_of e) |}
    end.

(** The rows that count for the type [t]: five cells or more, the fifth
    being [t]. *)
Definition rows_of_type (t : str) (rows : list (list str))
    : list (list str) :=
  filter (fun row => (5 <=? length row) && str_eqb (nth 4 row []) t) rows.

(* ================================================================== *)
(** ** The cache of web pages (back-end/web_scraper.py) *)

(** [d.get(k)] and [d[k] = v] for a dict with string keys, kept as its
    items in insertion order. *)
Fixpoint alist_get {A} (d : list (str * A)) (k : str) : option A :=
  match d with
  | [] => None
  | (k', v) :: d' => if str_eqb k' k then Some v else alist_get d' k
  end.

Fixpoint alist_set {A} (d : list (str * A)) (k : str) (v : A)
    : list (str * A) :=
  match d with
  | [] => [(k, v)]
  | (k', v') :: d' =>
      if str_eqb k' k then (k', v) :: d' else (k', v') :: alist_set d' k v
  end.

(** [config.CACHE_REFRESH_INTERVAL] *)
Definition CACHE_REFRESH_INTERVAL : Z := 1800.

(** What the scraper depends on: the comparison of an age with a limit,
    the download and parsing of a page, and the file of the cache. *)
Class Web {P : Platform} := {
  (** [now - cached < limit] *)
  age_below : timestamp -> timestamp -> Z -> bool;
  (** [WebScraper._extract_text_from_page]: the text of the page, or
      [None] when the request or the parsing fails *)
  _extract_text_from_page : str -> world -> option str * world;
  (** [WebScraper._save_cache], given the two dicts it writes *)
  _save_cache :
    list (str * str) -> list (str * timestamp) -> world -> world
}.

Section Scraper.
Context {P : Platform} {W : Web}.

(** The attributes of a [WebScraper] the code reads or writes. *)
Record WebScraper : Type := {
  cache : list (str * str);
  cache_timestamps : list (str * timestamp)
}.

(** [WebScraper._is_cache_valid] *)
Definition _is_cache_valid (self : WebScraper) (url : str) (w : world)
    : bool * world :=
  match alist_get (cache_timestamps self) url with
  | None => (false, w)
  | Some cached =>
      let (now, w') := time_time w in
      (age_below now cached CACHE_REFRESH_INTERVAL, w')
  end.

(** [WebScraper.get_page_content]: the content, the scraper and the
    world afterwards. *)
Definition get_page_content (self : WebScraper) (url : str)
    (force_refresh : bool) (w : world)
    : option str * WebScraper * world :=
  let (valid, w1) :=
    if negb force_refresh then _is_cache_valid self url w else (false, w) in
  if valid then (alist_get (cache self) url, self, w1)
  else
    let (content, w2) := _extract_text_from_page url w1 in
    match content with
    | Some (c :: t) =>
        let (now, w3) := time_time w2 in
        let self' :=
          {| cache := alist_set (cache self) url (c :: t);
             cache_timestamps :=
               alist_set (cache_timestamps self) url now |} in
        (content, self',
         _save_cache (cache self') (cache_timestamps self') w3)
    | _ => (content, self, w2)
    end.
End Scraper.

(* ================================================================== *)
(** ** Downloading a PDF (back-end/google_drive.py) *)

(** [f"{n}"] for a number of pages. *)
Definition decimal (n : nat) : str :=
  bytes_of_string (NilZero.string_of_uint (Nat.to_uint n)).

(** [sep.join(parts)] *)
Fixpoint join (sep : str) (parts : list str) : str :=
  match parts with
  | [] => []
  | [p] => p
  | p :: rest => p ++ sep ++ join sep rest
  end.

(** The loop of [download_pdf] over the pages, from page [page_num]
    (counted from 0): the parts of the pages that have text. *)
Fixpoint page_parts (page_num : nat) (pages : list (option str))
    : list str :=
  match pages with
  | [] => []
  | Some (c :: t) :: rest =>
      (u "--- Página " ++ decimal (page_num + 1) ++ u " ---" ++ [10%N]
       ++ (c :: t))
        :: page_parts (page_num + 1) rest
  | _ :: rest => page_parts (page_num + 1) rest
  end.

(** What the Drive manager depends on: the credentials, the download of
    a file with the text of each of its pages, and [time.sleep]. *)
Class Drive {P : Platform} := {
  drive_exn : Type;
  (** [str(e)] *)
  drive_exn_str : drive_exn -> str;
  (** [get_credentials()] in [reconnect]: whether there are any; the
      service is then built again *)
  credentials_found : world -> bool * world;
  (** the download of the file and [page.extract_text()] for each page *)
  fetch_pages :
    str -> world -> result drive_exn (list (option str)) * world;
  (** [time.sleep(seconds)] *)
  sleep : Z -> world -> world
}.

Section DriveManager.
Context {U : Unicode} {P : Platform} {D : Drive}.

(** An entry of [pdf_cache]; one loaded from the file of the cache may
    lack a key. *)
Record pdf_entry : Type := {
  entry_text : option str;
  entry_modified_time : option str;
  entry_cached_at : option timestamp;
  entry_name : option str
}.

(** The attributes of a [GoogleDriveManager] that [download_pdf] reads or
    writes; [service_ready] is [self.service is not None]. *)
Record GoogleDriveManager : Type := {
  service_ready : bool;
  pdf_cache : list (str * pdf_entry)
}.

(** [GoogleDriveManager.reconnect] *)
Definition reconnect (self : GoogleDriveManager) (w : world)
    : bool * GoogleDriveManager * world :=
  let (creds, w') := credentials_found w in
  if creds
  then (true, {| service_ready := true; pdf_cache := pdf_cache self |}, w')
  else (false, self, w').

(** The retry loop of [download_pdf] with [n] attempts left: the text
    when an attempt succeeds, the manager, the world, and the number of
    attempts made (ghost). *)
Fixpoint download_attempts (n : nat) (self : GoogleDriveManager)
    (file_id file_name : str) (modified_time : option str) (w : world)
    (made : nat) : option str * GoogleDriveManager * world * nat :=
  match n with
  | 0 => (None, self, w, made)
  | S n' =>
      let (r, w1) := fetch_pages file_id w in
      match r with
      | Returned pages =>
          let full_text := join [10%N; 10%N] (page_parts 0 pages) in
          let (now, w2) := time_time w1 in
          (Some full_text,
           {| service_ready := service_ready self;
              pdf_cache :=
                alist_set (pdf_cache self) file_id
                  {| entry_text := Some full_text;
                     entry_modified_time := modified_time;
                     entry_cached_at := Some now;
                     entry_name := Some file_name |} |},
           w2, S made)
      | Raised e =>
          let error_str := drive_exn_str e in
          let '(self1, w2) :=
            if contains (u "401") error_str
               || contains (u "invalid_grant") (lower error_str)
            then let '(_, self', w') := reconnect self w1 in (self', w')
            else (self, w1) in
          download_attempts n' self1 file_id file_name modified_time
            (sleep 1 w2) (S made)
      end
  end.

(** [GoogleDriveManager.download_pdf] *)
Definition download_pdf (self : GoogleDriveManager)
    (file_id file_name : str) (modified_time : option str) (w : world)
    : option str * GoogleDriveManager * world * nat :=
  let '(ready, self0, w0) :=
    if negb (service_ready self) then reconnect self w
    else (true, self, w) in
  if negb ready then (None, self0, w0, 0)
  else
    let hit :=
      match alist_get (pdf_cache self0) file_id with
      | Some cached =>
          if truthy modified_time
          then match entry_modified_time cached, modified_time with
               | Some a, Some b => str_eqb a b
               | _, _ => false
               end
          else false
      | None => false
      end in
    if hit then
      (match alist_get (pdf_cache self0) file_id with
       | Some cached => entry_text cached
       | None => None
       end, self0, w0, 0)
    else
      let '(text, self1, w1, made) :=
        download_attempts 3 self0 file_id file_name modified_time w0 0 in
      match text with
      | Some full_text => (Some full_text, self1, w1, made)
      | None =>
          (match alist_get (pdf_cache self1) file_id with
           | Some cached => entry_text cached
           | None => None
           end, self1, w1, made)
      end.
End DriveManager.

(* ================================================================== *)
(** ** A scripted server and a scripted web site *)

(** [int(s)] for a string of the digits 0-9. *)
Definition int_of_digits (s : str) : result str Z :=
  match s with
  | [] => Raised (u "ValueError")
  | _ =>
      if forallb (fun c => (48 <=? c) && (c <=? 57))%N s
      then Returned (fold_left (fun n c => 10 * n + (Z.of_N c - 48))%Z s 0%Z)
      else Raised (u "ValueError")
  end.

(** A server in front of a scripted world: the session is authenticated
    or not, every request carries [request], the documents read
    [documents], the web site gives no text.  There are credentials when
    the session is authenticated; the sheet has the rows [sheet]; dates
    are numbers of seconds, and it is 1000, which reads 2024-03-01
    10:00:00, all the time; an update succeeds and an appended row lands
    on row 108.  There are no floats; an exception is its message. *)
Definition ScriptedSheetServer (key : str) (authenticated : bool)
    (request : json Empty_set) (documents : str) (sheet : list (list str))
    : @Server (Scripted key) :=
  @Build_Server (Scripted key)
    Empty_set
    (fun _ => true)
    str
    (fun e => e)
    (fun _ => Raised (u "OverflowError"))
    int_of_digits
    (fun _ => u "TypeError")
    (fun _ => u "TypeError")
    (fun _ => u "TypeError")
    (fun _ => (u "turn" : @turn (Scripted key)))
    (fun w => (Returned authenticated, w))
    (fun w => (Returned request, w))
    (fun w => (Returned tt, w))
    (fun w => (Returned tt, w))
    (fun w => (Returned documents, w))
    (fun w => (Returned [], w))
    (fun w => (authenticated, w))
    (fun w => (Returned tt, w))
    Z
    (fun w => (1000%Z, w))
    (fun _ => u "2024-03-01")
    (fun _ => u "10:00:00")
    (fun s => if str_eqb s (u "2024-03-01 10:00:00") then Returned 1000%Z
              else Raised (u "ValueError"))
    (fun d n => (d - n)%Z)
    Z.ltb
    (fun r w => (Returned (if str_eqb r (u "A1:I1") then firstn 1 sheet
                           else map (firstn 6) sheet), w))
    (fun _ _ w => (Returned tt, w))
    (fun _ w => (Returned (u "Hoja 1!A108:I108"), w)).

(** The same with a sheet that has its header row and nothing else. *)
Definition ScriptedServer (key : str) (authenticated : bool)
    (request : json Empty_set) (documents : str)
    : @Server (Scripted key) :=
  ScriptedSheetServer key authenticated request documents [headers].

(** A sheet on which the question was recorded a moment ago, on row 2. *)
Definition sheet_asked : list (list str) :=
  [ headers;
    [ u "2024-03-01"; u "10:00:00"; u "  ¿CUÁNTO cuesta la matrícula? ";
      u "..."; u "matrícula"; u "completado" ] ].

(** A request to update row 7 with the answer to a question. *)
Definition request_row_7 : json Empty_set :=
  JDict [(u "message", JStr ask_matricula); (u "row_number", JInt 7)].

Definition seconds_below (now cached limit : Z) : bool :=
  (now - cached <? limit)%Z.

(** A web site whose pages all have the text [page]; ages are differences
    of whole seconds and nothing is saved. *)
Definition ScriptedWeb (key : str) (page : option str)
    : @Web (Scripted key) :=
  @Build_Web (Scripted key) seconds_below (fun _ w => (page, w))
    (fun _ _ w => w).

(** A Drive whose downloads all come to [outcome]; an exception is its
    message, and sleeping takes no time. *)
Definition ScriptedDrive (key : str) (credentials : bool)
    (outcome : result str (list (option str))) : @Drive (Scripted key) :=
  @Build_Drive (Scripted key) str (fun e => e)
    (fun w => (credentials, w)) (fun _ w => (outcome, w)) (fun _ w => w).

(** A file of three pages, the second without text. *)
Definition sample_pages : list (option str) :=
  [Some (u "Costo de matrícula: S/. 450.00"); None; Some (u "Requisitos")].

(** A manager that is connected and has nothing cached. *)
Definition drive_connected {P : Platform} : GoogleDriveManager :=
  {| service_ready := true; pdf_cache := [] |}.

(* ================================================================== *)
(** ** Strings: what the tests decide *)

Lemma str_eqb_eq (a b : str) : str_eqb a b = true <-> a = b.
Proof.
  revert b; induction a as [|x a IH]; intros [|y b]; simpl;
    try (split; [discriminate | discriminate]); try tauto.
  rewrite andb_true_iff, N.eqb_eq, IH.
  split; [intros [-> ->]; reflexivity | intros H; inversion H; auto].
Qed.

Lemma str_eqb_refl (a : str) : str_eqb a a = true.
Proof. apply str_eqb_eq; reflexivity. Qed.

Lemma str_in_In (x : str) (xs : list str) :
  str_in x xs = true <-> In x xs.
Proof.
  unfold str_in; rewrite existsb_exists; split.
  - intros (y & Hy & E); apply str_eqb_eq in E; subst; assumption.
  - intros H; exists x; split; [assumption | apply str_eqb_refl].
Qed.

Lemma startswith_app (p a : str) :
  startswith p a = true <-> exists post, a = p ++ post.
Proof.
  revert a; induction p as [|x p IH]; intros a; simpl.
  - split; [intros _; exists a; reflexivity | reflexivity].
  - destruct a as [|y a].
    + split; [discriminate | intros (post & E); discriminate].
    + rewrite andb_true_iff, N.eqb_eq, IH; split.
      * intros (-> & post & ->); exists post; reflexivity.
      * intros (post & E); inversion E; subst; split; [|exists post]; auto.
Qed.

(** [p in a] holds exactly when [a] is [pre + p + post]. *)
Lemma contains_app (p a : str) :
  contains p a = true <-> exists pre post, a = pre ++ p ++ post.
Proof.
  induction a as [|y a IH].
  - simpl; rewrite orb_false_r, startswith_app; split.
    + intros (post & E); exists [], post; assumption.
    + intros (pre & post & E); destruct pre as [|z pre];
        [exists post; assumption | discriminate].
  - change (contains p (y :: a))
      with (startswith p (y :: a) || contains p a).
    rewrite orb_true_iff, startswith_app, IH; split.
    + intros [(post & E) | (pre & post & E)].
      * exists [], post; assumption.
      * exists (y :: pre), post; rewrite E; reflexivity.
    + intros (pre & post & E); destruct pre as [|z pre].
      * left; exists post; assumption.
      * right; inversion E; subst; exists pre, post; reflexivity.
Qed.

(** [any(p in low for p in ps)] *)
Lemma any_in_exists (ps : list str) (low : str) :
  any_in ps low = true <-> exists p, In p ps /\ contains p low = true.
Proof. unfold any_in; apply existsb_exists. Qed.

Lemma any_in_none (ps : list str) (low : str) :
  any_in ps low = false <-> forall p, In p ps -> contains p low = false.
Proof.
  unfold any_in; split.
  - intros H p Hp; destruct (contains p low) eqn:E; [|reflexivity].
    rewrite <- H; symmetry; apply existsb_exists; exists p; auto.
  - intros H; destruct (existsb _ ps) eqn:E; [|reflexivity].
    apply existsb_exists in E; destruct E as (p & Hp & E).
    rewrite (H p Hp) in E; discriminate.
Qed.

(* ================================================================== *)
(** ** Patterns: the matcher decides the language *)

Section RegexFacts.
Context {U : Unicode}.

Lemma nullable_lang (r : regex) : nullable r = true <-> re_lang r [].
Proof.
  induction r as [| |d| |a IHa b IHb|a IHa b IHb|a IHa]; simpl.
  - split; intros H; [discriminate | inversion H].
  - split; intros H; [constructor | reflexivity].
  - split; intros H; [discriminate | inversion H].
  - split; intros H; [discriminate | inversion H].
  - rewrite andb_true_iff, IHa, IHb; split.
    + intros [Ha Hb]; change (@nil N) with (@nil N ++ []).
      constructor; assumption.
    + intros H; inversion H as [| | |? ? s t Ha Hb E1 E2| | | |]; subst.
      apply app_eq_nil in E2; destruct E2; subst; split; assumption.
  - rewrite orb_true_iff, IHa, IHb; split.
    + intros [H | H]; [apply lang_alt_l | apply lang_alt_r]; assumption.
    + intros H; inversion H; subst; [left | right]; assumption.
  - split; intros H; [constructor | reflexivity].
Qed.

(** A non-empty match of a star starts with a non-empty match of its
    body. *)
Lemma lang_star_cons_inv (a : regex) (c : N) (s : str) :
  re_lang (ReStar a) (c :: s) ->
  exists s1 s2, s = s1 ++ s2 /\ re_lang a (c :: s1) /\ re_lang (ReStar a) s2.
Proof.
  intros H; remember (ReStar a) as r eqn:Er; remember (c :: s) as w eqn:Ew.
  revert c s Ew; induction H as [| | | | | | |a' s' t' Ha _ Ht IH];
    intros c1 w1 Ew; try discriminate.
  inversion Er; subst a'.
  destruct s' as [|x s'].
  - simpl in Ew; apply (IH eq_refl c1 w1 Ew).
  - simpl in Ew; inversion Ew; subst.
    exists s', t'; repeat split; assumption.
Qed.

Lemma deriv_lang (r : regex) (c : N) (s : str) :
  re_lang (deriv c r) s <-> re_lang r (c :: s).
Proof.
  revert s; induction r as [| |d| |a IHa b IHb|a IHa b IHb|a IHa];
    intros s; simpl.
  - split; intros H; inversion H.
  - split; intros H; inversion H.
  - destruct (N.eqb_spec c d) as [->|Hne]; split; intros H.
    + inversion H; subst; constructor.
    + inversion H; subst; constructor.
    + inversion H.
    + inversion H; subst; congruence.
  - destruct (is_decimal c) eqn:Ed; split; intros H.
    + inversion H; subst; constructor; assumption.
    + inversion H; subst; constructor.
    + inversion H.
    + inversion H; subst; congruence.
  - assert (Hseq : re_lang (ReSeq (deriv c a) b) s ->
                   re_lang (ReSeq a b) (c :: s)).
    { intros H; inversion H as [| | |? ? s1 s2 H1 H2| | | |]; subst.
      change (c :: s1 ++ s2) with ((c :: s1) ++ s2).
      constructor; [apply IHa|]; assumption. }
    assert (Hinv : re_lang (ReSeq a b) (c :: s) ->
                   re_lang (ReSeq (deriv c a) b) s
                   \/ (re_lang a [] /\ re_lang b (c :: s))).
    { intros H; inversion H as [| | |? ? s1 s2 H1 H2 E1 E2| | | |]; subst.
      destruct s1 as [|x s1]; simpl in E2.
      - right; subst; split; assumption.
      - inversion E2; subst; left; constructor; [apply IHa|]; assumption. }
    destruct (nullable a) eqn:En; split; intros H.
    + inversion H; subst; [apply Hseq; assumption|].
      change (c :: s) with ([] ++ c :: s); constructor;
        [apply nullable_lang | apply IHb]; assumption.
    + destruct (Hinv H) as [H1 | [_ H2]];
        [apply lang_alt_l | apply lang_alt_r, IHb]; assumption.
    + apply Hseq; assumption.
    + destruct (Hinv H) as [H1 | [H1 _]]; [assumption|].
      apply nullable_lang in H1; congruence.
  - split; intros H; inversion H; subst;
      [apply lang_alt_l, IHa | apply lang_alt_r, IHb
      | apply lang_alt_l, IHa | apply lang_alt_r, IHb]; assumption.
  - split; intros H.
    + inversion H as [| | |? ? s1 s2 H1 H2| | | |]; subst.
      change (c :: s1 ++ s2) with ((c :: s1) ++ s2).
      constructor; [apply IHa|]; assumption.
    + apply lang_star_cons_inv in H; destruct H as (s1 & s2 & -> & H1 & H2).
      constructor; [apply IHa|]; assumption.
Qed.

(** [re_match]: some prefix of the string is in the language. *)
Lemma re_match_lang (r : regex) (s : str) :
  re_match r s = true <-> exists pre post, s = pre ++ post /\ re_lang r pre.
Proof.
  revert r; induction s as [|c s IH]; intros r; simpl.
  - rewrite orb_false_r, nullable_lang; split.
    + intros H; exists [], []; split; [reflexivity | assumption].
    + intros (pre & post & E & H); symmetry in E.
      apply app_eq_nil in E; destruct E; subst; assumption.
  - rewrite orb_true_iff, nullable_lang, IH; split.
    + intros [H | (pre & post & -> & H)].
      * exists [], (c :: s); split; [reflexivity | assumption].
      * exists (c :: pre), post; split; [reflexivity|].
        apply deriv_lang; assumption.
    + intros (pre & post & E & H); destruct pre as [|x pre].
      * left; assumption.
      * right; simpl in E; inversion E; subst.
        exists pre, post; split; [reflexivity|].
        apply deriv_lang; assumption.
Qed.

(** [re_search]: some substring of the string is in the language. *)
Lemma re_search_lang (r : regex) (s : str) :
  re_search r s = true <->
  exists pre mid post, s = pre ++ mid ++ post /\ re_lang r mid.
Proof.
  induction s as [|c s IH].
  - change (re_search r []) with (re_match r [] || false).
    rewrite orb_false_r, re_match_lang; split.
    + intros (mid & post & E & H); exists [], mid, post; auto.
    + intros (pre & mid & post & E & H); destruct pre as [|x pre];
        [exists mid, post; auto | discriminate].
  - change (re_search r (c :: s))
      with (re_match r (c :: s) || re_search r s).
    rewrite orb_true_iff, re_match_lang, IH; split.
    + intros [(mid & post & E & H) | (pre & mid & post & E & H)].
      * exists [], mid, post; auto.
      * exists (c :: pre), mid, post; rewrite E; auto.
    + intros (pre & mid & post & E & H); destruct pre as [|x pre].
      * left; exists mid, post; auto.
      * right; inversion E; subst; exists pre, mid, post; auto.
Qed.

(** A literal matches itself only. *)
Lemma re_lit_lang (p s : str) : re_lang (re_lit p) s <-> s = p.
Proof.
  revert s; induction p as [|c p IH]; intros s; simpl; split; intros H.
  - inversion H; reflexivity.
  - subst; constructor.
  - inversion H as [| | |? ? s1 s2 H1 H2| | | |]; subst.
    inversion H1; subst; apply IH in H2; subst; reflexivity.
  - subst; change (c :: p) with ([c] ++ p); constructor;
      [constructor | apply IH; reflexivity].
Qed.

(** [re.search(lit, s)] is the substring test. *)
Lemma re_search_lit (p s : str) : re_search (re_lit p) s = contains p s.
Proof.
  apply eq_true_iff_eq; rewrite re_search_lang, contains_app; split.
  - intros (pre & mid & post & E & H); apply re_lit_lang in H; subst.
    exists pre, post; reflexivity.
  - intros (pre & post & E); exists pre, p, post; split;
      [assumption | apply re_lit_lang; reflexivity].
Qed.

Lemma has_decimal_split (s : str) :
  existsb is_decimal s = true <->
  exists pre c post, s = pre ++ c :: post /\ is_decimal c = true.
Proof.
  rewrite existsb_exists; split.
  - intros (c & Hin & Hc); apply in_split in Hin.
    destruct Hin as (pre & post & E); exists pre, c, post; auto.
  - intros (pre & c & post & E & Hc); exists c; split; [|assumption].
    subst; apply in_or_app; right; left; reflexivity.
Qed.

(** What [\d+] matches starts with a decimal digit. *)
Lemma digits_lang_head (s : str) :
  re_lang (re_plus ReDigit) s ->
  exists c t, s = c :: t /\ is_decimal c = true.
Proof.
  intros H; inversion H as [| | |? ? s1 s2 H1 H2| | | |]; subst.
  inversion H1; subst; exists c, s2; auto.
Qed.

(** [re.search(r'\d{1,2}', s)] finds a match exactly when [s] has a
    decimal digit. *)
Lemma re_search_day_pattern (s : str) :
  re_search day_pattern s = existsb is_decimal s.
Proof.
  apply eq_true_iff_eq; rewrite re_search_lang, has_decimal_split; split.
  - intros (pre & mid & post & E & H).
    inversion H as [| | |? ? s1 s2 H1 H2| | | |]; subst.
    inversion H1; subst.
    exists pre, c, (s2 ++ post); split; [|assumption].
    rewrite <- app_assoc; reflexivity.
  - intros (pre & c & post & E & Hc); exists pre, [c], post; split;
      [assumption|].
    change [c] with ([c] ++ []); constructor;
      [constructor; assumption | apply lang_alt_r; constructor].
Qed.

(** [re.search(r's/\.|soles|\d+(\.\d+)?', s)] finds a match exactly when
    [s] contains "s/." or "soles" or a decimal digit. *)
Lemma re_search_money_pattern (s : str) :
  re_search money_pattern s =
  contains (u "s/.") s || contains (u "soles") s || existsb is_decimal s.
Proof.
  apply eq_true_iff_eq.
  rewrite !orb_true_iff, re_search_lang, has_decimal_split, !contains_app.
  split.
  - intros (pre & mid & post & E & H).
    inversion H as [| | | |? ? ? H1|? ? ? H1| |]; subst.
    + apply (proj1 (re_lit_lang (u "s/.") _)) in H1; subst.
      left; left; exists pre, post; reflexivity.
    + inversion H1 as [| | | |? ? ? H2|? ? ? H2| |]; subst.
      * apply (proj1 (re_lit_lang (u "soles") _)) in H2; subst.
        left; right; exists pre, post; reflexivity.
      * inversion H2 as [| | |? ? s1 s2 H3 H4| | | |]; subst.
        apply digits_lang_head in H3; destruct H3 as (c & t & -> & Hc).
        right; exists pre, c, (t ++ s2 ++ post); split; [|assumption].
        simpl; rewrite <- app_assoc; reflexivity.
  - intros [[(pre & post & E) | (pre & post & E)]
           | (pre & c & post & E & Hc)].
    + exists pre, (u "s/."), post; split; [assumption|].
      apply lang_alt_l, re_lit_lang; reflexivity.
    + exists pre, (u "soles"), post; split; [assumption|].
      apply lang_alt_r, lang_alt_l, re_lit_lang; reflexivity.
    + exists pre, [c], post; split; [assumption|].
      apply lang_alt_r, lang_alt_r.
      change [c] with (([c] ++ []) ++ []); constructor.
      * constructor; [constructor; assumption | constructor].
      * apply lang_alt_r; constructor.
Qed.
End RegexFacts.

(* ================================================================== *)
(** ** The query classifier *)

Section ClassifierFacts.
Context {U : Unicode}.

Lemma any_in_keyword_hit (keywords : list str) (message : str) :
  any_in keywords (lower message) = true <-> keyword_hit keywords message.
Proof. apply any_in_exists. Qed.

Lemma no_keyword_hit (keywords : list str) (message : str) :
  any_in keywords (lower message) = false <->
  ~ keyword_hit keywords message.
Proof.
  rewrite <- any_in_keyword_hit.
  destruct (any_in keywords (lower message)); split; intros H.
  - discriminate.
  - exfalso; apply H; reflexivity.
  - discriminate.
  - reflexivity.
Qed.

(** The loop returns the label of the first item with a hit. *)
Lemma classify_items_first (items : list (str * list str)) (low : str) :
  (exists pre qtype keywords post,
      items = pre ++ (qtype, keywords) :: post
      /\ (forall l ks, In (l, ks) pre -> any_in ks low = false)
      /\ any_in keywords low = true
      /\ classify_items items low = qtype)
  \/ ((forall l ks, In (l, ks) items -> any_in ks low = false)
      /\ classify_items items low = u "general").
Proof.
  induction items as [|[l ks] items IH].
  - right; split; [intros ? ? [] | reflexivity].
  - simpl classify_items.
    destruct (any_in ks low) eqn:E.
    + left; exists [], l, ks, items; repeat split; auto.
      intros ? ? [].
    + destruct IH as [(pre & q & kws & post & -> & Hpre & Hq & Hc)
                     | (Hall & Hc)].
      * left; exists ((l, ks) :: pre), q, kws, post; repeat split; auto.
        intros l' ks' [H | H]; [inversion H; subst; assumption | eauto].
      * right; split; [|assumption].
        intros l' ks' [H | H]; [inversion H; subst; assumption | eauto].
Qed.

(** C5. For every message, [classify_query] returns the label of the
    first entry of [QUERY_CLASSIFICATIONS], in the order of the dict,
    one of whose keywords occurs in the lowered message, and ['general']
    when no keyword of any entry occurs; in both cases the result is one
    label of the fixed set, whatever the message. *)
Theorem classify_query_first_hit (message : str) :
  ((exists pre qtype keywords post,
       QUERY_CLASSIFICATIONS = pre ++ (qtype, keywords) :: post
       /\ (forall l ks, In (l, ks) pre -> ~ keyword_hit ks message)
       /\ keyword_hit keywords message
       /\ classify_query message = qtype)
   \/ ((forall l ks, In (l, ks) QUERY_CLASSIFICATIONS ->
                     ~ keyword_hit ks message)
       /\ classify_query message = u "general"))
  /\ In (classify_query message)
        (map fst QUERY_CLASSIFICATIONS ++ [u "general"]).
Proof.
  unfold classify_query.
  destruct (classify_items_first QUERY_CLASSIFICATIONS (lower message))
    as [(pre & q & kws & post & E & Hpre & Hq & Hc) | (Hall & Hc)].
  - split.
    + left; exists pre, q, kws, post; repeat split; auto.
      * intros l ks H; apply no_keyword_hit; eauto.
      * apply any_in_keyword_hit; assumption.
    + rewrite Hc, E, map_app; simpl.
      apply in_or_app; left; apply in_or_app; right; left; reflexivity.
  - split.
    + right; split; [|assumption].
      intros l ks H; apply no_keyword_hit; eauto.
    + rewrite Hc; apply in_or_app; right; left; reflexivity.
Qed.

(** A message with a keyword of one entry only gets that entry's label. *)
Lemma classify_query_only_hit (message qtype : str) (keywords : list str) :
  In (qtype, keywords) QUERY_CLASSIFICATIONS ->
  keyword_hit keywords message ->
  (forall l ks, In (l, ks) QUERY_CLASSIFICATIONS ->
                keyword_hit ks message -> l = qtype) ->
  classify_query message = qtype.
Proof.
  intros Hin Hhit Honly; unfold classify_query.
  destruct (classify_items_first QUERY_CLASSIFICATIONS (lower message))
    as [(pre & q & kws & post & E & _ & Hq & Hc) | (Hall & _)].
  - rewrite Hc; apply (Honly q kws).
    + rewrite E; apply in_or_app; right; left; reflexivity.
    + apply any_in_keyword_hit; assumption.
  - apply any_in_keyword_hit in Hhit.
    rewrite (Hall _ _ Hin) in Hhit; discriminate.
Qed.
End ClassifierFacts.

(* ================================================================== *)
(** ** The usefulness judge *)

Section JudgeFacts.
Context {U : Unicode}.

(** The judge on a response that passes the length gate. *)
Lemma is_useful_response_long (r query_type : str) :
  50 <= length r ->
  _is_useful_response (Some r) query_type =
  let low := lower r in
  if any_in useless_phrases low then any_in contact_indicators low
  else if str_in query_type money_labels && any_in cost_words low
          && negb (re_search money_pattern low)
  then false
  else if str_in query_type date_labels
          && negb (re_search day_pattern low || any_in months low)
  then false
  else true.
Proof.
  intros Hlen; unfold _is_useful_response.
  assert (Hgate : negb (truthy (Some r)) || (length r <? 50) = false).
  { destruct r as [|c r]; [simpl in Hlen; lia|].
    simpl negb; simpl orb. apply Nat.ltb_ge; assumption. }
  rewrite Hgate; cbv zeta.
  assert (Hcontact : any_in contact_indicators (lower r) =
                     contains (u "correo") (lower r)
                     || contains (u "teléfono") (lower r)
                     || contains (u "presencialmente") (lower r)
                     || contains (u "dirección") (lower r)).
  { unfold any_in, contact_indicators; cbn [existsb].
    rewrite orb_false_r, !orb_assoc; reflexivity. }
  assert (Hcost : any_in cost_words (lower r) =
                  contains (u "costo") (lower r)
                  || contains (u "pago") (lower r)
                  || contains (u "precio") (lower r)).
  { unfold any_in, cost_words; cbn [existsb].
    rewrite orb_false_r, !orb_assoc; reflexivity. }
  rewrite Hcontact, Hcost.
  destruct (any_in useless_phrases (lower r)); [|reflexivity].
  match goal with
  | |- (if ?b then true else false) = _ => destruct b; reflexivity
  end.
Qed.

(** A response the judge accepts is a non-empty string. *)
Lemma is_useful_response_truthy (response : option str) (query_type : str) :
  _is_useful_response response query_type = true -> truthy response = true.
Proof.
  destruct response as [[|c r]|]; simpl; try discriminate; reflexivity.
Qed.

(** C6. For every label, the judge returns false when the response is
    absent or has fewer than 50 characters, whatever its text. *)
Theorem is_useful_response_absent_or_short
    (response : option str) (query_type : str) :
  response = None \/ (exists r, response = Some r /\ length r < 50) ->
  _is_useful_response response query_type = false.
Proof.
  intros [-> | (r & -> & Hlen)]; [reflexivity|].
  unfold _is_useful_response.
  apply Nat.ltb_lt in Hlen; rewrite Hlen, orb_true_r; reflexivity.
Qed.

(** C7. For a response of at least 50 characters whose lowered text
    contains one of the "no information" phrases, and for every label,
    the judge returns true when the lowered text contains one of
    "correo", "teléfono", "presencialmente", "dirección" and false
    when it contains none of them; the label plays no part. *)
Theorem is_useful_response_negative_phrase (r query_type : str) :
  50 <= length r ->
  (exists p, In p useless_phrases /\ contains p (lower r) = true) ->
  ((exists c, In c contact_indicators /\ contains c (lower r) = true) ->
   _is_useful_response (Some r) query_type = true)
  /\ ((forall c, In c contact_indicators ->
                 contains c (lower r) = false) ->
      _is_useful_response (Some r) query_type = false).
Proof.
  intros Hlen Hp; rewrite is_useful_response_long by assumption; cbv zeta.
  apply any_in_exists in Hp; rewrite Hp; split; intros H.
  - apply any_in_exists; assumption.
  - apply any_in_none; assumption.
Qed.

(** C8. For a label among costos, matrícula, titulación and a
    response of at least 50 characters whose lowered text contains none
    of the "no information" phrases: if the lowered text contains
    'costo', 'pago' or 'precio' and the pattern
    [s/\.|soles|\d+(\.\d+)?] is found nowhere in it, the judge returns
    false. *)
Theorem is_useful_response_money_rule (r query_type : str) :
  In query_type money_labels ->
  50 <= length r ->
  (forall p, In p useless_phrases -> contains p (lower r) = false) ->
  (exists w, In w cost_words /\ contains w (lower r) = true) ->
  re_search money_pattern (lower r) = false ->
  _is_useful_response (Some r) query_type = false.
Proof.
  intros Hl Hlen Hno Hcost Hre.
  rewrite is_useful_response_long by assumption; cbv zeta.
  apply any_in_none in Hno; apply any_in_exists in Hcost.
  apply str_in_In in Hl.
  rewrite Hno, Hl, Hcost, Hre; reflexivity.
Qed.

Lemma date_labels_not_money (query_type : str) :
  In query_type date_labels -> str_in query_type money_labels = false.
Proof.
  intros [<- | [<- | []]]; vm_compute; reflexivity.
Qed.

(** C9. For a label among fechas, cronograma and a response of at least
    50 characters whose lowered text contains none of the
    "no information" phrases: the judge returns false when the lowered
    text has neither a match of [\d{1,2}] nor the name of a month, and
    true otherwise. *)
Theorem is_useful_response_date_rule (r query_type : str) :
  In query_type date_labels ->
  50 <= length r ->
  (forall p, In p useless_phrases -> contains p (lower r) = false) ->
  (re_search day_pattern (lower r) = false ->
   (forall m, In m months -> contains m (lower r) = false) ->
   _is_useful_response (Some r) query_type = false)
  /\ (re_search day_pattern (lower r) = true
      \/ (exists m, In m months /\ contains m (lower r) = true) ->
      _is_useful_response (Some r) query_type = true).
Proof.
  intros Hl Hlen Hno.
  rewrite is_useful_response_long by assumption; cbv zeta.
  apply any_in_none in Hno.
  rewrite Hno, (date_labels_not_money _ Hl).
  apply str_in_In in Hl; rewrite Hl; cbn [andb]; split.
  - intros Hre Hm; apply any_in_none in Hm; rewrite Hre, Hm; reflexivity.
  - intros [Hre | Hm].
    + rewrite Hre; reflexivity.
    + apply any_in_exists in Hm; rewrite Hm, orb_true_r; reflexivity.
Qed.
End JudgeFacts.

(* ================================================================== *)
(** ** The rate limiter, the chain runner and the orchestrator *)

Section ManagerFacts.
Context {U : Unicode} {P : Platform}.

Lemma skipn_length_app {A} (l evs : list A) :
  skipn (length l) (l ++ evs) = evs.
Proof. induction l; simpl; auto. Qed.

(** A computation that extends the log by [evs] has [evs] as its new
    events. *)
Lemma new_events_of_log {A} (m : M A) (s : state) (evs : list (event turn)) :
  st_log (snd (m s)) = st_log s ++ evs -> new_events m s = evs.
Proof. unfold new_events; intros ->; apply skipn_length_app. Qed.

(** *** The error handler *)

Lemma handle_gemini_error_log (e : str) (s : state) :
  st_log (snd (_handle_gemini_error e s)) = st_log s.
Proof.
  unfold _handle_gemini_error; destruct (is_throttling e); [|reflexivity].
  unfold bind, get_self, perform, set_self.
  destruct (time_time (st_world s)); reflexivity.
Qed.

(** An error that is not a throttling error leaves the state as it is. *)
Lemma handle_gemini_error_other (e : str) (s : state) :
  is_throttling e = false -> _handle_gemini_error e s = (tt, s).
Proof. unfold _handle_gemini_error; intros ->; reflexivity. Qed.

(** One throttling error: the counter goes up by one, the clock is read
    once and the cooldown ends [backoff_of] the new count later. *)
Lemma handle_gemini_error_throttling (e : str) (s : state) :
  is_throttling e = true ->
  let s' := snd (_handle_gemini_error e s) in
  let count := (gemini_consecutive_429 (st_self s) + 1)%Z in
  gemini_consecutive_429 (st_self s') = count
  /\ gemini_cooldown_until (st_self s') =
     ts_add (fst (time_time (st_world s))) (backoff_of count)
  /\ st_world s' = snd (time_time (st_world s)).
Proof.
  unfold _handle_gemini_error; intros ->.
  unfold bind, get_self, perform, set_self.
  destruct (time_time (st_world s)); simpl; auto.
Qed.

Lemma backoff_of_le_600 (count : Z) : (backoff_of count <= 600)%Z.
Proof. unfold backoff_of; apply Z.le_min_r. Qed.

(** From the fifth error on the cooldown is the cap. *)
Lemma backoff_of_capped (count : Z) :
  (5 <= count)%Z -> backoff_of count = 600%Z.
Proof.
  intros H; unfold backoff_of, GEMINI_COOLDOWN; apply Z.min_r.
  replace (count - 1)%Z with (4 + (count - 5))%Z by lia.
  rewrite Z.pow_add_r by lia.
  assert (0 < 2 ^ (count - 5))%Z by (apply Z.pow_pos_nonneg; lia).
  change (2 ^ 4)%Z with 16%Z; nia.
Qed.

(** A use of the manager raises the counter by one when it has a
    throttling error handled, and leaves it as it is otherwise: nothing
    lowers the counter, a reply of the SDK included. *)
Lemma run_use_count (x : use) (s : state) :
  gemini_consecutive_429 (st_self (snd (run_use x s))) =
  (gemini_consecutive_429 (st_self s)
   + (if throttled x s then 1 else 0))%Z.
Proof.
  destruct x as [e | m q p w h | m q p w h |]; cbn [run_use throttled].
  - destruct (is_throttling e) eqn:He.
    + apply (handle_gemini_error_throttling e s He).
    + rewrite handle_gemini_error_other by assumption; simpl; lia.
  - unfold _call_gemini, bind, record, perform; simpl.
    destruct (gemini_generate _ _ _) as [[text | e] w']; simpl.
    + lia.
    + match goal with
      | |- context [_handle_gemini_error e ?s1] =>
          destruct (is_throttling e) eqn:He;
          [ pose proof (handle_gemini_error_throttling e s1 He) as (H & _)
          | pose proof (handle_gemini_error_other e s1 He) as H ];
          destruct (_handle_gemini_error e s1) as [[] s2]
      end.
      * simpl in *; exact H.
      * inversion H; subst; simpl; lia.
  - unfold _call_openrouter, bind, record, perform; simpl.
    destruct (openrouter_chat _ _ _); simpl; lia.
  - unfold _can_call_gemini.
    destruct (negb (truthy (Some GEMINI_API_KEY))); [simpl; lia|].
    unfold bind, perform, get_self.
    destruct (time_time (st_world s)) as [now w]; simpl.
    destruct (ts_ltb now (gemini_cooldown_until (st_self s))); simpl; lia.
Qed.

(** The counter is the number of throttling errors handled since it was
    last 0, that is, since the manager was created. *)
Lemma run_uses_count (uses : list use) (s : state) :
  gemini_consecutive_429 (st_self (snd (run_uses uses s))) =
  (gemini_consecutive_429 (st_self s) + throttlings uses s)%Z.
Proof.
  revert s; induction uses as [|x uses IH]; intros s.
  - simpl; lia.
  - cbn [run_uses throttlings]; unfold bind at 1.
    pose proof (run_use_count x s) as H.
    destruct (run_use x s) as [[] s1]; simpl in *.
    rewrite IH, H; lia.
Qed.

Lemma throttlings_nonneg (uses : list use) (s : state) :
  (0 <= throttlings uses s)%Z.
Proof.
  revert s; induction uses as [|x uses IH]; intros s; [simpl; lia|].
  cbn [throttlings]; specialize (IH (snd (run_use x s))).
  destruct (throttled x s); lia.
Qed.

(** C4 (amended). Let a manager whose counter is 0, as [__init__] leaves
    it, be used in any way: errors handled, Gemini and OpenRouter models
    called, the gate asked (a run of [generate_response] is such a
    sequence of uses).  Let then an error whose text contains "429" or
    "Resource exhausted" be handled, and let it be the [n]-th such error
    handled since the start, whatever came between them, replies of the
    SDK and other errors included: nothing resets the counter.  Handling
    it sets the counter to [n] and [gemini_cooldown_until] to the reading
    of the clock plus [min(60 * 2^(n-1), 600)] seconds: 60 for the first
    error, 120 for the second, and 600, the cap, from the fifth on, so
    for the sixth. *)
Theorem handle_gemini_error_nth (uses : list use) (e : str) (s : state) :
  gemini_consecutive_429 (st_self s) = 0%Z ->
  contains (u "429") e = true
  \/ contains (u "Resource exhausted") e = true ->
  let n := (throttlings uses s + 1)%Z in
  let s1 := snd (run_uses uses s) in
  let now := fst (time_time (st_world s1)) in
  let s2 := snd (_handle_gemini_error e s1) in
  gemini_consecutive_429 (st_self s2) = n
  /\ gemini_cooldown_until (st_self s2) =
     ts_add now (Z.min (60 * 2 ^ (n - 1)) 600)
  /\ (n = 1 -> Z.min (60 * 2 ^ (n - 1)) 600 = 60)%Z
  /\ (n = 2 -> Z.min (60 * 2 ^ (n - 1)) 600 = 120)%Z
  /\ (5 <= n -> Z.min (60 * 2 ^ (n - 1)) 600 = 600)%Z.
Proof.
  intros H0 He; cbv zeta.
  assert (Hthr : is_throttling e = true).
  { unfold is_throttling; destruct He as [H | H]; rewrite H;
      [reflexivity | apply orb_true_r]. }
  destruct (handle_gemini_error_throttling
              e (snd (run_uses uses s)) Hthr) as (Hc & Hu & _).
  rewrite run_uses_count, H0 in Hc, Hu.
  rewrite Z.add_0_l in Hc, Hu.
  repeat split; try assumption.
  - intros ->; reflexivity.
  - intros ->; reflexivity.
  - intros H; exact (backoff_of_capped _ H).
Qed.

(** *** One provider call *)

Section Chain.
Variables provider user_message pdf_context web_context : str.
Variable history : option (list turn).
Variable query_type : str.

Local Abbreviation call m :=
  (call_provider provider m user_message pdf_context web_context history).
Local Abbreviation event_of :=
  (call_event provider user_message pdf_context web_context history).
Local Abbreviation responses :=
  (chain_responses provider user_message pdf_context web_context history).
Local Abbreviation after :=
  (after_calls provider user_message pdf_context web_context history).
Local Abbreviation loop :=
  (chain_loop provider user_message pdf_context web_context history
     query_type).

(** A call adds its own event to the log and nothing else. *)
Lemma call_provider_log (m : str) (s : state) :
  st_log (snd (call m s)) = st_log s ++ [event_of m].
Proof.
  unfold call_provider, call_event.
  destruct (str_eqb provider (u "openrouter")).
  - unfold _call_openrouter, bind, record, perform; simpl.
    destruct (openrouter_chat _ _ _); reflexivity.
  - unfold _call_gemini, bind, record, perform; simpl.
    destruct (gemini_generate _ _ _) as [[text | e] w]; [reflexivity|].
    match goal with
    | |- context [_handle_gemini_error e ?s1] =>
        pose proof (handle_gemini_error_log e s1) as Hlog;
        destruct (_handle_gemini_error e s1) as [[] s2]
    end.
    simpl in *; assumption.
Qed.

Lemma after_calls_log (models : list str) (s : state) :
  st_log (after models s) = st_log s ++ map event_of models.
Proof.
  revert s; induction models as [|m models IH]; intros s; simpl.
  - rewrite app_nil_r; reflexivity.
  - rewrite IH, call_provider_log, <- app_assoc; reflexivity.
Qed.

Lemma after_calls_app (pre post : list str) (s : state) :
  after (pre ++ post) s = after post (after pre s).
Proof.
  revert s; induction pre as [|m pre IH]; intros s; [reflexivity|].
  simpl; apply IH.
Qed.

(** *** The loop of the chain runner *)

Lemma chain_loop_cons (m : str) (rest : list str) (s : state) :
  loop (m :: rest) s =
  if _is_useful_response (fst (call m s)) query_type then call m s
  else loop rest (snd (call m s)).
Proof.
  cbn [chain_loop]; unfold bind at 1.
  destruct (call_provider provider m user_message pdf_context
              web_context history s) as [r s1]; cbn [fst snd].
  destruct (truthy r) eqn:Et.
  - destruct (_is_useful_response r query_type); reflexivity.
  - destruct (_is_useful_response r query_type) eqn:Eu; [|reflexivity].
    apply is_useful_response_truthy in Eu; congruence.
Qed.

(** The loop stops at the first model with a useful response, in the
    state the call of that model leaves. *)
Lemma chain_loop_stops (pre : list str) (m : str) (post : list str)
    (s : state) :
  (forall r, In r (responses pre s) ->
             _is_useful_response r query_type = false) ->
  _is_useful_response (fst (call m (after pre s))) query_type = true ->
  loop (pre ++ m :: post) s = call m (after pre s).
Proof.
  revert s; induction pre as [|m0 pre IH]; intros s Hpre Hm.
  - simpl app; rewrite chain_loop_cons.
    simpl in Hm; rewrite Hm; reflexivity.
  - simpl app; rewrite chain_loop_cons.
    assert (E0 : _is_useful_response (fst (call m0 s)) query_type = false).
    { apply Hpre; simpl.
      destruct (call_provider provider m0 user_message pdf_context
                  web_context history s); left; reflexivity. }
    rewrite E0; apply IH.
    + intros r Hr; apply Hpre; simpl.
      destruct (call_provider provider m0 user_message pdf_context
                  web_context history s); right; exact Hr.
    + exact Hm.
Qed.

(** With no useful response the loop calls every model and returns
    [None]. *)
Lemma chain_loop_exhausts (models : list str) (s : state) :
  (forall r, In r (responses models s) ->
             _is_useful_response r query_type = false) ->
  loop models s = (None, after models s).
Proof.
  revert s; induction models as [|m models IH]; intros s Hall.
  - reflexivity.
  - rewrite chain_loop_cons.
    assert (E0 : _is_useful_response (fst (call m s)) query_type = false).
    { apply Hall; simpl.
      destruct (call_provider provider m user_message pdf_context
                  web_context history s); left; reflexivity. }
    rewrite E0; apply IH.
    intros r Hr; apply Hall; simpl.
    destruct (call_provider provider m user_message pdf_context
                web_context history s); right; exact Hr.
Qed.

(** What the loop returns is [None] or a response the judge accepts,
    and the loop only adds calls of this provider to the log. *)
Lemma chain_loop_result (models : list str) (s : state) :
  (fst (loop models s) = None
   \/ _is_useful_response (fst (loop models s)) query_type = true)
  /\ exists called, st_log (snd (loop models s)) =
                    st_log s ++ map event_of called.
Proof.
  revert s; induction models as [|m models IH]; intros s.
  - split; [left; reflexivity|].
    exists []; simpl; rewrite app_nil_r; reflexivity.
  - rewrite chain_loop_cons.
    destruct (_is_useful_response (fst (call m s)) query_type) eqn:E.
    + split; [right; exact E|].
      exists [m]; apply call_provider_log.
    + destruct (IH (snd (call m s))) as (Hr & called & Hlog).
      split; [exact Hr|].
      exists (m :: called); rewrite Hlog, call_provider_log.
      rewrite <- app_assoc; reflexivity.
Qed.
Lemma run_model_chain_loop (s : state) :
  _run_model_chain provider user_message pdf_context web_context history
    query_type s =
  loop (models_of provider (st_self s)) s.
Proof. reflexivity. Qed.

(** C3. For every provider and label, [_run_model_chain] calls the models
    of the provider in the order of the list.  If the model at some
    position is the first whose response the judge accepts, the runner
    returns that response, in the state that call leaves, and the calls it
    made are those of the models up to and including that one, position
    plus one in number, and of no later model.  If no model gives a
    response the judge accepts (the response is missing, empty or judged
    not useful), the runner returns [None] after calling each model
    once. *)
Theorem run_model_chain_first_useful (s : state) :
  let models := models_of provider (st_self s) in
  let run := _run_model_chain provider user_message pdf_context web_context
               history query_type in
  (forall pre m post,
      models = pre ++ m :: post ->
      (forall r, In r (responses pre s) ->
                 _is_useful_response r query_type = false) ->
      _is_useful_response (fst (call m (after pre s))) query_type = true ->
      run s = call m (after pre s)
      /\ new_events run s = map event_of (pre ++ [m])
      /\ length (new_events run s) = length pre + 1)
  /\ ((forall r, In r (responses models s) ->
                 _is_useful_response r query_type = false) ->
      fst (run s) = None
      /\ new_events run s = map event_of models).
Proof.
  cbv zeta; split.
  - intros pre m post Hmodels Hpre Hm.
    assert (Hrun : _run_model_chain provider user_message pdf_context
                     web_context history query_type s
                   = call m (after pre s)).
    { rewrite run_model_chain_loop, Hmodels.
      apply chain_loop_stops; assumption. }
    assert (Hev : new_events
                    (_run_model_chain provider user_message pdf_context
                       web_context history query_type) s
                  = map event_of (pre ++ [m])).
    { apply new_events_of_log.
      rewrite Hrun, call_provider_log, after_calls_log, map_app.
      rewrite <- app_assoc; reflexivity. }
    repeat split; [exact Hrun | exact Hev |].
    rewrite Hev, length_map, length_app; reflexivity.
  - intros Hall.
    assert (Hrun : _run_model_chain provider user_message pdf_context
                     web_context history query_type s
                   = (None, after (models_of provider (st_self s)) s)).
    { rewrite run_model_chain_loop; apply chain_loop_exhausts; exact Hall. }
    split; [rewrite Hrun; reflexivity|].
    apply new_events_of_log; rewrite Hrun; apply after_calls_log.
Qed.

(** What the runner returns is [None] or a response the judge accepts. *)
Lemma run_model_chain_result (s : state) :
  (fst (_run_model_chain provider user_message pdf_context web_context
          history query_type s) = None
   \/ _is_useful_response
        (fst (_run_model_chain provider user_message pdf_context web_context
                history query_type s)) query_type = true)
  /\ exists called,
      st_log (snd (_run_model_chain provider user_message pdf_context
                     web_context history query_type s)) =
      st_log s ++ map event_of called.
Proof. rewrite run_model_chain_loop; apply chain_loop_result. Qed.
End Chain.

(** *** The gate of the Gemini provider *)

(** The gate is closed exactly when the key is missing or the clock reads
    a time before [gemini_cooldown_until]. *)
Lemma can_call_gemini_false (s : state) :
  fst (_can_call_gemini s) = false <->
  GEMINI_API_KEY = []
  \/ (GEMINI_API_KEY <> []
      /\ ts_ltb (fst (time_time (st_world s)))
                (gemini_cooldown_until (st_self s)) = true).
Proof.
  unfold _can_call_gemini.
  destruct GEMINI_API_KEY as [|c key]; simpl.
  - split; [left; reflexivity | reflexivity].
  - unfold bind, perform, get_self.
    destruct (time_time (st_world s)) as [now w]; simpl.
    destruct (ts_ltb now (gemini_cooldown_until (st_self s))); simpl.
    + split; [right; split; [discriminate | reflexivity] | reflexivity].
    + split; [discriminate | intros [H | [_ H]]; discriminate].
Qed.

(** The gate makes no provider call and leaves the manager as it is. *)
Lemma can_call_gemini_state (s : state) :
  st_log (snd (_can_call_gemini s)) = st_log s
  /\ st_self (snd (_can_call_gemini s)) = st_self s.
Proof.
  unfold _can_call_gemini.
  destruct (negb (truthy (Some GEMINI_API_KEY))); [split; reflexivity|].
  unfold bind, perform, get_self.
  destruct (time_time (st_world s)) as [now w]; simpl.
  destruct (ts_ltb now (gemini_cooldown_until (st_self s))); split;
    reflexivity.
Qed.

(** The calls of the OpenRouter chain are no Gemini calls. *)
Lemma openrouter_events_no_gemini (user_message pdf_context web_context : str)
    (history : option (list turn)) (called : list str) :
  gemini_calls
    (map (call_event (u "openrouter") user_message pdf_context web_context
            history) called) = 0.
Proof.
  unfold gemini_calls; induction called as [|m called IH]; [reflexivity|].
  simpl map; unfold call_event at 1.
  rewrite str_eqb_refl; simpl filter; exact IH.
Qed.

(** *** The orchestrator *)

Lemma models_of_openrouter (self : AIManager) :
  models_of (u "openrouter") self = openrouter_models self.
Proof. reflexivity. Qed.

Lemma models_of_gemini (self : AIManager) :
  models_of (u "gemini") self = gemini_models self.
Proof. reflexivity. Qed.

(** C1. For every message, contexts and history: if no model of the
    OpenRouter chain gives a response the judge accepts for the label of
    the message, and the Gemini chain is not run because the key is
    missing or the clock reads a time before [gemini_cooldown_until], or
    is run and no model of it gives a response the judge accepts either,
    then [generate_response] returns [None]. *)
Theorem generate_response_exhausted
    (user_message pdf_context web_context : str)
    (history : option (list turn)) (s : state) :
  let query_type := classify_query user_message in
  let context_limited := slice_to 200000 pdf_context in
  let s1 := after_calls (u "openrouter") user_message context_limited
              web_context history (openrouter_models (st_self s)) s in
  let s2 := snd (_can_call_gemini s1) in
  (forall r,
      In r (chain_responses (u "openrouter") user_message context_limited
              web_context history (openrouter_models (st_self s)) s) ->
      _is_useful_response r query_type = false) ->
  GEMINI_API_KEY = []
  \/ ts_ltb (fst (time_time (st_world s1)))
            (gemini_cooldown_until (st_self s1)) = true
  \/ (forall r,
         In r (chain_responses (u "gemini") user_message pdf_context
                 web_context history (gemini_models (st_self s2)) s2) ->
         _is_useful_response r query_type = false) ->
  fst (generate_response user_message pdf_context web_context history s)
  = None.
Proof.
  cbv zeta; intros Hor Hgm.
  unfold generate_response, bind.
  rewrite run_model_chain_loop, models_of_openrouter.
  rewrite (chain_loop_exhausts _ _ _ _ _ _ _ _ Hor).
  cbn [truthy andb].
  destruct (_can_call_gemini _) as [ok s2] eqn:Egate.
  destruct ok; [|reflexivity].
  rewrite run_model_chain_loop, models_of_gemini.
  assert (Hok : fst (_can_call_gemini
                       (after_calls (u "openrouter") user_message
                          (slice_to 200000 pdf_context) web_context history
                          (openrouter_models (st_self s)) s)) = true)
    by (rewrite Egate; reflexivity).
  destruct Hgm as [Hkey | [Hcool | Hall]].
  - assert (Hf : fst (_can_call_gemini
                        (after_calls (u "openrouter") user_message
                           (slice_to 200000 pdf_context) web_context history
                           (openrouter_models (st_self s)) s)) = false)
      by (apply can_call_gemini_false; left; exact Hkey).
    congruence.
  - assert (Hf : fst (_can_call_gemini
                        (after_calls (u "openrouter") user_message
                           (slice_to 200000 pdf_context) web_context history
                           (openrouter_models (st_self s)) s)) = false).
    { apply can_call_gemini_false.
      destruct GEMINI_API_KEY as [|c key] eqn:Ek; [left; reflexivity|].
      right; split; [discriminate | exact Hcool]. }
    congruence.
  - cbn [snd] in Hall.
    rewrite (chain_loop_exhausts _ _ _ _ _ _ _ _ Hall); reflexivity.
Qed.

(** C2. For every input, if the OpenRouter chain returns a response the
    judge accepts for the label of the message, [generate_response]
    returns that very response, in the state the chain leaves, and the run
    makes no Gemini call. *)
Theorem generate_response_openrouter_useful
    (user_message pdf_context web_context : str)
    (history : option (list turn)) (s : state) :
  let query_type := classify_query user_message in
  let or_run := _run_model_chain (u "openrouter") user_message
                  (slice_to 200000 pdf_context) web_context history
                  query_type s in
  _is_useful_response (fst or_run) query_type = true ->
  generate_response user_message pdf_context web_context history s = or_run
  /\ gemini_calls
       (new_events
          (generate_response user_message pdf_context web_context history) s)
     = 0.
Proof.
  cbv zeta; intros Hu.
  assert (Hrun : generate_response user_message pdf_context web_context
                   history s
                 = _run_model_chain (u "openrouter") user_message
                     (slice_to 200000 pdf_context) web_context history
                     (classify_query user_message) s).
  { unfold generate_response, bind.
    destruct (_run_model_chain _ _ _ _ _ _ s) as [or_response s1].
    cbn [fst] in Hu.
    rewrite Hu, (is_useful_response_truthy _ _ Hu); reflexivity. }
  split; [exact Hrun|].
  destruct (run_model_chain_result (u "openrouter") user_message
              (slice_to 200000 pdf_context) web_context history
              (classify_query user_message) s) as (_ & called & Hlog).
  rewrite (new_events_of_log _ s _ (eq_trans (f_equal _ (f_equal _ Hrun)) Hlog)).
  apply openrouter_events_no_gemini.
Qed.

(** C10. Whatever [generate_response] returns, if it is not [None] then
    the judge accepts it for the label classified from the message. *)
Theorem generate_response_useful
    (user_message pdf_context web_context : str)
    (history : option (list turn)) (s : state) (r : str) :
  fst (generate_response user_message pdf_context web_context history s)
  = Some r ->
  _is_useful_response (Some r) (classify_query user_message) = true.
Proof.
  unfold generate_response, bind.
  pose proof (run_model_chain_result (u "openrouter") user_message
                (slice_to 200000 pdf_context) web_context history
                (classify_query user_message) s) as [Hor _].
  destruct (_run_model_chain (u "openrouter") _ _ _ _ _ s)
    as [or_response s1].
  cbn [fst] in Hor.
  assert (Hfinal : or_response = Some r ->
                   _is_useful_response (Some r)
                     (classify_query user_message) = true).
  { intros E; destruct Hor as [Hn | Hu]; [congruence | rewrite <- E].
    exact Hu. }
  destruct (truthy or_response
            && _is_useful_response or_response
                 (classify_query user_message)).
  - cbn [fst ret]; exact Hfinal.
  - destruct (_can_call_gemini s1) as [ok s2].
    destruct ok; [|cbn [fst ret]; exact Hfinal].
    pose proof (run_model_chain_result (u "gemini") user_message
                  pdf_context web_context history
                  (classify_query user_message) s2) as [Hgm _].
    destruct (_run_model_chain (u "gemini") _ _ _ _ _ s2)
      as [gm_response s3].
    cbn [fst] in Hgm.
    destruct (truthy gm_response); [|cbn [fst ret]; exact Hfinal].
    cbn [fst ret]; intros E; destruct Hgm as [Hn | Hu]; [congruence|].
    rewrite <- E; exact Hu.
Qed.
End ManagerFacts.

(* ================================================================== *)
(** ** Runs on concrete inputs

    The theorems above applied to the Latin-1 tables and to scripted
    worlds with the API key ["key"]. *)

Lemma classify_query_samples :
  @classify_query Latin1 ask_matricula = u "matrícula"
  /\ @classify_query Latin1 (u "Quiero saber el PRECIO y la fecha")
     = u "costos"
  /\ @classify_query Latin1 (u "") = u "general".
Proof. repeat split; vm_compute; reflexivity. Qed.

(** The length gate comes first: a short answer is rejected even when it
    names a price or a day. *)
Lemma is_useful_response_short_samples :
  @_is_useful_response Latin1 (Some (u "el costo es S/. 450.00")) (u "costos")
  = false
  /\ @_is_useful_response Latin1 (Some (u "el plazo vence el 15 de marzo"))
       (u "fechas") = false.
Proof. split; vm_compute; reflexivity. Qed.

Lemma is_useful_response_absent_or_short_witness :
  @_is_useful_response Latin1 None (u "general") = false
  /\ @_is_useful_response Latin1 (Some (u "Hola")) (u "saludo") = false.
Proof.
  split.
  - apply (@is_useful_response_absent_or_short Latin1); left; reflexivity.
  - apply (@is_useful_response_absent_or_short Latin1); right.
    exists (u "Hola"); split; [reflexivity | vm_compute; lia].
Defined.

Lemma is_useful_response_negative_phrase_witness :
  @_is_useful_response Latin1 (Some reply_decline_contact) (u "fechas") = true
  /\ @_is_useful_response Latin1 (Some reply_decline) (u "general") = false.
Proof.
  split.
  - apply (@is_useful_response_negative_phrase Latin1
             reply_decline_contact (u "fechas")).
    + vm_compute; lia.
    + exists (u "no encuentro información"); split;
        [right; left; reflexivity | vm_compute; reflexivity].
    + exists (u "correo"); split; [left; reflexivity | vm_compute; reflexivity].
  - apply (@is_useful_response_negative_phrase Latin1
             reply_decline (u "general")).
    + vm_compute; lia.
    + exists (u "no encuentro información"); split;
        [right; left; reflexivity | vm_compute; reflexivity].
    + intros c Hc; apply (proj1 (any_in_none contact_indicators _));
        [vm_compute; reflexivity | exact Hc].
Defined.

Lemma is_useful_response_money_rule_witness :
  @_is_useful_response Latin1 (Some reply_cost_vague) (u "costos") = false.
Proof.
  apply (@is_useful_response_money_rule Latin1).
  - left; reflexivity.
  - vm_compute; lia.
  - apply any_in_none; vm_compute; reflexivity.
  - exists (u "costo"); split; [left; reflexivity | vm_compute; reflexivity].
  - vm_compute; reflexivity.
Defined.

Lemma is_useful_response_date_rule_witness :
  @_is_useful_response Latin1 (Some reply_dates_vague) (u "fechas") = false
  /\ @_is_useful_response Latin1 (Some reply_deadline) (u "cronograma") = true.
Proof.
  split.
  - apply (@is_useful_response_date_rule Latin1 reply_dates_vague
             (u "fechas")).
    + left; reflexivity.
    + vm_compute; lia.
    + apply any_in_none; vm_compute; reflexivity.
    + vm_compute; reflexivity.
    + apply any_in_none; vm_compute; reflexivity.
  - apply (@is_useful_response_date_rule Latin1 reply_deadline
             (u "cronograma")).
    + right; left; reflexivity.
    + vm_compute; lia.
    + apply any_in_none; vm_compute; reflexivity.
    + left; vm_compute; reflexivity.
Defined.

(** A Gemini call is throttled at 1000, the next one is answered, and a
    throttling error is handled at 2000: it is the second since the
    manager was created, and closes the gate until 2000 + 120. *)
Lemma handle_gemini_error_nth_witness :
  let s := @fresh Latin1 (Scripted (u "key")) world_throttled_again in
  let uses :=
    [ @CallsGemini (Scripted (u "key")) (u "gemini-2.0-flash")
        ask_matricula (u "Reglamento") (u "") None;
      @CallsGemini (Scripted (u "key")) (u "gemini-1.5-flash")
        ask_matricula (u "Reglamento") (u "") None ] in
  let s2 := snd (@_handle_gemini_error (Scripted (u "key"))
                   (u "Resource exhausted")
                   (snd (@run_uses (Scripted (u "key")) uses s))) in
  @throttlings (Scripted (u "key")) uses s = 1%Z
  /\ gemini_consecutive_429 (st_self s2) = 2%Z
  /\ gemini_cooldown_until (st_self s2) = 2120%Z.
Proof.
  cbv zeta.
  destruct (@handle_gemini_error_nth (Scripted (u "key"))
              [ @CallsGemini (Scripted (u "key")) (u "gemini-2.0-flash")
                  ask_matricula (u "Reglamento") (u "") None;
                @CallsGemini (Scripted (u "key")) (u "gemini-1.5-flash")
                  ask_matricula (u "Reglamento") (u "") None ]
              (u "Resource exhausted")
              (@fresh Latin1 (Scripted (u "key")) world_throttled_again))
    as (Hcount & Huntil & _).
  - reflexivity.
  - right; vm_compute; reflexivity.
  - split; [vm_compute; reflexivity|].
    split; [rewrite Hcount; vm_compute; reflexivity|].
    rewrite Huntil; vm_compute; reflexivity.
Defined.

(** C4, with [n] read as the number of throttling errors in a row, does
    not hold.  A fresh manager calls Gemini three times: the first call
    is throttled at 1000, the second is answered, the third is throttled
    at 2000.  The third error is the first in a row, for which the
    cooldown would be 60 seconds; but the counter, which the reply has
    not reset, goes to 2, and the gate closes for 120 seconds. *)
Lemma handle_gemini_error_not_consecutive :
  let call :=
    @_call_gemini (Scripted (u "key")) (u "gemini-2.0-flash") ask_matricula
      (u "Reglamento") (u "") None in
  let s0 := @fresh Latin1 (Scripted (u "key")) world_throttled_again in
  let s1 := snd (call s0) in
  let s2 := snd (call s1) in
  let s3 := snd (call s2) in
  gemini_consecutive_429 (st_self s1) = 1%Z
  /\ gemini_cooldown_until (st_self s1) = (1000 + 60)%Z
  /\ fst (call s1) = Some reply_price
  /\ gemini_consecutive_429 (st_self s2) = 1%Z
  /\ fst (@gemini_generate (Scripted (u "key")) (u "gemini-2.0-flash")
            (@_build_prompt (Scripted (u "key")) ask_matricula
               (u "Reglamento") (u "") None)
            (st_world s2)) = GeminiRaised (u "429 Too Many Requests")
  /\ fst (script_time (snd (script_gemini (st_world s2)))) = 2000%Z
  /\ gemini_consecutive_429 (st_self s3) = 2%Z
  /\ gemini_cooldown_until (st_self s3) = (2000 + 120)%Z
  /\ gemini_cooldown_until (st_self s3)
     <> (2000 + Z.min (60 * 2 ^ (1 - 1)) 600)%Z.
Proof.
  cbv zeta; repeat split; try (vm_compute; reflexivity).
  vm_compute; discriminate.
Qed.

(** Every provider fails: three OpenRouter calls, an open gate, three
    Gemini calls, and no answer. *)
Lemma generate_response_exhausted_witness :
  fst (@generate_response Latin1 (Scripted (u "key")) ask_matricula
         (u "Reglamento de matrícula") (u "") None
         (@fresh Latin1 (Scripted (u "key")) world_exhausted)) = None
  /\ length (st_log (snd (@generate_response Latin1 (Scripted (u "key"))
                            ask_matricula (u "Reglamento de matrícula")
                            (u "") None
                            (@fresh Latin1 (Scripted (u "key"))
                               world_exhausted)))) = 6.
Proof.
  split; [|vm_compute; reflexivity].
  apply (@generate_response_exhausted Latin1 (Scripted (u "key"))).
  - intros r Hr; vm_compute in Hr.
    repeat (destruct Hr as [<- | Hr]; [vm_compute; reflexivity|]).
    destruct Hr.
  - right; right; intros r Hr; vm_compute in Hr.
    repeat (destruct Hr as [<- | Hr]; [vm_compute; reflexivity|]).
    destruct Hr.
Defined.

(** The second OpenRouter model answers: two calls, none to Gemini. *)
Lemma generate_response_openrouter_useful_witness :
  fst (@generate_response Latin1 (Scripted (u "key")) ask_matricula
         (u "Reglamento de matrícula") (u "") None
         (@fresh Latin1 (Scripted (u "key")) world_second_model))
  = Some reply_price
  /\ gemini_calls
       (new_events
          (@generate_response Latin1 (Scripted (u "key")) ask_matricula
             (u "Reglamento de matrícula") (u "") None)
          (@fresh Latin1 (Scripted (u "key")) world_second_model)) = 0.
Proof.
  destruct (@generate_response_openrouter_useful Latin1
              (Scripted (u "key")) ask_matricula
              (u "Reglamento de matrícula") (u "") None
              (@fresh Latin1 (Scripted (u "key")) world_second_model))
    as [Hrun Hcalls].
  - vm_compute; reflexivity.
  - split; [rewrite Hrun; vm_compute; reflexivity | exact Hcalls].
Defined.

(** OpenRouter gives nothing and Gemini answers: the answer passes the
    judge. *)
Lemma generate_response_useful_witness :
  fst (@generate_response Latin1 (Scripted (u "key")) ask_matricula
         (u "Reglamento de matrícula") (u "") None
         (@fresh Latin1 (Scripted (u "key")) world_gemini_answers))
  = Some reply_price
  /\ @_is_useful_response Latin1 (Some reply_price)
       (@classify_query Latin1 ask_matricula) = true.
Proof.
  assert (Hrun : fst (@generate_response Latin1 (Scripted (u "key"))
                        ask_matricula (u "Reglamento de matrícula") (u "")
                        None
                        (@fresh Latin1 (Scripted (u "key"))
                           world_gemini_answers))
                 = Some reply_price) by (vm_compute; reflexivity).
  split; [exact Hrun|].
  exact (@generate_response_useful Latin1 (Scripted (u "key")) _ _ _ _ _ _
           Hrun).
Defined.

(** The OpenRouter chain on the second world stops at its second model:
    two calls, and the third model is not called. *)
Lemma run_model_chain_first_useful_witness :
  fst (@_run_model_chain Latin1 (Scripted (u "key")) (u "openrouter")
         ask_matricula (u "Reglamento") (u "") None (u "matrícula")
         (@fresh Latin1 (Scripted (u "key")) world_second_model))
  = Some reply_price
  /\ map event_model
       (new_events
          (@_run_model_chain Latin1 (Scripted (u "key")) (u "openrouter")
             ask_matricula (u "Reglamento") (u "") None (u "matrícula"))
          (@fresh Latin1 (Scripted (u "key")) world_second_model))
     = [u "meta-llama/llama-3.3-70b-instruct:free";
        u "google/gemma-2-9b-it:free"].
Proof.
  destruct (@run_model_chain_first_useful Latin1 (Scripted (u "key"))
              (u "openrouter") ask_matricula (u "Reglamento") (u "") None
              (u "matrícula")
              (@fresh Latin1 (Scripted (u "key")) world_second_model))
    as [Hstop _].
  destruct (Hstop [u "meta-llama/llama-3.3-70b-instruct:free"]
              (u "google/gemma-2-9b-it:free")
              [u "mistralai/mistral-7b-instruct:free"])
    as (Hrun & Hev & _).
  - reflexivity.
  - intros r Hr; vm_compute in Hr.
    repeat (destruct Hr as [<- | Hr]; [vm_compute; reflexivity|]).
    destruct Hr.
  - vm_compute; reflexivity.
  - split; [rewrite Hrun; vm_compute; reflexivity|].
    rewrite Hev; vm_compute; reflexivity.
Defined.

(* ================================================================== *)
(** ** More on the manager: what a run calls and what it keeps *)

Section RunFacts.
Context {U : Unicode} {P : Platform}.

(** *** The attributes of the manager across calls *)

Lemma call_openrouter_self (m user_message pdf_context web_context : str)
    (history : option (list turn)) (s : state) :
  st_self (snd (_call_openrouter m user_message pdf_context web_context
                  history s)) = st_self s.
Proof.
  unfold _call_openrouter, bind, record, perform; simpl.
  destruct (openrouter_chat _ _ _); reflexivity.
Qed.

(** The handler keeps the model lists and raises the counter by one at
    most. *)
Lemma handle_gemini_error_self (e : str) (s : state) :
  let a := st_self s in
  let b := st_self (snd (_handle_gemini_error e s)) in
  openrouter_models b = openrouter_models a
  /\ gemini_models b = gemini_models a
  /\ (gemini_consecutive_429 a <= gemini_consecutive_429 b
      <= gemini_consecutive_429 a + 1)%Z.
Proof.
  cbv zeta; unfold _handle_gemini_error.
  destruct (is_throttling e).
  - unfold bind, get_self, perform, set_self.
    destruct (time_time (st_world s)); simpl; repeat split; lia.
  - simpl; repeat split; lia.
Qed.

Lemma call_gemini_self (m user_message pdf_context web_context : str)
    (history : option (list turn)) (s : state) :
  let a := st_self s in
  let b := st_self (snd (_call_gemini m user_message pdf_context web_context
                           history s)) in
  openrouter_models b = openrouter_models a
  /\ gemini_models b = gemini_models a
  /\ (gemini_consecutive_429 a <= gemini_consecutive_429 b
      <= gemini_consecutive_429 a + 1)%Z.
Proof.
  cbv zeta; unfold _call_gemini, bind, record, perform; simpl.
  destruct (gemini_generate _ _ _) as [[text | e] w].
  - simpl; repeat split; lia.
  - match goal with
    | |- context [_handle_gemini_error e ?s1] =>
        pose proof (handle_gemini_error_self e s1) as H;
        destruct (_handle_gemini_error e s1) as [[] s2]
    end.
    simpl in *; exact H.
Qed.

Lemma call_provider_self (provider m user_message pdf_context
    web_context : str) (history : option (list turn)) (s : state) :
  let a := st_self s in
  let b := st_self (snd (call_provider provider m user_message pdf_context
                           web_context history s)) in
  openrouter_models b = openrouter_models a
  /\ gemini_models b = gemini_models a
  /\ (gemini_consecutive_429 a <= gemini_consecutive_429 b
      <= gemini_consecutive_429 a + 1)%Z.
Proof.
  cbv zeta; unfold call_provider.
  destruct (str_eqb provider (u "openrouter")).
  - rewrite call_openrouter_self; repeat split; lia.
  - apply call_gemini_self.
Qed.

(** The loop calls a prefix of its models, one event each, and raises the
    counter by the number of calls at most. *)
Lemma chain_loop_run (provider user_message pdf_context web_context : str)
    (history : option (list turn)) (query_type : str) (models : list str)
    (s : state) :
  let s' := snd (chain_loop provider user_message pdf_context web_context
                   history query_type models s) in
  exists called rest,
    models = called ++ rest
    /\ st_log s' =
       st_log s ++ map (call_event provider user_message pdf_context
                          web_context history) called
    /\ openrouter_models (st_self s') = openrouter_models (st_self s)
    /\ gemini_models (st_self s') = gemini_models (st_self s)
    /\ (gemini_consecutive_429 (st_self s)
        <= gemini_consecutive_429 (st_self s')
        <= gemini_consecutive_429 (st_self s) + Z.of_nat (length called))%Z.
Proof.
  cbv zeta; revert s; induction models as [|m models IH]; intros s.
  - exists [], []; simpl; rewrite app_nil_r; repeat split; lia.
  - rewrite chain_loop_cons.
    pose proof (call_provider_self provider m user_message pdf_context
                  web_context history s) as (Ho & Hg & Hc).
    pose proof (call_provider_log provider user_message pdf_context
                  web_context history m s) as Hlog.
    destruct (_is_useful_response _ query_type).
    + exists [m], models; simpl; repeat split; try assumption; lia.
    + destruct (IH (snd (call_provider provider m user_message pdf_context
                           web_context history s)))
        as (called & rest & -> & Hl & Ho' & Hg' & Hc').
      exists (m :: called), rest; repeat split.
      * rewrite Hl, Hlog, <- app_assoc; reflexivity.
      * congruence.
      * congruence.
      * lia.
      * cbn [length]; lia.
Qed.

(** The OpenRouter loop leaves the manager as it is. *)
Lemma chain_loop_openrouter_self (user_message pdf_context web_context : str)
    (history : option (list turn)) (query_type : str) (models : list str)
    (s : state) :
  st_self (snd (chain_loop (u "openrouter") user_message pdf_context
                  web_context history query_type models s)) = st_self s.
Proof.
  revert s; induction models as [|m models IH]; intros s; [reflexivity|].
  rewrite chain_loop_cons.
  assert (Hself : st_self (snd (call_provider (u "openrouter") m user_message
                                  pdf_context web_context history s))
                  = st_self s) by apply call_openrouter_self.
  destruct (_is_useful_response _ query_type); [exact Hself|].
  rewrite IH; exact Hself.
Qed.

(** A run of [generate_response], read off its log: calls of a prefix of
    the OpenRouter models on the limited context, then calls of a prefix
    of the Gemini models on the full context. *)
Lemma generate_response_run (user_message pdf_context web_context : str)
    (history : option (list turn)) (s : state) :
  let s' := snd (generate_response user_message pdf_context web_context
                   history s) in
  exists called_or rest_or called_gm rest_gm,
    openrouter_models (st_self s) = called_or ++ rest_or
    /\ gemini_models (st_self s) = called_gm ++ rest_gm
    /\ st_log s' =
       st_log s
       ++ map (call_event (u "openrouter") user_message
                 (slice_to 200000 pdf_context) web_context history) called_or
       ++ map (call_event (u "gemini") user_message pdf_context web_context
                 history) called_gm
    /\ openrouter_models (st_self s') = openrouter_models (st_self s)
    /\ gemini_models (st_self s') = gemini_models (st_self s)
    /\ (gemini_consecutive_429 (st_self s)
        <= gemini_consecutive_429 (st_self s')
        <= gemini_consecutive_429 (st_self s)
           + Z.of_nat (length called_gm))%Z.
Proof.
  cbv zeta; unfold generate_response, bind.
  rewrite run_model_chain_loop, models_of_openrouter.
  pose proof (chain_loop_run (u "openrouter") user_message
                (slice_to 200000 pdf_context) web_context history
                (classify_query user_message)
                (openrouter_models (st_self s)) s)
    as (called_or & rest_or & Eor & Hlog1 & _).
  pose proof (chain_loop_openrouter_self user_message
                (slice_to 200000 pdf_context) web_context history
                (classify_query user_message)
                (openrouter_models (st_self s)) s) as Hself1.
  destruct (chain_loop (u "openrouter") _ _ _ _ _ _ s) as [or_response s1].
  cbn [snd] in Hlog1, Hself1.
  assert (Hstay : exists called_gm rest_gm,
             gemini_models (st_self s) = called_gm ++ rest_gm
             /\ st_log s1 =
                st_log s
                ++ map (call_event (u "openrouter") user_message
                          (slice_to 200000 pdf_context) web_context history)
                     called_or
                ++ map (call_event (u "gemini") user_message pdf_context
                          web_context history) called_gm
             /\ openrouter_models (st_self s1) = openrouter_models (st_self s)
             /\ gemini_models (st_self s1) = gemini_models (st_self s)
             /\ (gemini_consecutive_429 (st_self s)
                 <= gemini_consecutive_429 (st_self s1)
                 <= gemini_consecutive_429 (st_self s)
                    + Z.of_nat (length called_gm))%Z).
  { exists [], (gemini_models (st_self s)); simpl.
    rewrite app_nil_r, Hself1; repeat split; try assumption; lia. }
  destruct (truthy or_response && _).
  - destruct Hstay as (cg & rg & H); exists called_or, rest_or, cg, rg.
    split; [exact Eor | exact H].
  - pose proof (can_call_gemini_state s1) as (Hlog2 & Hself2).
    destruct (_can_call_gemini s1) as [ok s2]; cbn [snd] in Hlog2, Hself2.
    destruct ok.
    + rewrite run_model_chain_loop, models_of_gemini.
      pose proof (chain_loop_run (u "gemini") user_message pdf_context
                    web_context history (classify_query user_message)
                    (gemini_models (st_self s2)) s2)
        as (called_gm & rest_gm & Egm & Hlog3 & Ho3 & Hg3 & Hc3).
      destruct (chain_loop (u "gemini") _ _ _ _ _ _ s2)
        as [gm_response s3].
      cbn [snd] in Hlog3, Ho3, Hg3, Hc3.
      rewrite Hself2, Hself1 in *.
      exists called_or, rest_or, called_gm, rest_gm.
      assert (Hlog : st_log s3 =
                     st_log s
                     ++ map (call_event (u "openrouter") user_message
                               (slice_to 200000 pdf_context) web_context
                               history) called_or
                     ++ map (call_event (u "gemini") user_message pdf_context
                               web_context history) called_gm)
        by (rewrite Hlog3, Hlog2, Hlog1, <- app_assoc; reflexivity).
      destruct (truthy gm_response); cbn [snd ret];
        repeat split; try assumption; lia.
    + destruct Hstay as (cg & rg & Eg & Hl & Ho & Hg & Hc).
      exists called_or, rest_or, cg, rg; cbn [snd ret].
      rewrite Hlog2, Hself2; repeat split; try assumption; lia.
Qed.

Lemma gemini_calls_app (l1 l2 : list (event turn)) :
  gemini_calls (l1 ++ l2) = gemini_calls l1 + gemini_calls l2.
Proof. unfold gemini_calls; rewrite filter_app, length_app; reflexivity. Qed.

Lemma gemini_events_count (user_message pdf_context web_context : str)
    (history : option (list turn)) (called : list str) :
  gemini_calls
    (map (call_event (u "gemini") user_message pdf_context web_context
            history) called) = length called.
Proof.
  unfold gemini_calls; induction called as [|m called IH]; [reflexivity|].
  simpl; rewrite IH; reflexivity.
Qed.

(** *** A run as a sequence of uses *)

Lemma run_uses_app (a b : list use) (s : state) :
  snd (run_uses (a ++ b) s) = snd (run_uses b (snd (run_uses a s))).
Proof.
  revert s; induction a as [|x a IH]; intros s; [reflexivity|].
  cbn [app run_uses]; unfold bind.
  destruct (run_use x s) as [[] s1]; apply IH.
Qed.

Lemma run_use_call_provider (provider user_message pdf_context
    web_context : str) (history : option (list turn)) (m : str)
    (s : state) :
  snd (run_use (use_of provider user_message pdf_context web_context
                  history m) s)
  = snd (call_provider provider m user_message pdf_context web_context
           history s).
Proof.
  unfold use_of, call_provider.
  destruct (str_eqb provider (u "openrouter")); cbn [run_use]; unfold bind.
  - destruct (_call_openrouter _ _ _ _ _ s); reflexivity.
  - destruct (_call_gemini _ _ _ _ _ s); reflexivity.
Qed.

(** The loop of the chain runner is the calls of a prefix of its
    models. *)
Lemma chain_loop_uses (provider user_message pdf_context web_context : str)
    (history : option (list turn)) (query_type : str) (models : list str)
    (s : state) :
  exists called rest,
    models = called ++ rest
    /\ snd (chain_loop provider user_message pdf_context web_context
              history query_type models s)
       = snd (run_uses
                (map (use_of provider user_message pdf_context web_context
                        history) called) s).
Proof.
  revert s; induction models as [|m models IH]; intros s.
  - exists [], []; split; reflexivity.
  - cbn [chain_loop]; unfold bind.
    pose proof (run_use_call_provider provider user_message pdf_context
                  web_context history m s) as Hm.
    destruct (call_provider provider m user_message pdf_context web_context
                history s) as [response s1]; cbn [snd] in Hm.
    assert (Hone : snd (run_uses
                          (map (use_of provider user_message pdf_context
                                  web_context history) [m]) s) = s1).
    { cbn [map run_uses]; unfold bind.
      destruct (run_use _ s) as [[] s2]; cbn [snd] in *; exact Hm. }
    assert (Hnext : exists called rest,
               m :: models = called ++ rest
               /\ snd (chain_loop provider user_message pdf_context
                         web_context history query_type models s1)
                  = snd (run_uses
                           (map (use_of provider user_message pdf_context
                                   web_context history) called) s)).
    { destruct (IH s1) as (called & rest & -> & E).
      exists (m :: called), rest; split; [reflexivity|].
      change (m :: called) with ([m] ++ called).
      rewrite map_app, run_uses_app, Hone; exact E. }
    destruct (truthy response); [|exact Hnext].
    destruct (_is_useful_response response query_type); [|exact Hnext].
    exists [m], models; split; [reflexivity|].
    rewrite Hone; reflexivity.
Qed.

(** A run of [generate_response] is a sequence of uses: calls of
    OpenRouter models, then perhaps the gate, then perhaps calls of
    Gemini models.  The count of throttling errors over uses so covers
    the requests the manager serves. *)
Lemma generate_response_uses (user_message pdf_context web_context : str)
    (history : option (list turn)) (s : state) :
  exists uses,
    snd (generate_response user_message pdf_context web_context history s)
    = snd (run_uses uses s).
Proof.
  unfold generate_response, _run_model_chain, bind, get_self.
  destruct (chain_loop_uses (u "openrouter") user_message
              (slice_to 200000 pdf_context) web_context history
              (classify_query user_message) (openrouter_models (st_self s))
              s) as (c1 & r1 & _ & E1).
  cbn [str_eqb] in *.
  change (if str_eqb (u "openrouter") (u "openrouter")
          then openrouter_models (st_self s) else gemini_models (st_self s))
    with (openrouter_models (st_self s)).
  destruct (chain_loop (u "openrouter") _ _ _ _ _ _ s)
    as [or_response s1]; cbn [snd] in E1.
  destruct (truthy or_response && _).
  { eexists; exact E1. }
  assert (Egate : snd (_can_call_gemini s1)
                  = snd (run_uses [AsksGate] s1)).
  { cbn [run_uses run_use]; unfold bind.
    destruct (_can_call_gemini s1); reflexivity. }
  destruct (_can_call_gemini s1) as [ok s2]; cbn [snd] in Egate.
  destruct ok.
  - change (if str_eqb (u "gemini") (u "openrouter")
            then openrouter_models (st_self s2)
            else gemini_models (st_self s2))
      with (gemini_models (st_self s2)).
    destruct (chain_loop_uses (u "gemini") user_message pdf_context
                web_context history (classify_query user_message)
                (gemini_models (st_self s2)) s2) as (c2 & r2 & _ & E2).
    destruct (chain_loop (u "gemini") _ _ _ _ _ _ s2)
      as [gm_response s3]; cbn [snd] in E2.
    exists (map (use_of (u "openrouter") user_message
                   (slice_to 200000 pdf_context) web_context history) c1
            ++ [AsksGate]
            ++ map (use_of (u "gemini") user_message pdf_context
                      web_context history) c2).
    rewrite run_uses_app, <- E1, run_uses_app, <- Egate.
    destruct (truthy gm_response); exact E2.
  - exists (map (use_of (u "openrouter") user_message
                   (slice_to 200000 pdf_context) web_context history) c1
            ++ [AsksGate]).
    rewrite run_uses_app, <- E1; exact Egate.
Qed.

(** X1. The provider calls of one [generate_response] run are, in this
    order: calls of the first OpenRouter models of the list, none skipped,
    each with the prompt built from the first 200000 characters of the PDF
    context; then calls of the first Gemini models of the list, none
    skipped, each with the prompt built from the whole PDF context. *)
Theorem generate_response_trace
    (user_message pdf_context web_context : str)
    (history : option (list turn)) (s : state) :
  exists called_or rest_or called_gm rest_gm,
    openrouter_models (st_self s) = called_or ++ rest_or
    /\ gemini_models (st_self s) = called_gm ++ rest_gm
    /\ new_events
         (generate_response user_message pdf_context web_context history) s
       = map (fun m => OpenRouterCall m
                         (_build_prompt user_message
                            (slice_to 200000 pdf_context) web_context
                            history)) called_or
         ++ map (fun m => GeminiCall m
                            (_build_prompt user_message pdf_context
                               web_context history)) called_gm.
Proof.
  destruct (generate_response_run user_message pdf_context web_context
              history s)
    as (called_or & rest_or & called_gm & rest_gm & Eor & Egm & Hlog & _).
  exists called_or, rest_or, called_gm, rest_gm; repeat split; try assumption.
  apply new_events_of_log; exact Hlog.
Qed.

(** X2. In one [generate_response] run no provider is called more often
    than it has models, every prompt carries at most 20000 characters of
    web context, and every prompt sent to OpenRouter carries at most
    200000 characters of PDF context. *)
Theorem generate_response_bounds
    (user_message pdf_context web_context : str)
    (history : option (list turn)) (s : state) :
  let evs := new_events
               (generate_response user_message pdf_context web_context
                  history) s in
  length evs - gemini_calls evs <= length (openrouter_models (st_self s))
  /\ gemini_calls evs <= length (gemini_models (st_self s))
  /\ Forall (fun e =>
               match e with
               | OpenRouterCall _ p =>
                   length (prompt_pdf _ p) <= N.to_nat 200000
                   /\ length (prompt_web _ p) <= N.to_nat 20000
               | GeminiCall _ p =>
                   length (prompt_web _ p) <= N.to_nat 20000
               end) evs.
Proof.
  cbv zeta.
  destruct (generate_response_run user_message pdf_context web_context
              history s)
    as (called_or & rest_or & called_gm & rest_gm & Eor & Egm & Hlog & _).
  rewrite (new_events_of_log _ s _ Hlog).
  rewrite gemini_calls_app, openrouter_events_no_gemini, gemini_events_count.
  rewrite length_app, !length_map, Eor, Egm, !length_app.
  repeat split; try lia.
  apply Forall_app; split; apply Forall_forall; intros e He;
    apply in_map_iff in He; destruct He as (m & <- & _); simpl.
  - unfold slice_to; split; apply firstn_le_length.
  - unfold slice_to; apply firstn_le_length.
Qed.

(** X3. A run changes neither list of models, never lowers the counter of
    throttling errors, and raises it by at most the number of Gemini calls
    it makes. *)
Theorem generate_response_keeps_manager
    (user_message pdf_context web_context : str)
    (history : option (list turn)) (s : state) :
  let run := generate_response user_message pdf_context web_context
               history in
  let a := st_self s in
  let b := st_self (snd (run s)) in
  openrouter_models b = openrouter_models a
  /\ gemini_models b = gemini_models a
  /\ (gemini_consecutive_429 a <= gemini_consecutive_429 b
      <= gemini_consecutive_429 a
         + Z.of_nat (gemini_calls (new_events run s)))%Z.
Proof.
  cbv zeta.
  destruct (generate_response_run user_message pdf_context web_context
              history s)
    as (called_or & rest_or & called_gm & rest_gm & _ & _ & Hlog & Ho & Hg
        & Hc).
  rewrite (new_events_of_log _ s _ Hlog).
  rewrite gemini_calls_app, openrouter_events_no_gemini, gemini_events_count.
  repeat split; try assumption; simpl; lia.
Qed.

(** X4. When the gate of Gemini is closed after the OpenRouter chain (the
    key is missing, or the clock reads a time before
    [gemini_cooldown_until]), the run makes no Gemini call and returns
    what the OpenRouter chain returned. *)
Theorem generate_response_gate_closed
    (user_message pdf_context web_context : str)
    (history : option (list turn)) (s : state) :
  let or_run := _run_model_chain (u "openrouter") user_message
                  (slice_to 200000 pdf_context) web_context history
                  (classify_query user_message) s in
  GEMINI_API_KEY = []
  \/ ts_ltb (fst (time_time (st_world (snd or_run))))
            (gemini_cooldown_until (st_self s)) = true ->
  fst (generate_response user_message pdf_context web_context history s)
  = fst or_run
  /\ gemini_calls
       (new_events
          (generate_response user_message pdf_context web_context history) s)
     = 0.
Proof.
  cbv zeta; intros Hgate.
  pose proof (run_model_chain_result (u "openrouter") user_message
                (slice_to 200000 pdf_context) web_context history
                (classify_query user_message) s) as (_ & called & Hlog).
  assert (Hself : st_self (snd (_run_model_chain (u "openrouter")
                                  user_message (slice_to 200000 pdf_context)
                                  web_context history
                                  (classify_query user_message) s))
                  = st_self s).
  { rewrite run_model_chain_loop; apply chain_loop_openrouter_self. }
  assert (Hrun : fst (generate_response user_message pdf_context web_context
                        history s)
                 = fst (_run_model_chain (u "openrouter") user_message
                          (slice_to 200000 pdf_context) web_context history
                          (classify_query user_message) s)
                 /\ st_log (snd (generate_response user_message pdf_context
                                   web_context history s))
                    = st_log (snd (_run_model_chain (u "openrouter")
                                     user_message
                                     (slice_to 200000 pdf_context)
                                     web_context history
                                     (classify_query user_message) s))).
  { unfold generate_response, bind.
    destruct (_run_model_chain (u "openrouter") _ _ _ _ _ s)
      as [or_response s1]; cbn [fst snd] in *.
    destruct (truthy or_response && _); [split; reflexivity|].
    assert (Hno : fst (_can_call_gemini s1) = false).
    { apply can_call_gemini_false; rewrite Hself.
      destruct Hgate as [Hk | Hc]; [left; exact Hk|].
      destruct GEMINI_API_KEY eqn:Ek; [left; reflexivity|].
      right; split; [discriminate | exact Hc]. }
    pose proof (can_call_gemini_state s1) as (Hl & _).
    destruct (_can_call_gemini s1) as [ok s2]; cbn [fst snd] in *.
    subst ok; split; [reflexivity | exact Hl]. }
  destruct Hrun as [Hres Hl]; split; [exact Hres|].
  rewrite (new_events_of_log _ s _ (eq_trans Hl Hlog)).
  apply openrouter_events_no_gemini.
Qed.

(** X5. When the OpenRouter chain returns nothing, the gate is open and
    the first Gemini model gives a response the judge accepts, the run
    returns that response, in the state its call leaves, and makes exactly
    one Gemini call. *)
Theorem generate_response_gemini_first
    (user_message pdf_context web_context : str)
    (history : option (list turn)) (s : state) (m : str) (rest : list str) :
  let query_type := classify_query user_message in
  let or_run := _run_model_chain (u "openrouter") user_message
                  (slice_to 200000 pdf_context) web_context history
                  query_type s in
  let gate := _can_call_gemini (snd or_run) in
  let call := _call_gemini m user_message pdf_context web_context history
                (snd gate) in
  fst or_run = None ->
  fst gate = true ->
  gemini_models (st_self s) = m :: rest ->
  _is_useful_response (fst call) query_type = true ->
  generate_response user_message pdf_context web_context history s = call
  /\ gemini_calls
       (new_events
          (generate_response user_message pdf_context web_context history) s)
     = 1.
Proof.
  cbv zeta; intros Hor Hgate Hmodels Hu.
  pose proof (run_model_chain_result (u "openrouter") user_message
                (slice_to 200000 pdf_context) web_context history
                (classify_query user_message) s) as (_ & called & Hlog1).
  assert (Hself1 : st_self (snd (_run_model_chain (u "openrouter")
                                   user_message (slice_to 200000 pdf_context)
                                   web_context history
                                   (classify_query user_message) s))
                   = st_self s).
  { rewrite run_model_chain_loop; apply chain_loop_openrouter_self. }
  assert (Hrun : generate_response user_message pdf_context web_context
                   history s
                 = _call_gemini m user_message pdf_context web_context
                     history
                     (snd (_can_call_gemini
                             (snd (_run_model_chain (u "openrouter")
                                     user_message
                                     (slice_to 200000 pdf_context)
                                     web_context history
                                     (classify_query user_message) s))))).
  { unfold generate_response, bind.
    destruct (_run_model_chain (u "openrouter") _ _ _ _ _ s)
      as [or_response s1]; cbn [fst snd] in *; subst or_response.
    cbn [truthy andb].
    pose proof (can_call_gemini_state s1) as (_ & Hself2).
    destruct (_can_call_gemini s1) as [ok s2]; cbn [fst snd] in *.
    subst ok.
    rewrite run_model_chain_loop, models_of_gemini, Hself2, Hself1, Hmodels.
    rewrite chain_loop_cons.
    change (call_provider (u "gemini") m user_message pdf_context
              web_context history s2)
      with (_call_gemini m user_message pdf_context web_context history s2).
    rewrite Hu.
    destruct (_call_gemini m user_message pdf_context web_context history s2)
      as [gm_response s3] eqn:E; cbn [fst] in Hu.
    rewrite (is_useful_response_truthy _ _ Hu); reflexivity. }
  split; [exact Hrun|].
  apply (f_equal (fun r => st_log (snd r))) in Hrun.
  pose proof (call_provider_log (u "gemini") user_message pdf_context
                web_context history m
                (snd (_can_call_gemini
                        (snd (_run_model_chain (u "openrouter") user_message
                                (slice_to 200000 pdf_context) web_context
                                history (classify_query user_message) s)))))
    as Hlog3.
  change (call_provider (u "gemini") m user_message pdf_context web_context
            history)
    with (_call_gemini m user_message pdf_context web_context history)
    in Hlog3.
  destruct (can_call_gemini_state
              (snd (_run_model_chain (u "openrouter") user_message
                      (slice_to 200000 pdf_context) web_context history
                      (classify_query user_message) s))) as (Hlog2 & _).
  rewrite Hlog3, Hlog2, Hlog1, <- app_assoc in Hrun.
  rewrite (new_events_of_log _ s _ Hrun).
  rewrite gemini_calls_app, openrouter_events_no_gemini; reflexivity.
Qed.

(** X6. From the first throttling error on, the cooldown is at least 60
    and at most 600 seconds, and it never gets shorter as the count of
    throttling errors grows. *)
Theorem backoff_of_bounds (count later : Z) :
  (1 <= count)%Z -> (count <= later)%Z ->
  (60 <= backoff_of count)%Z
  /\ (backoff_of count <= backoff_of later)%Z
  /\ (backoff_of later <= 600)%Z.
Proof.
  intros H1 H2; unfold backoff_of, GEMINI_COOLDOWN.
  assert (Hc : (1 <= 2 ^ (count - 1))%Z).
  { assert (0 < 2 ^ (count - 1))%Z by (apply Z.pow_pos_nonneg; lia); lia. }
  assert (Hm : (2 ^ (count - 1) <= 2 ^ (later - 1))%Z)
    by (apply Z.pow_le_mono_r; lia).
  repeat split.
  - apply Z.min_glb; lia.
  - apply Z.min_le_compat_r; lia.
  - apply Z.le_min_r.
Qed.

(** X7. After a throttling error is handled, with a key configured, the
    next check of the gate reads the clock once and refuses exactly when
    that reading is before the reading of the handler plus the cooldown
    for the new count. *)
Theorem throttling_closes_gate (e : str) (s : state) :
  GEMINI_API_KEY <> [] ->
  is_throttling e = true ->
  let now := fst (time_time (st_world s)) in
  let w1 := snd (time_time (st_world s)) in
  let count := (gemini_consecutive_429 (st_self s) + 1)%Z in
  fst (_can_call_gemini (snd (_handle_gemini_error e s)))
  = negb (ts_ltb (fst (time_time w1)) (ts_add now (backoff_of count))).
Proof.
  intros Hkey He; cbv zeta.
  pose proof (handle_gemini_error_throttling e s He) as (_ & Hu & Hw).
  cbv zeta in Hu, Hw.
  destruct (_handle_gemini_error e s) as [[] s1]; cbn [snd] in *.
  unfold _can_call_gemini.
  destruct GEMINI_API_KEY as [|c key]; [congruence|]; simpl.
  unfold bind, perform, get_self; rewrite Hw.
  destruct (time_time (snd (time_time (st_world s)))) as [t w2]; simpl.
  rewrite Hu; destruct (ts_ltb t _); reflexivity.
Qed.
End RunFacts.

(* ================================================================== *)
(** ** More on the classifier and the judge *)

Section JudgeMore.
Context {U : Unicode}.

Lemma classify_items_label (items : list (str * list str)) (low : str) :
  In (classify_items items low) (map fst items ++ [u "general"]).
Proof.
  induction items as [|[l ks] items IH]; simpl.
  - left; reflexivity.
  - destruct (any_in ks low); [left; reflexivity | right; exact IH].
Qed.

(** X8. [classify_query] never returns 'cronograma': of the two labels the
    date rule of the judge names, only 'fechas' can come out of the
    classifier. *)
Theorem classify_query_date_label (message : str) :
  classify_query message <> u "cronograma"
  /\ (In (classify_query message) date_labels ->
      classify_query message = u "fechas").
Proof.
  unfold classify_query.
  pose proof (classify_items_label QUERY_CLASSIFICATIONS (lower message))
    as Hin.
  assert (Hne : classify_items QUERY_CLASSIFICATIONS (lower message)
                <> u "cronograma").
  { intros E; rewrite E in Hin; apply str_in_In in Hin.
    vm_compute in Hin; discriminate. }
  split; [exact Hne|].
  intros [H | [H | []]]; [symmetry; exact H | congruence].
Qed.

(** X9. A response of at least 50 characters whose lowered text has a
    decimal digit and none of the "no information" phrases is judged
    useful for every label: one digit satisfies both the money rule and
    the date rule. *)
Theorem is_useful_response_with_digit (r query_type : str) :
  50 <= length r ->
  (forall p, In p useless_phrases -> contains p (lower r) = false) ->
  (exists c, In c (lower r) /\ is_decimal c = true) ->
  _is_useful_response (Some r) query_type = true.
Proof.
  intros Hlen Hno Hd.
  rewrite is_useful_response_long by assumption; cbv zeta.
  apply any_in_none in Hno; rewrite Hno.
  assert (Hdigit : existsb is_decimal (lower r) = true)
    by (apply existsb_exists; exact Hd).
  rewrite re_search_money_pattern, re_search_day_pattern, Hdigit.
  rewrite !orb_true_r; cbn [negb]; rewrite !andb_false_r; reflexivity.
Qed.

(** X10. For a label outside costos, matrícula, titulación, fechas and
    cronograma, a response of at least 50 characters is judged useful
    exactly when its lowered text has none of the "no information"
    phrases or has a contact indicator. *)
Theorem is_useful_response_plain_label (r query_type : str) :
  ~ In query_type (money_labels ++ date_labels) ->
  50 <= length r ->
  _is_useful_response (Some r) query_type
  = negb (any_in useless_phrases (lower r))
    || any_in contact_indicators (lower r).
Proof.
  intros Hl Hlen.
  rewrite is_useful_response_long by assumption; cbv zeta.
  assert (Hm : str_in query_type money_labels = false).
  { destruct (str_in query_type money_labels) eqn:E; [|reflexivity].
    exfalso; apply Hl, in_or_app; left; apply str_in_In; exact E. }
  assert (Hd : str_in query_type date_labels = false).
  { destruct (str_in query_type date_labels) eqn:E; [|reflexivity].
    exfalso; apply Hl, in_or_app; right; apply str_in_In; exact E. }
  rewrite Hm, Hd; cbn [andb].
  destruct (any_in useless_phrases (lower r)); reflexivity.
Qed.
End JudgeMore.

(* ================================================================== *)
(** ** The server: what [sanitize_input] lets through *)

Section SanitizeFacts.

Lemma flat_map_flat_map {A B C} (f : A -> list B) (g : B -> list C)
    (l : list A) :
  flat_map g (flat_map f l) = flat_map (fun x => flat_map g (f x)) l.
Proof.
  induction l as [|x l IH]; [reflexivity|].
  simpl; rewrite flat_map_app, IH; reflexivity.
Qed.

(** The five replacements of [html.escape] act on each character on its
    own. *)
Lemma html_escape_chars (s : str) : html_escape s = flat_map escape_char s.
Proof.
  unfold html_escape, replace_char; cbv zeta.
  rewrite !flat_map_flat_map; apply flat_map_ext; intros c.
  unfold escape_char.
  destruct (N.eqb_spec c 38) as [->|H38]; [reflexivity|].
  destruct (N.eqb_spec c 60) as [->|H60]; [reflexivity|].
  destruct (N.eqb_spec c 62) as [->|H62]; [reflexivity|].
  destruct (N.eqb_spec c 34) as [->|H34]; [reflexivity|].
  destruct (N.eqb_spec c 39) as [->|H39]; [reflexivity|].
  apply N.eqb_neq in H38, H60, H62, H34, H39.
  cbn [flat_map app]; rewrite H60; cbn [flat_map app]; rewrite H62.
  cbn [flat_map app]; rewrite H34; cbn [flat_map app]; rewrite H39.
  reflexivity.
Qed.

Lemma escape_char_quiet (c : N) :
  Forall (fun x => x <> 60 /\ x <> 62 /\ x <> 34 /\ x <> 39)%N
         (escape_char c).
Proof.
  unfold escape_char.
  destruct (N.eqb_spec c 38);
    [repeat constructor; intros E; discriminate|].
  destruct (N.eqb_spec c 60);
    [repeat constructor; intros E; discriminate|].
  destruct (N.eqb_spec c 62);
    [repeat constructor; intros E; discriminate|].
  destruct (N.eqb_spec c 34);
    [repeat constructor; intros E; discriminate|].
  destruct (N.eqb_spec c 39);
    [repeat constructor; intros E; discriminate|].
  repeat constructor; assumption.
Qed.

Lemma escape_char_length (c : N) : length (escape_char c) <= 6.
Proof.
  unfold escape_char.
  repeat match goal with
         | |- context [(c =? ?k)%N] => destruct (c =? k)%N
         end; vm_compute; lia.
Qed.

Lemma lstrip_split (s : str) :
  exists pre, s = pre ++ lstrip s /\ Forall (fun c => is_space c = true) pre.
Proof.
  induction s as [|c s (pre & E & Hpre)]; simpl.
  - exists []; split; [reflexivity | constructor].
  - destruct (is_space c) eqn:Ec.
    + exists (c :: pre); split; [simpl; congruence | constructor; assumption].
    + exists []; split; [reflexivity | constructor].
Qed.

Lemma lstrip_head (s : str) (c : N) :
  hd_error (lstrip s) = Some c -> is_space c = false.
Proof.
  induction s as [|x s IH]; simpl; [discriminate|].
  destruct (is_space x) eqn:Ex; [exact IH|].
  simpl; intros E; inversion E; subst; exact Ex.
Qed.

Lemma lstrip_keep (s : str) :
  (forall c, hd_error s = Some c -> is_space c = false) -> lstrip s = s.
Proof.
  destruct s as [|x s]; [reflexivity|]; simpl; intros H.
  rewrite (H x eq_refl); reflexivity.
Qed.

Lemma lstrip_snoc (s : str) (c : N) :
  is_space c = false -> lstrip (s ++ [c]) = lstrip s ++ [c].
Proof.
  intros Hc; induction s as [|x s IH]; simpl; [rewrite Hc; reflexivity|].
  destruct (is_space x); [exact IH | reflexivity].
Qed.

Lemma rstrip_split (s : str) :
  exists post, s = rstrip s ++ post.
Proof.
  unfold rstrip; destruct (lstrip_split (rev s)) as (pre & E & _).
  exists (rev pre); rewrite <- rev_app_distr, <- E, rev_involutive.
  reflexivity.
Qed.

(** [strip] gives a part of the text that starts and ends with no
    whitespace. *)
Lemma strip_ends (s : str) :
  (exists pre post, s = pre ++ strip s ++ post)
  /\ (forall c, hd_error (strip s) = Some c -> is_space c = false)
  /\ (forall c, hd_error (rev (strip s)) = Some c -> is_space c = false).
Proof.
  unfold strip; repeat split.
  - destruct (lstrip_split s) as (pre & E & _).
    destruct (rstrip_split (lstrip s)) as (post & E').
    exists pre, post; rewrite <- E'; exact E.
  - intros c; pose proof (lstrip_head s) as Hh.
    destruct (lstrip s) as [|x a]; [discriminate|].
    unfold rstrip; simpl rev.
    specialize (Hh x eq_refl).
    rewrite (lstrip_snoc _ x Hh), rev_app_distr; simpl.
    intros E; inversion E; subst; exact Hh.
  - intros c; unfold rstrip; rewrite rev_involutive; apply lstrip_head.
Qed.

Lemma Forall_part {A} (Q : A -> Prop) (pre mid post : list A) :
  Forall Q (pre ++ mid ++ post) -> Forall Q mid.
Proof.
  intros H; apply Forall_app in H; destruct H as [_ H].
  apply Forall_app in H; destruct H as [H _]; exact H.
Qed.

(** The characters of a sanitised string. *)
Lemma sanitize_input_chars {float : Type} (t : str) :
  Forall (fun c => (c <> 60 /\ c <> 62 /\ c <> 34 /\ c <> 39)%N
                   /\ is_control c = false)
         (sanitize_input (@JStr float t)).
Proof.
  unfold sanitize_input.
  destruct (strip_ends (remove_control (html_escape t)))
    as ((pre & post & E) & _).
  apply (Forall_part _ pre _ post); rewrite <- E.
  unfold remove_control; apply Forall_forall; intros c Hc.
  apply filter_In in Hc; destruct Hc as [Hin Hctl]; split.
  - rewrite html_escape_chars in Hin; apply in_flat_map in Hin.
    destruct Hin as (x & _ & Hx).
    pose proof (escape_char_quiet x) as Hq.
    rewrite Forall_forall in Hq; exact (Hq c Hx).
  - destruct (is_control c); [discriminate | reflexivity].
Qed.

(** X12. Whatever the text, the result of [sanitize_input] has none of
    the characters <, >, double quote and single quote, none of the
    control characters the pattern removes, and neither starts nor ends
    with whitespace. *)
Theorem sanitize_input_safe {float : Type} (text : json float) :
  let out := sanitize_input text in
  Forall (fun c => (c <> 60 /\ c <> 62 /\ c <> 34 /\ c <> 39)%N
                   /\ is_control c = false) out
  /\ (forall c, hd_error out = Some c -> is_space c = false)
  /\ (forall c, hd_error (rev out) = Some c -> is_space c = false).
Proof.
  cbv zeta; destruct text as [| | | |t| |];
    try (repeat split; [constructor | discriminate | discriminate]).
  split; [apply sanitize_input_chars|].
  unfold sanitize_input.
  destruct (strip_ends (remove_control (html_escape t))) as (_ & Hh & Hl).
  split; assumption.
Qed.

Lemma flat_map_length_le {A B} (f : A -> list B) (k : nat) (l : list A) :
  (forall x, length (f x) <= k) -> length (flat_map f l) <= k * length l.
Proof.
  intros Hf; induction l as [|x l IH]; simpl; [lia|].
  rewrite length_app; specialize (Hf x); lia.
Qed.

(** X13. Sanitising a text makes it at most six times as long, so a text
    of at most 333 characters is never over [MAX_MESSAGE_LENGTH]
    afterwards. *)
Theorem sanitize_input_length {float : Type} (t : str) :
  length (sanitize_input (@JStr float t)) <= 6 * length t
  /\ (length t <= 333 ->
      length (sanitize_input (@JStr float t)) <= MAX_MESSAGE_LENGTH).
Proof.
  assert (H : length (sanitize_input (@JStr float t)) <= 6 * length t).
  { unfold sanitize_input.
    destruct (strip_ends (remove_control (html_escape t)))
      as ((pre & post & E) & _).
    apply (f_equal (@length N)) in E; rewrite !length_app in E.
    pose proof (filter_length_le (fun c => negb (is_control c))
                  (html_escape t)) as Hf.
    fold (remove_control (html_escape t)) in Hf.
    pose proof (flat_map_length_le escape_char 6 t escape_char_length) as He.
    rewrite <- html_escape_chars in He; lia. }
  split; [exact H|].
  unfold MAX_MESSAGE_LENGTH; intros Hlen; lia.
Qed.

(** X14. A text with no ampersand, <, >, quote or removed control
    character, that neither starts nor ends with whitespace, comes out
    of [sanitize_input] as it went in. *)
Theorem sanitize_input_clean {float : Type} (t : str) :
  Forall (fun c => (c <> 38 /\ c <> 60 /\ c <> 62 /\ c <> 34 /\ c <> 39)%N
                   /\ is_control c = false) t ->
  (forall c, hd_error t = Some c -> is_space c = false) ->
  (forall c, hd_error (rev t) = Some c -> is_space c = false) ->
  sanitize_input (@JStr float t) = t.
Proof.
  intros Hclean Hhead Hlast; unfold sanitize_input.
  assert (He : html_escape t = t).
  { rewrite html_escape_chars; clear Hhead Hlast.
    induction Hclean as [|c t [(H38 & H60 & H62 & H34 & H39) _] _ IH];
      [reflexivity|].
    simpl; rewrite IH; unfold escape_char.
    apply N.eqb_neq in H38, H60, H62, H34, H39.
    rewrite H38, H60, H62, H34, H39; reflexivity. }
  assert (Hc : remove_control t = t).
  { unfold remove_control; clear Hhead Hlast He.
    induction Hclean as [|c t [_ Hctl] _ IH]; [reflexivity|].
    simpl; rewrite Hctl, IH; reflexivity. }
  rewrite He, Hc; unfold strip, rstrip.
  rewrite (lstrip_keep _ Hhead), (lstrip_keep _ Hlast).
  apply rev_involutive.
Qed.
End SanitizeFacts.

(* ================================================================== *)
(** ** The Sheets manager: reading the row number off a range *)

Section RowPatternFacts.
Context {U : Unicode}.

Lemma star_digit_lang (t : str) :
  re_lang (ReStar ReDigit) t <-> Forall (fun c => is_decimal c = true) t.
Proof.
  split.
  - intros H; remember (ReStar ReDigit) as r eqn:Er.
    induction H as [| | | | | | |a s t' Ha _ Ht IH]; try discriminate.
    + constructor.
    + inversion Er; subst a.
      inversion Ha; subst; constructor; [assumption | apply IH; reflexivity].
  - induction 1 as [|c t Hc _ IH]; [constructor|].
    change (c :: t) with ([c] ++ t); constructor;
      [constructor; assumption | exact IH].
Qed.

(** What [\d+] matches: the strings of decimal digits that are not
    empty. *)
Lemma digits_lang (s : str) :
  re_lang (re_plus ReDigit) s <->
  s <> [] /\ Forall (fun c => is_decimal c = true) s.
Proof.
  split.
  - intros H; inversion H as [| | |? ? s1 s2 H1 H2| | | |]; subst.
    inversion H1; subst; split; [discriminate|].
    constructor; [assumption | apply star_digit_lang; assumption].
  - intros [Hne Hall]; destruct s as [|c t]; [congruence|].
    inversion Hall; subst.
    change (c :: t) with ([c] ++ t); constructor;
      [constructor; assumption | apply star_digit_lang; assumption].
Qed.

(** What [!A(\d+):] matches. *)
Lemma row_pattern_lang (m : str) :
  re_lang row_pattern m <->
  exists digits,
    m = u "!A" ++ digits ++ [58%N]
    /\ digits <> [] /\ Forall (fun c => is_decimal c = true) digits.
Proof.
  unfold row_pattern; split.
  - intros H; inversion H as [| | |? ? s1 s2 H1 H2| | | |]; subst.
    apply (proj1 (re_lit_lang (u "!A") _)) in H1; subst s1.
    inversion H2 as [| | |? ? d e Hd He| | | |]; subst.
    inversion He; subst.
    apply digits_lang in Hd; destruct Hd as [Hne Hall].
    exists d; repeat split; assumption.
  - intros (digits & -> & Hne & Hall).
    constructor; [apply re_lit_lang; reflexivity|].
    constructor; [apply digits_lang; split; assumption | constructor].
Qed.

Lemma span_digits_split (s : str) :
  s = fst (span_digits s) ++ snd (span_digits s)
  /\ Forall (fun c => is_decimal c = true) (fst (span_digits s)).
Proof.
  induction s as [|c s [IH1 IH2]]; simpl; [split; [reflexivity | constructor]|].
  destruct (is_decimal c) eqn:Ec; [|split; [reflexivity | constructor]].
  destruct (span_digits s) as [digits rest]; simpl in *.
  split; [f_equal; exact IH1 | constructor; assumption].
Qed.

(** The digits before a character that is no digit are the whole run. *)
Lemma span_digits_app (digits : str) (c : N) (post : str) :
  Forall (fun c => is_decimal c = true) digits ->
  is_decimal c = false ->
  span_digits (digits ++ c :: post) = (digits, c :: post).
Proof.
  intros Hall Hc; induction Hall as [|d digits Hd _ IH]; simpl.
  - rewrite Hc; reflexivity.
  - rewrite Hd, IH; reflexivity.
Qed.

Lemma search_row_cons (c : N) (s : str) :
  search_row (c :: s) =
  match row_here (c :: s) with
  | Some digits => Some digits
  | None => search_row s
  end.
Proof.
  unfold row_here; cbn [search_row].
  destruct (startswith (u "!A") (c :: s)); [|reflexivity].
  destruct (span_digits (skipn 2 (c :: s))) as [[|d digits] [|x rest]];
    try reflexivity.
  destruct x as [|p]; [reflexivity|].
  do 6 (destruct p as [p|p|]; try reflexivity).
Qed.

Section Colon.
Hypothesis colon_no_digit : is_decimal 58 = false.

(** The test at one position finds the digits of a match of the pattern
    that starts there, and there is at most one such match. *)
Lemma row_here_some (s digits : str) :
  row_here s = Some digits <->
  exists post,
    s = u "!A" ++ digits ++ 58%N :: post
    /\ digits <> [] /\ Forall (fun c => is_decimal c = true) digits.
Proof.
  unfold row_here; split.
  - destruct (startswith (u "!A") s) eqn:Es; [|discriminate].
    apply startswith_app in Es; destruct Es as (t & ->).
    change (skipn 2 (u "!A" ++ t)) with t.
    destruct (span_digits_split t) as [Hsplit Hall].
    destruct (span_digits t) as [[|d ds] [|x rest]]; try discriminate.
    cbn [fst snd] in Hsplit, Hall.
    destruct (N.eqb_spec x 58) as [->|Hne].
    + intros E; inversion E; subst digits.
      exists rest; split; [rewrite Hsplit; reflexivity|].
      split; [discriminate | exact Hall].
    + intros E; exfalso.
      destruct x as [|p]; [discriminate|].
      do 6 (destruct p as [p|p|]; try discriminate).
      apply Hne; reflexivity.
  - intros (post & -> & Hne & Hall).
    change (startswith (u "!A") (u "!A" ++ digits ++ 58%N :: post))
      with true; cbn match.
    change (skipn 2 (u "!A" ++ digits ++ 58%N :: post))
      with (digits ++ 58%N :: post).
    rewrite (span_digits_app _ _ _ Hall colon_no_digit).
    destruct digits as [|d ds]; [congruence | reflexivity].
Qed.

Lemma row_here_match (s : str) :
  re_match row_pattern s = true <-> exists digits, row_here s = Some digits.
Proof.
  rewrite re_match_lang; split.
  - intros (pre & post & -> & H); apply row_pattern_lang in H.
    destruct H as (digits & -> & Hne & Hall).
    exists digits; apply row_here_some; exists post.
    split; [|split; assumption].
    rewrite <- !app_assoc; reflexivity.
  - intros (digits & H); apply row_here_some in H.
    destruct H as (post & -> & Hne & Hall).
    exists (u "!A" ++ digits ++ [58%N]), post; split.
    + rewrite <- !app_assoc; reflexivity.
    + apply row_pattern_lang; exists digits; repeat split; assumption.
Qed.

(** [search_row] is [re.search] with the pattern [!A(\d+):]: it finds
    nothing exactly when the pattern has no match. *)
Lemma search_row_none (s : str) :
  search_row s = None <-> re_search row_pattern s = false.
Proof.
  induction s as [|c s IH].
  - split; reflexivity.
  - rewrite search_row_cons.
    change (re_search row_pattern (c :: s))
      with (re_match row_pattern (c :: s) || re_search row_pattern s).
    rewrite orb_false_iff, <- IH.
    pose proof (row_here_match (c :: s)) as Hm.
    destruct (row_here (c :: s)) as [digits|]; split.
    + discriminate.
    + intros [Hf _]; exfalso.
      assert (Ht : re_match row_pattern (c :: s) = true)
        by (apply Hm; exists digits; reflexivity).
      congruence.
    + intros H; split; [|exact H].
      destruct (re_match row_pattern (c :: s)); [|reflexivity].
      destruct (proj1 Hm eq_refl) as (digits & E); discriminate.
    + intros [_ H]; exact H.
Qed.

(** What it finds is the group of the leftmost match: the digits between
    "!A" and the colon, no match of the pattern starting further to the
    left. *)
Lemma search_row_some (s digits : str) :
  search_row s = Some digits ->
  exists pre post,
    s = pre ++ u "!A" ++ digits ++ 58%N :: post
    /\ digits <> []
    /\ Forall (fun c => is_decimal c = true) digits
    /\ forall a b, pre = a ++ b -> b <> [] ->
         re_match row_pattern (b ++ u "!A" ++ digits ++ 58%N :: post)
         = false.
Proof.
  induction s as [|c s IH]; [discriminate|].
  rewrite search_row_cons.
  pose proof (row_here_match (c :: s)) as Hm.
  destruct (row_here (c :: s)) as [found|] eqn:Eh.
  - intros E; inversion E; subst found.
    apply row_here_some in Eh; destruct Eh as (post & E' & Hne & Hall).
    exists [], post; repeat split; try assumption.
    intros a b Hab Hb; symmetry in Hab.
    apply app_eq_nil in Hab; destruct Hab; congruence.
  - intros E; destruct (IH E) as (pre & post & -> & Hne & Hall & Hleft).
    exists (c :: pre), post; repeat split; try assumption.
    intros a b Hab Hb; destruct a as [|x a].
    + simpl in Hab; subst b.
      apply not_true_is_false; intros Er.
      destruct (proj1 Hm Er) as (d & Hd); discriminate.
    + inversion Hab; subst; apply (Hleft a b); [reflexivity | assumption].
Qed.
End Colon.
End RowPatternFacts.

(* ================================================================== *)
(** ** The server: what a chat request can do *)

Section ChatFacts.
Context {U : Unicode} {P : Platform} {V : Server}.

(** No provider was called, and the AI manager and the module's Sheets
    manager are as they were. *)
Local Abbreviation calm s s' :=
  (st_log (sv_ai s') = st_log (sv_ai s)
   /\ st_self (sv_ai s') = st_self (sv_ai s)
   /\ sv_sheets_manager s' = sv_sheets_manager s).

(** Besides, nothing was sent to the Sheets API. *)
Local Abbreviation quiet s s' :=
  (sv_sheets s' = sv_sheets s /\ calm s s').

(** No write request, or the one of the header row. *)
Local Abbreviation header_only ws :=
  (ws = [] \/ ws = [ValuesUpdate (u "A1:I1") headers]).

Lemma quiet_refl (s : server_state) : quiet s s.
Proof. repeat split. Qed.

Lemma quiet_trans (a b c : server_state) :
  quiet a b -> quiet b c -> quiet a c.
Proof.
  intros (H1 & H2 & H3 & H4) (H5 & H6 & H7 & H8); repeat split; congruence.
Qed.

Lemma ask_quiet {A} (op : world -> A * world) (s : server_state) :
  quiet s (snd (ask op s)).
Proof.
  unfold ask, with_ai, perform.
  destruct (op (st_world (sv_ai s))); repeat split.
Qed.

Lemma call_quiet {A} (op : world -> result exn A * world)
    (s : server_state) :
  quiet s (snd (call op s)).
Proof. apply (ask_quiet op). Qed.

(** Runs the next operation of the server in the computation [H]. *)
Ltac run_call H :=
  match type of H with
  | context [call ?op ?st] =>
      let Hs := fresh "Hs" in
      let Hl := fresh "Hl" in
      let Hm := fresh "Hm" in
      let Hg := fresh "Hg" in
      pose proof (call_quiet op st) as (Hs & Hl & Hm & Hg);
      destruct (call op st) as [[? | ?] ?];
      cbn [snd sv_ai sv_sheets sv_sheets_manager] in Hs, Hl, Hm, Hg
  end.

Ltac run_ask H :=
  match type of H with
  | context [ask ?op ?st] =>
      let Hs := fresh "Hs" in
      let Hl := fresh "Hl" in
      let Hm := fresh "Hm" in
      let Hg := fresh "Hg" in
      pose proof (ask_quiet op st) as (Hs & Hl & Hm & Hg);
      destruct (ask op st) as [? ?];
      cbn [snd sv_ai sv_sheets sv_sheets_manager] in Hs, Hl, Hm, Hg
  end.

(** Closes a leaf of a computation: [H] gives the result and the final
    state. *)
Ltac leaf H :=
  inversion H; subst; clear H;
  cbn [fst snd sv_ai sv_sheets sv_sheets_manager] in *.

Lemma search_in_documents_quiet (query : str) (s : server_state) :
  quiet s (snd (search_in_documents query s))
  /\ forall text, fst (search_in_documents query s) = Returned text ->
                  text <> [].
Proof.
  unfold search_in_documents, tbind, sbind.
  pose proof (call_quiet get_all_documents_text s) as Hq.
  destruct (call get_all_documents_text s) as [[all_text | e] s1];
    cbn [snd] in Hq.
  - destruct all_text as [|c t]; simpl; split; try exact Hq;
      intros text E; inversion E; discriminate.
  - simpl; split; [exact Hq | discriminate].
Qed.

(** *** The Sheets manager *)

(** [_ensure_headers] sends at most the header row. *)
Lemma ensure_headers_effect (self : GoogleSheetsManager)
    (s : server_state) :
  let s' := snd (_ensure_headers self s) in
  calm s s'
  /\ exists ws, sv_sheets s' = sv_sheets s ++ ws /\ header_only ws.
Proof.
  cbv zeta.
  destruct (_ensure_headers self s) as [[] s'] eqn:H; cbn [snd].
  unfold _ensure_headers, sbind, sret in H.
  destruct (negb (is_ready self)).
  { leaf H; split; [repeat split|].
    exists []; rewrite app_nil_r; split; [reflexivity | left; reflexivity]. }
  run_call H.
  - match type of H with
    | context [if ?b then _ else _] => destruct b
    end.
    + unfold wrote at 1 in H.
      run_call H; leaf H;
        (split; [repeat split; congruence|]);
        (eexists; split; [rewrite Hs0, Hs; reflexivity | right; reflexivity]).
    + leaf H; split; [repeat split; assumption|].
      exists []; rewrite app_nil_r; split; [exact Hs | left; reflexivity].
  - leaf H; split; [repeat split; assumption|].
    exists []; rewrite app_nil_r; split; [exact Hs | left; reflexivity].
Qed.

(** [get_sheets_manager] returns the module's manager, which it builds
    when there is none; building it sends at most the header row. *)
Lemma get_sheets_manager_effect (s : server_state) :
  let r := fst (get_sheets_manager s) in
  let s' := snd (get_sheets_manager s) in
  st_log (sv_ai s') = st_log (sv_ai s)
  /\ st_self (sv_ai s') = st_self (sv_ai s)
  /\ (exists ws, sv_sheets s' = sv_sheets s ++ ws /\ header_only ws)
  /\ forall self, r = Returned self -> sv_sheets_manager s' = Some self.
Proof.
  cbv zeta.
  destruct (get_sheets_manager s) as [r s'] eqn:H; cbn [fst snd].
  unfold get_sheets_manager in H.
  destruct (sv_sheets_manager s) as [self|] eqn:Eg.
  { leaf H; repeat split.
    - exists []; rewrite app_nil_r; split; [reflexivity | left; reflexivity].
    - intros self' E; inversion E; subst; exact Eg. }
  unfold tbind, sbind, GoogleSheetsManager_init, sbind, sret in H.
  run_ask H.
  destruct b.
  - unfold tbind, sbind, sret in H.
    run_call H.
    + match type of H with
      | context [_ensure_headers ?m ?st] =>
          pose proof (ensure_headers_effect m st)
            as ((Hl3 & Hm3 & _) & ws & Hs3 & Hws);
          destruct (_ensure_headers m st) as [[] s3];
          cbn [snd] in Hl3, Hm3, Hs3
      end.
      unfold set_sheets_manager in H; leaf H.
      split; [congruence|]. split; [congruence|]. split.
      * exists ws; split; [congruence | exact Hws].
      * intros self E; inversion E; reflexivity.
    + leaf H.
      split; [congruence|]. split; [congruence|]. split.
      * exists []; rewrite app_nil_r; split;
          [congruence | left; reflexivity].
      * discriminate.
  - unfold set_sheets_manager in H; leaf H.
    split; [congruence|]. split; [congruence|]. split.
    + exists []; rewrite app_nil_r; split; [congruence | left; reflexivity].
    + intros self E; inversion E; reflexivity.
Qed.

(** [find_recent_duplicate] only reads the sheet. *)
Lemma find_recent_duplicate_quiet (self : GoogleSheetsManager)
    (user_query : str) (time_window_seconds : Z) (s : server_state) :
  quiet s (snd (find_recent_duplicate self user_query time_window_seconds s)).
Proof.
  destruct (find_recent_duplicate self user_query time_window_seconds s)
    as [n s'] eqn:H; cbn [snd].
  unfold find_recent_duplicate, sbind, sret in H.
  destruct (negb (is_ready self)); [leaf H; apply quiet_refl|].
  run_call H; [|leaf H; repeat split; assumption].
  destruct (length l <=? 1); [leaf H; repeat split; assumption|].
  run_ask H; leaf H; repeat split; congruence.
Qed.

(** [update_consultation] sends one row of six cells to the range of a
    positive row number when the manager has a service, and nothing
    otherwise. *)
Lemma update_consultation_effect (self : GoogleSheetsManager)
    (row_number : Z) (user_query bot_response query_type status : str)
    (s : server_state) :
  let s' := snd (update_consultation self row_number user_query
                   bot_response query_type status s) in
  calm s s'
  /\ if sheets_service_ready self && (0 <? row_number)%Z
     then exists now,
            sv_sheets s'
            = sv_sheets s
              ++ [ValuesUpdate (range_name row_number)
                    [ strftime_date now; strftime_time now;
                      slice_to 1000 user_query;
                      slice_to 50000 bot_response; query_type; status ]]
     else sv_sheets s' = sv_sheets s.
Proof.
  cbv zeta.
  destruct (update_consultation self row_number user_query bot_response
              query_type status s) as [ok s'] eqn:H; cbn [snd].
  unfold update_consultation, is_ready, sbind, sret in H.
  destruct (sheets_service_ready self); cbn [negb orb andb] in *;
    [|leaf H; split; [repeat split | reflexivity]].
  rewrite Z.leb_antisym in H.
  destruct (0 <? row_number)%Z; cbn [negb] in H;
    [|leaf H; split; [repeat split | reflexivity]].
  run_ask H.
  unfold wrote at 1 in H.
  run_call H; leaf H;
    (split; [repeat split; congruence|]);
    (eexists; rewrite Hs0, Hs; reflexivity).
Qed.

(** [log_consultation] on a manager that has a service sends one row:
    the update of a recent duplicate, or a new row of nine cells; the
    row number it returns is that of the duplicate (0 when the update
    failed) or the one read off the reply. *)
Lemma log_consultation_effect (self : GoogleSheetsManager)
    (user_query bot_response query_type status : str) (s : server_state) :
  let row := fst (log_consultation self user_query bot_response query_type
                    status s) in
  let s' := snd (log_consultation self user_query bot_response query_type
                   status s) in
  calm s s'
  /\ if sheets_service_ready self
     then exists now,
            (exists n,
                (0 < n)%Z
                /\ sv_sheets s'
                   = sv_sheets s
                     ++ [ValuesUpdate (range_name n)
                           [ strftime_date now; strftime_time now;
                             slice_to 1000 user_query;
                             slice_to 50000 bot_response; query_type;
                             status ]]
                /\ (row = RowInt n \/ row = RowInt 0))
            \/ (exists n,
                   sv_sheets s'
                   = sv_sheets s
                     ++ [ValuesAppend
                           [ strftime_date now; strftime_time now;
                             slice_to 1000 user_query;
                             slice_to 50000 bot_response; query_type;
                             status; []; []; [] ]]
                   /\ row = RowInt n)
     else sv_sheets s' = sv_sheets s /\ row = RowFalse.
Proof.
  cbv zeta.
  destruct (log_consultation self user_query bot_response query_type
              status s) as [row s'] eqn:H; cbn [fst snd].
  unfold log_consultation, is_ready, sbind, sret in H.
  destruct (sheets_service_ready self) eqn:Eready; cbn [negb] in H;
    [|leaf H; split; [repeat split | split; reflexivity]].
  match type of H with
  | context [find_recent_duplicate ?m ?q ?n ?st] =>
      pose proof (find_recent_duplicate_quiet m q n st)
        as (Hs1 & Hl1 & Hm1 & Hg1);
      destruct (find_recent_duplicate m q n st) as [duplicate_row s1];
      cbn [snd] in Hs1, Hl1, Hm1, Hg1
  end.
  destruct (0 <? duplicate_row)%Z eqn:Edup.
  - match type of H with
    | context [update_consultation ?m ?n ?q ?r ?t ?st ?s0] =>
        pose proof (update_consultation_effect m n q r t st s0)
          as ((Hl2 & Hm2 & Hg2) & Hw);
        destruct (update_consultation m n q r t st s0) as [success s2];
        cbn [snd] in Hl2, Hm2, Hg2, Hw
    end.
    rewrite Eready, Edup in Hw; cbn [andb] in Hw.
    destruct Hw as (now & Hw).
    leaf H; split; [repeat split; congruence|].
    exists now; left; exists duplicate_row.
    split; [apply Z.ltb_lt; exact Edup|].
    split; [rewrite Hw, Hs1; reflexivity|].
    destruct success; [left | right]; reflexivity.
  - run_ask H.
    unfold wrote at 1 in H.
    run_call H; leaf H;
      (split; [repeat split; congruence|]);
      exists d; right; eexists;
      (split; [rewrite Hs0, Hs, Hs1; reflexivity | reflexivity]).
Qed.

(** *** The handler *)

(** What [generate_response] returns is [None] or passes the judge. *)
Lemma generate_response_none_or_useful
    (user_message pdf_context web_context : str)
    (history : option (list turn)) (s : state) :
  fst (generate_response user_message pdf_context web_context history s)
  = None
  \/ _is_useful_response
       (fst (generate_response user_message pdf_context web_context history
               s)) (classify_query user_message) = true.
Proof.
  unfold generate_response, bind.
  pose proof (run_model_chain_result (u "openrouter") user_message
                (slice_to 200000 pdf_context) web_context history
                (classify_query user_message) s) as [Hor _].
  destruct (_run_model_chain (u "openrouter") _ _ _ _ _ s)
    as [or_response s1]; cbn [fst] in Hor.
  destruct (truthy or_response && _); [exact Hor|].
  destruct (_can_call_gemini s1) as [ok s2].
  destruct ok; [|exact Hor].
  pose proof (run_model_chain_result (u "gemini") user_message pdf_context
                web_context history (classify_query user_message) s2)
    as [Hgm _].
  destruct (_run_model_chain (u "gemini") _ _ _ _ _ s2) as [gm_response s3].
  cbn [fst] in Hgm.
  destruct (truthy gm_response); [exact Hgm | exact Hor].
Qed.

Lemma row_given_true (v : json float) :
  row_given v = Returned true ->
  exists n, py_int v = Returned n /\ (0 < n)%Z.
Proof.
  unfold row_given; destruct (json_truthy v); [|discriminate].
  destruct (py_int v) as [n | e]; [|discriminate].
  intros E; inversion E as [E']; exists n; split; [reflexivity|].
  apply Z.ltb_lt; exact E'.
Qed.

(** The second part of [chat], case by case: after the AI call nothing
    touches the manager; a missing answer sends nothing to the sheet; an
    answer is replied and, when the Sheets manager has a service, it is
    sent once, unless reading the row number of the request raised
    first. *)
Lemma chat_answer_cases (sheets_manager : GoogleSheetsManager)
    (data : list (str * json float))
    (user_message query_type pdf_context web_context : str)
    (conversation_history : list (json float)) (s s' : server_state)
    (response : option str) (s1 : state) (out : result exn chat_response) :
  generate_response user_message pdf_context web_context
    (Some (map history_entry conversation_history)) (sv_ai s)
  = (response, s1) ->
  chat_answer sheets_manager data user_message query_type pdf_context
    web_context conversation_history s = (out, s') ->
  st_log (sv_ai s') = st_log s1
  /\ st_self (sv_ai s') = st_self s1
  /\ sv_sheets_manager s' = sv_sheets_manager s
  /\ match response with
     | None =>
         sv_sheets s' = sv_sheets s
         /\ ((exists n,
                out = Returned (Response200 apology query_type (RowInt n)))
             \/ exists e, out = Raised e)
     | Some r =>
         (sv_sheets s' = sv_sheets s /\ exists e, out = Raised e)
         \/ exists row,
              out = Returned (Response200 r query_type row)
              /\ if sheets_service_ready sheets_manager
                 then exists now,
                        (exists n,
                            (0 < n)%Z
                            /\ sv_sheets s'
                               = sv_sheets s
                                 ++ [ValuesUpdate (range_name n)
                                       [ strftime_date now;
                                         strftime_time now;
                                         slice_to 1000 user_message;
                                         slice_to 50000 r; query_type;
                                         u "completado" ]]
                            /\ (row = RowInt n \/ row = RowInt 0))
                        \/ (exists n,
                               sv_sheets s'
                               = sv_sheets s
                                 ++ [ValuesAppend
                                       [ strftime_date now;
                                         strftime_time now;
                                         slice_to 1000 user_message;
                                         slice_to 50000 r; query_type;
                                         u "completado"; []; []; [] ]]
                               /\ row = RowInt n)
                 else sv_sheets s' = sv_sheets s
                      /\ (row = RowFalse
                          \/ exists n, row = RowInt n /\ (0 < n)%Z)
     end.
Proof.
  intros Hrun Hout.
  unfold chat_answer, tbind, sbind, pure, sret in Hout.
  unfold with_ai at 1 in Hout; rewrite Hrun in Hout.
  destruct response as [r|].
  - destruct (row_given (dict_get data (u "row_number") JNull))
      as [[|] | e] eqn:Eg.
    + apply row_given_true in Eg; destruct Eg as (n & En & Hn).
      rewrite En in Hout.
      match type of Hout with
      | context [update_consultation ?m ?k ?q ?a ?t ?st ?s0] =>
          pose proof (update_consultation_effect m k q a t st s0)
            as ((Hl & Hm & Hg) & Hw);
          destruct (update_consultation m k q a t st s0) as [ok s2];
          cbn [snd sv_ai sv_sheets sv_sheets_manager] in Hl, Hm, Hg, Hw
      end.
      leaf Hout.
      split; [exact Hl|]. split; [exact Hm|]. split; [exact Hg|].
      right; exists (RowInt n); split; [reflexivity|].
      apply Z.ltb_lt in Hn; rewrite Hn, andb_true_r in Hw.
      apply Z.ltb_lt in Hn.
      destruct (sheets_service_ready sheets_manager).
      * destruct Hw as (now & Hw); exists now; left; exists n.
        split; [exact Hn|]. split; [exact Hw | left; reflexivity].
      * split; [exact Hw|]; right; exists n; split; [reflexivity | exact Hn].
    + match type of Hout with
      | context [log_consultation ?m ?q ?a ?t ?st ?s0] =>
          pose proof (log_consultation_effect m q a t st s0)
            as ((Hl & Hm & Hg) & Hw);
          destruct (log_consultation m q a t st s0) as [row s2];
          cbn [fst snd sv_ai sv_sheets sv_sheets_manager] in Hl, Hm, Hg, Hw
      end.
      leaf Hout.
      split; [exact Hl|]. split; [exact Hm|]. split; [exact Hg|].
      right; exists row; split; [reflexivity|].
      destruct (sheets_service_ready sheets_manager).
      * exact Hw.
      * destruct Hw as (Hw & ->); split; [exact Hw | left; reflexivity].
    + leaf Hout; repeat split.
      left; split; [reflexivity | exists e; reflexivity].
  - destruct (row_given (dict_get data (u "row_number") JNull))
      as [[|] | e] eqn:Eg.
    + apply row_given_true in Eg; destruct Eg as (n & En & Hn).
      rewrite En in Hout; leaf Hout.
      repeat split; left; exists n; reflexivity.
    + leaf Hout; repeat split; left; exists 0%Z; reflexivity.
    + leaf Hout; repeat split; right; exists e; reflexivity.
Qed.

(** A leaf of [chat_body] before the Sheets manager is asked for. *)
Ltac early_reply H :=
  leaf H; left;
  split; [repeat split; congruence | intros; discriminate].

(** A leaf of [chat_body] between the Sheets manager and the AI call. *)
Ltac late_reply H ws :=
  leaf H; right; left;
  split; [exists ws; split; [congruence | assumption]|];
  split; [congruence|]; split; [congruence|]; eexists; reflexivity.

(** The first part of [chat]: either it replies before it asks for the
    Sheets manager, and then nothing but the server's own reads has
    happened; or an exception stops it before the AI call, and then at
    most the header row was sent; or it reaches the second part with the
    sanitised message of the request, of 1 to 2000 characters, and a PDF
    context that is not empty. *)
Lemma chat_body_cases (s s' : server_state)
    (out : result exn chat_response) :
  chat_body s = (out, s') ->
  (quiet s s' /\ forall r qt row, out <> Returned (Response200 r qt row))
  \/ ((exists ws, sv_sheets s' = sv_sheets s ++ ws /\ header_only ws)
      /\ st_log (sv_ai s') = st_log (sv_ai s)
      /\ st_self (sv_ai s') = st_self (sv_ai s)
      /\ exists e, out = Raised e)
  \/ exists s0 sheets_manager items raw pdf_context web_context history,
       request_message s = Some raw
       /\ (exists ws, sv_sheets s0 = sv_sheets s ++ ws /\ header_only ws)
       /\ st_log (sv_ai s0) = st_log (sv_ai s)
       /\ st_self (sv_ai s0) = st_self (sv_ai s)
       /\ sv_sheets_manager s0 = Some sheets_manager
       /\ 1 <= length (sanitize_input (@JStr float raw))
          <= MAX_MESSAGE_LENGTH
       /\ pdf_context <> []
       /\ chat_answer sheets_manager items
            (sanitize_input (@JStr float raw))
            (classify_query (sanitize_input (@JStr float raw)))
            pdf_context web_context history s0 = (out, s').
Proof.
  intros H; unfold chat_body, tbind, sbind, pure, sret in H.
  unfold request_message.
  run_call H; [|early_reply H].
  destruct b; cbn [negb] in H; [|early_reply H].
  cbn [snd].
  run_call H; [|early_reply H].
  destruct (json_truthy j); cbn [negb] in H; [|early_reply H].
  destruct (json_contains (u "message") j) as [[|] | e];
    cbn [negb] in H; [|early_reply H|early_reply H].
  destruct j as [| | | | |l|items]; try (early_reply H).
  destruct (dict_get items (u "message") JNull) as [| | | |raw| |] eqn:Eraw;
    try (early_reply H).
  destruct (truthy (Some (sanitize_input (@JStr float raw)))) eqn:Et;
    cbn [negb] in H; [|early_reply H].
  destruct (MAX_MESSAGE_LENGTH <? length (sanitize_input (@JStr float raw)))
    eqn:Elen; [early_reply H|].
  run_call H; [|early_reply H].
  match type of H with
  | context [get_sheets_manager ?st] =>
      pose proof (get_sheets_manager_effect st)
        as (Hlg & Hmg & (ws & Hsg & Hws) & Hgg);
      destruct (get_sheets_manager st) as [[sheets_manager | e] sg];
      cbn [fst snd] in Hlg, Hmg, Hsg, Hgg
  end; [|late_reply H ws].
  specialize (Hgg sheets_manager eq_refl).
  run_call H; [|late_reply H ws].
  match type of H with
  | context [search_in_documents ?q ?st] =>
      pose proof (search_in_documents_quiet q st)
        as ((Hs4 & Hl4 & Hm4 & Hg4) & Hne);
      destruct (search_in_documents q st) as [[pdf_context | e] sdoc];
      cbn [fst snd] in Hs4, Hl4, Hm4, Hg4, Hne
  end; [|late_reply H ws].
  run_call H; [|late_reply H ws].
  right; right.
  match type of H with
  | chat_answer _ _ _ _ _ ?web ?hist ?s0 = _ =>
      exists s0, sheets_manager, items, raw, pdf_context, web, hist
  end.
  cbn [fst]; rewrite Eraw.
  split; [reflexivity|].
  split; [exists ws; split; [congruence | exact Hws]|].
  split; [congruence|]. split; [congruence|]. split; [congruence|].
  split; [|split; [apply Hne; reflexivity | exact H]].
  split.
  - destruct (sanitize_input (@JStr float raw)); [discriminate|].
    simpl; lia.
  - apply Nat.ltb_ge in Elen; exact Elen.
Qed.

(** [chat], case by case. *)
Lemma chat_cases (s : server_state) :
  let reply := fst (chat s) in
  let s' := snd (chat s) in
  (quiet s s' /\ forall r qt row, reply <> Response200 r qt row)
  \/ ((exists ws, sv_sheets s' = sv_sheets s ++ ws /\ header_only ws)
      /\ st_log (sv_ai s') = st_log (sv_ai s)
      /\ st_self (sv_ai s') = st_self (sv_ai s)
      /\ exists d, reply = Response500 d)
  \/ exists s0 sheets_manager raw pdf_context web_context history response
            s1,
       let user_message := sanitize_input (@JStr float raw) in
       let query_type := classify_query user_message in
       request_message s = Some raw
       /\ (exists ws, sv_sheets s0 = sv_sheets s ++ ws /\ header_only ws)
       /\ st_log (sv_ai s0) = st_log (sv_ai s)
       /\ st_self (sv_ai s0) = st_self (sv_ai s)
       /\ 1 <= length user_message <= MAX_MESSAGE_LENGTH
       /\ pdf_context <> []
       /\ generate_response user_message pdf_context web_context
            (Some (map history_entry history)) (sv_ai s0) = (response, s1)
       /\ st_log (sv_ai s') = st_log s1
       /\ st_self (sv_ai s') = st_self s1
       /\ sv_sheets_manager s' = Some sheets_manager
       /\ match response with
          | None =>
              sv_sheets s' = sv_sheets s0
              /\ ((exists n,
                     reply = Response200 apology query_type (RowInt n))
                  \/ exists d, reply = Response500 d)
          | Some r =>
              (sv_sheets s' = sv_sheets s0
               /\ exists d, reply = Response500 d)
              \/ exists row,
                   reply = Response200 r query_type row
                   /\ if sheets_service_ready sheets_manager
                      then exists now,
                             (exists n,
                                 (0 < n)%Z
                                 /\ sv_sheets s'
                                    = sv_sheets s0
                                      ++ [ValuesUpdate (range_name n)
                                            [ strftime_date now;
                                              strftime_time now;
                                              slice_to 1000 user_message;
                                              slice_to 50000 r; query_type;
                                              u "completado" ]]
                                 /\ (row = RowInt n \/ row = RowInt 0))
                             \/ (exists n,
                                    sv_sheets s'
                                    = sv_sheets s0
                                      ++ [ValuesAppend
                                            [ strftime_date now;
                                              strftime_time now;
                                              slice_to 1000 user_message;
                                              slice_to 50000 r; query_type;
                                              u "completado"; []; []; [] ]]
                                    /\ row = RowInt n)
                      else sv_sheets s' = sv_sheets s0
                           /\ (row = RowFalse
                               \/ exists n, row = RowInt n /\ (0 < n)%Z)
          end.
Proof.
  cbv zeta; unfold chat, sbind, sret.
  destruct (chat_body s) as [out s'] eqn:Hbody.
  destruct (chat_body_cases _ _ _ Hbody)
    as [[Hq Hno]
       | [(Hws & Hl & Hm & e & ->)
         | (s0 & mgr & items & raw & pdf & web & hist & Hraw & Hws & Hl0
            & Hm0 & Hg0 & Hlen & Hpdf & Hans)]].
  - left; destruct out as [reply | e]; cbn [fst snd];
      (split; [exact Hq|]); intros r qt row E;
      [exact (Hno r qt row (f_equal Returned E)) | discriminate].
  - right; left; cbn [fst snd].
    split; [exact Hws|]. split; [exact Hl|]. split; [exact Hm|].
    eexists; reflexivity.
  - right; right.
    destruct (generate_response (sanitize_input (@JStr float raw)) pdf web
                (Some (map history_entry hist)) (sv_ai s0))
      as [response s1] eqn:Hrun.
    destruct (chat_answer_cases _ _ _ _ _ _ _ _ _ _ _ _ Hrun Hans)
      as (Hl & Hm & Hg & Hcase).
    exists s0, mgr, raw, pdf, web, hist, response, s1; cbv zeta.
    split; [exact Hraw|]. split; [exact Hws|]. split; [exact Hl0|].
    split; [exact Hm0|]. split; [exact Hlen|]. split; [exact Hpdf|].
    split; [exact Hrun|].
    destruct out as [reply | e]; cbn [fst snd];
      (split; [exact Hl|]); (split; [exact Hm|]);
      (split; [congruence|]);
      destruct response as [r|].
    + destruct Hcase as [(Hs & e & He) | (row & Ho & Hw)]; [discriminate|].
      right; exists row; split; [inversion Ho; reflexivity | exact Hw].
    + destruct Hcase as (Hs & [(n & Ho) | (e & He)]); [|discriminate].
      split; [exact Hs|]; left; exists n; inversion Ho; reflexivity.
    + destruct Hcase as [(Hs & _) | (row & Ho & _)]; [|discriminate].
      left; split; [exact Hs | eexists; reflexivity].
    + destruct Hcase as (Hs & _).
      split; [exact Hs|]; right; eexists; reflexivity.
Qed.

Lemma new_writes_of (s : server_state) (ws : list sheet_write) :
  sv_sheets (snd (chat s)) = sv_sheets s ++ ws -> new_writes chat s = ws.
Proof. unfold new_writes; intros ->; apply skipn_length_app. Qed.

Lemma new_calls_of (s : server_state) (evs : list (event turn)) :
  st_log (sv_ai (snd (chat s))) = st_log (sv_ai s) ++ evs ->
  new_calls chat s = evs.
Proof. unfold new_calls; intros ->; apply skipn_length_app. Qed.

Lemma slice_to_nonempty (n : N) (t : str) :
  (0 < n)%N -> t <> [] -> slice_to n t <> [].
Proof.
  unfold slice_to; intros Hn Ht.
  destruct (N.to_nat n) as [|k] eqn:E; [lia|].
  destruct t as [|c t]; [congruence | discriminate].
Qed.

(** X15. A request that [chat] answers with 401 or 400 has caused no
    provider call, has sent nothing to the sheet, and has left the AI
    manager as it was. *)
Theorem chat_rejected_untouched (s : server_state) :
  fst (chat s) = Response401
  \/ (exists error, fst (chat s) = Response400 error) ->
  new_writes chat s = []
  /\ new_calls chat s = []
  /\ st_self (sv_ai (snd (chat s))) = st_self (sv_ai s).
Proof.
  intros Hreply.
  destruct (chat_cases s)
    as [[(Hs & Hl & Hm & _) _]
       | [(_ & _ & _ & d & E')
         | (s0 & mgr & raw & pdf & web & hist & response & s1 & _ & _ & _
            & _ & _ & _ & _ & _ & _ & _ & Hcase)]].
  - repeat split; [| |exact Hm].
    + apply new_writes_of; rewrite Hs, app_nil_r; reflexivity.
    + apply new_calls_of; rewrite Hl, app_nil_r; reflexivity.
  - exfalso; destruct Hreply as [E | (error & E)]; congruence.
  - exfalso; cbv zeta in Hcase.
    assert (Hnot : (exists r qt row, fst (chat s) = Response200 r qt row)
                   \/ exists d, fst (chat s) = Response500 d).
    { destruct response as [r|].
      - destruct Hcase as [(_ & d & E) | (row & E & _)]; eauto.
      - destruct Hcase as (_ & [(n & E) | (d & E)]); eauto. }
    destruct Hreply as [E | (error & E)];
      destruct Hnot as [(r & qt & row & E') | (d & E')]; congruence.
Qed.

(** X16. The write requests a request has sent to the Sheets API, those
    made inside the Sheets manager included, are at most the header row
    on A1:I1 and then at most one consultation row.  That row has the
    date, the time, the first 1000 characters of the sanitised message
    of the request, which has 1 to 2000 characters, the first 50000
    characters of an answer the judge accepted for the label of that
    message, the label, and the status "completado"; it is sent as the
    update of the range of a positive row number, or appended with three
    empty cells more. *)
Theorem chat_writes_useful (s : server_state) :
  exists header rows,
    new_writes chat s = header ++ rows
    /\ (header = [] \/ header = [ValuesUpdate (u "A1:I1") headers])
    /\ (rows = []
        \/ exists raw r now,
             let q := sanitize_input (@JStr float raw) in
             let cells :=
               [ strftime_date now; strftime_time now; slice_to 1000 q;
                 slice_to 50000 r; classify_query q; u "completado" ] in
             request_message s = Some raw
             /\ 1 <= length q <= MAX_MESSAGE_LENGTH
             /\ _is_useful_response (Some r) (classify_query q) = true
             /\ ((exists n,
                     (0 < n)%Z
                     /\ rows = [ValuesUpdate (range_name n) cells])
                 \/ rows = [ValuesAppend (cells ++ [[]; []; []])])).
Proof.
  destruct (chat_cases s)
    as [[(Hs & _) _]
       | [((ws & Hs & Hws) & _)
         | (s0 & mgr & raw & pdf & web & hist & response & s1 & Hraw
            & (ws & Hs0 & Hws) & _ & _ & Hlen & _ & Hrun & _ & _ & _
            & Hcase)]].
  - exists [], []; split; [|split; [left; reflexivity | left; reflexivity]].
    apply new_writes_of; rewrite Hs, app_nil_r; reflexivity.
  - exists ws, []; split; [|split; [exact Hws | left; reflexivity]].
    apply new_writes_of; rewrite Hs, app_nil_r; reflexivity.
  - cbv zeta in Hcase, Hrun, Hlen.
    pose proof (generate_response_none_or_useful
                  (sanitize_input (@JStr float raw)) pdf web
                  (Some (map history_entry hist)) (sv_ai s0)) as Hu.
    rewrite Hrun in Hu; cbn [fst] in Hu.
    assert (Hnone : sv_sheets (snd (chat s)) = sv_sheets s0 ->
                    exists header rows,
                      new_writes chat s = header ++ rows
                      /\ header_only header /\ rows = []).
    { intros Hs; exists ws, []; split; [|split; [exact Hws | reflexivity]].
      apply new_writes_of; rewrite Hs, Hs0, app_nil_r; reflexivity. }
    destruct response as [r|].
    + destruct Hu as [Hu | Hu]; [discriminate|].
      destruct Hcase as [(Hs & _) | (row & _ & Hw)].
      { destruct (Hnone Hs) as (header & rows & Hn & Hh & ->).
        exists header, []; split; [exact Hn|].
        split; [exact Hh | left; reflexivity]. }
      destruct (sheets_service_ready mgr).
      * destruct Hw as (now & [(n & Hn & Hs & _) | (n & Hs & _)]);
          exists ws; eexists;
          (split; [apply new_writes_of; rewrite Hs, Hs0, <- app_assoc;
                   reflexivity|]);
          (split; [exact Hws|]); right; exists raw, r, now; cbv zeta;
          (split; [exact Hraw|]); (split; [exact Hlen|]);
          (split; [exact Hu|]).
        -- left; exists n; split; [exact Hn | reflexivity].
        -- right; reflexivity.
      * destruct Hw as (Hs & _).
        destruct (Hnone Hs) as (header & rows & Hn & Hh & ->).
        exists header, []; split; [exact Hn|].
        split; [exact Hh | left; reflexivity].
    + destruct Hcase as (Hs & _).
      destruct (Hnone Hs) as (header & rows & Hn & Hh & ->).
      exists header, []; split; [exact Hn|].
      split; [exact Hh | left; reflexivity].
Qed.

(** X17. Let [chat] reply 200.  The label of the reply is that of the
    sanitised message of the request.  Either the reply carries the
    fixed apology and an integer row number, and then no consultation
    row was sent to the sheet; or it carries an answer the judge
    accepted for the label.  In that case, when the Sheets manager has a
    service, exactly one consultation row was sent, with the message,
    that answer and that label: the update of a positive row [n], the
    reply naming [n] or 0 (what [log_consultation] returns when the
    update of a duplicate fails), or a new row, the reply naming an
    integer; and when the manager has no service, nothing was sent, and
    the reply names [False] or a positive row.  Before the consultation
    row, at most the header row was sent. *)
Theorem chat_reply_200 (s : server_state) (r qt : str) (row : row_ref) :
  fst (chat s) = Response200 r qt row ->
  exists header rows raw,
    let q := sanitize_input (@JStr float raw) in
    new_writes chat s = header ++ rows
    /\ (header = [] \/ header = [ValuesUpdate (u "A1:I1") headers])
    /\ request_message s = Some raw
    /\ qt = classify_query q
    /\ ((r = apology /\ rows = [] /\ exists n, row = RowInt n)
        \/ (_is_useful_response (Some r) qt = true
            /\ exists sheets_manager,
                sv_sheets_manager (snd (chat s)) = Some sheets_manager
                /\ if sheets_service_ready sheets_manager
                   then exists now,
                          let cells :=
                            [ strftime_date now; strftime_time now;
                              slice_to 1000 q; slice_to 50000 r; qt;
                              u "completado" ] in
                          (exists n,
                              (0 < n)%Z
                              /\ rows = [ValuesUpdate (range_name n) cells]
                              /\ (row = RowInt n \/ row = RowInt 0))
                          \/ (exists n,
                                 rows
                                 = [ValuesAppend (cells ++ [[]; []; []])]
                                 /\ row = RowInt n)
                   else rows = []
                        /\ (row = RowFalse
                            \/ exists n, row = RowInt n /\ (0 < n)%Z))).
Proof.
  intros Hreply.
  destruct (chat_cases s)
    as [[_ Hno]
       | [(_ & _ & _ & d & E')
         | (s0 & mgr & raw & pdf & web & hist & response & s1 & Hraw
            & (ws & Hs0 & Hws) & _ & _ & _ & _ & Hrun & _ & _ & Hg
            & Hcase)]].
  - exfalso; exact (Hno r qt row Hreply).
  - exfalso; congruence.
  - cbv zeta in Hcase, Hrun.
    pose proof (generate_response_none_or_useful
                  (sanitize_input (@JStr float raw)) pdf web
                  (Some (map history_entry hist)) (sv_ai s0)) as Hu.
    rewrite Hrun in Hu; cbn [fst] in Hu.
    destruct response as [r'|].
    + destruct Hu as [Hu | Hu]; [discriminate|].
      destruct Hcase as [(_ & d & E) | (row' & E & Hw)]; [congruence|].
      rewrite Hreply in E; inversion E; subst r' qt row'; clear E.
      destruct (sheets_service_ready mgr) eqn:Eready.
      * destruct Hw as (now & Hw).
        assert (Hrows : exists rows,
                   sv_sheets (snd (chat s)) = sv_sheets s0 ++ rows).
        { destruct Hw as [(n & _ & Hs & _) | (n & Hs & _)];
            eexists; exact Hs. }
        destruct Hrows as (rows & Hrows).
        exists ws, rows, raw; cbv zeta.
        split; [apply new_writes_of; rewrite Hrows, Hs0, <- app_assoc;
                reflexivity|].
        split; [exact Hws|]. split; [exact Hraw|]. split; [reflexivity|].
        right; split; [exact Hu|].
        exists mgr; split; [exact Hg|]; rewrite Eready.
        exists now; cbv zeta.
        destruct Hw as [(n & Hn & Hs & Hrow) | (n & Hs & Hrow)];
          rewrite Hs in Hrows; apply app_inv_head in Hrows; subst rows.
        -- left; exists n; split; [exact Hn|]; split; [reflexivity|].
           exact Hrow.
        -- right; exists n; split; [reflexivity | exact Hrow].
      * destruct Hw as (Hs & Hrow).
        exists ws, [], raw; cbv zeta.
        split; [apply new_writes_of; rewrite Hs, Hs0, app_nil_r;
                reflexivity|].
        split; [exact Hws|]. split; [exact Hraw|]. split; [reflexivity|].
        right; split; [exact Hu|].
        exists mgr; split; [exact Hg|]; rewrite Eready.
        split; [reflexivity | exact Hrow].
    + destruct Hcase as (Hs & [(n & E) | (d & E)]); [|congruence].
      rewrite Hreply in E; inversion E; subst r qt row; clear E.
      exists ws, [], raw; cbv zeta.
      split; [apply new_writes_of; rewrite Hs, Hs0, app_nil_r;
              reflexivity|].
      split; [exact Hws|]. split; [exact Hraw|]. split; [reflexivity|].
      left; split; [reflexivity|]; split; [reflexivity|].
      exists n; reflexivity.
Qed.

(** X18. Every provider call made for a request carries, as the query of
    its prompt, a sanitised message of 1 to 2000 characters (no <, >,
    quote or removed control character), and a PDF context that is not
    empty. *)
Theorem chat_provider_calls (s : server_state) :
  Forall (fun e =>
            let p := event_prompt e in
            1 <= length (prompt_query _ p) <= MAX_MESSAGE_LENGTH
            /\ Forall (fun c => (c <> 60 /\ c <> 62 /\ c <> 34 /\ c <> 39)%N
                                /\ is_control c = false)
                      (prompt_query _ p)
            /\ prompt_pdf _ p <> [])
         (new_calls chat s).
Proof.
  destruct (chat_cases s)
    as [[(_ & Hl & _) _]
       | [(_ & Hl & _)
         | (s0 & mgr & raw & pdf & web & hist & response & s1 & _ & _ & Hl0
            & _ & Hlen & Hpdf & Hrun & Hl & _)]].
  - rewrite (new_calls_of s []); [constructor|].
    rewrite Hl, app_nil_r; reflexivity.
  - rewrite (new_calls_of s []); [constructor|].
    rewrite Hl, app_nil_r; reflexivity.
  - cbv zeta in Hrun, Hlen.
    destruct (generate_response_run (sanitize_input (@JStr float raw)) pdf
                web (Some (map history_entry hist)) (sv_ai s0))
      as (c1 & _ & c2 & _ & _ & _ & Hlog & _).
    rewrite Hrun in Hlog; cbn [snd] in Hlog.
    rewrite <- Hl, Hl0 in Hlog.
    rewrite (new_calls_of s _ Hlog).
    apply Forall_app; split; apply Forall_forall; intros e He;
      apply in_map_iff in He; destruct He as (m & <- & _);
      cbv zeta; cbn [call_event event_prompt _build_prompt prompt_query
                     prompt_pdf];
      (split; [exact Hlen|]); (split; [apply sanitize_input_chars|]).
    + apply slice_to_nonempty; [reflexivity | exact Hpdf].
    + exact Hpdf.
Qed.
End ChatFacts.

(* ================================================================== *)
(** ** Statistics: the counts are the rows *)

Section StatisticsFacts.

Lemma str_eqb_sym (a b : str) : str_eqb a b = str_eqb b a.
Proof.
  destruct (str_eqb a b) eqn:E.
  - apply str_eqb_eq in E; subst; symmetry; apply str_eqb_refl.
  - destruct (str_eqb b a) eqn:E'; [|reflexivity].
    apply str_eqb_eq in E'; subst; rewrite str_eqb_refl in E; discriminate.
Qed.

Lemma count_get_set (d : list (str * Z)) (k k' : str) (v : Z) :
  count_get (count_set d k v) k' 0
  = if str_eqb k k' then v else count_get d k' 0.
Proof.
  induction d as [|[k0 v0] d IH]; simpl.
  - reflexivity.
  - destruct (str_eqb k0 k) eqn:E0; simpl.
    + apply str_eqb_eq in E0; subst k0.
      destruct (str_eqb k k'); reflexivity.
    + destruct (str_eqb k0 k') eqn:E1; [|exact IH].
      apply str_eqb_eq in E1; subst k0; rewrite str_eqb_sym, E0.
      reflexivity.
Qed.

Lemma count_set_keys (d : list (str * Z)) (k : str) (v : Z) :
  map fst (count_set d k v)
  = if existsb (str_eqb k) (map fst d) then map fst d
    else map fst d ++ [k].
Proof.
  induction d as [|[k0 v0] d IH]; simpl; [reflexivity|].
  rewrite (str_eqb_sym k k0).
  destruct (str_eqb k0 k); simpl; [reflexivity|].
  rewrite IH; destruct (existsb (str_eqb k) (map fst d)); reflexivity.
Qed.

Lemma count_set_nodup (d : list (str * Z)) (k : str) (v : Z) :
  NoDup (map fst d) -> NoDup (map fst (count_set d k v)).
Proof.
  intros H; rewrite count_set_keys.
  destruct (existsb (str_eqb k) (map fst d)) eqn:E; [exact H|].
  apply NoDup_app.
  - exact H.
  - repeat constructor; intros [].
  - intros x Hx [Ek | []]; subst x.
    assert (existsb (str_eqb k) (map fst d) = true)
      by (apply existsb_exists; exists k; split;
          [exact Hx | apply str_eqb_refl]).
    congruence.
Qed.

(** The sum of the counts of a dict. *)
Local Abbreviation count_sum d := (fold_right Z.add 0%Z (map snd d)).

Lemma count_set_sum (d : list (str * Z)) (k : str) :
  count_sum (count_set d k (count_get d k 0 + 1))
  = (count_sum d + 1)%Z.
Proof.
  induction d as [|[k0 v0] d IH]; simpl; [reflexivity|].
  destruct (str_eqb k0 k); simpl; [lia | rewrite IH; lia].
Qed.

Lemma rows_of_type_cons (t : str) (row : list str)
    (rows : list (list str)) :
  rows_of_type t (row :: rows)
  = if (5 <=? @length str row) && str_eqb (nth 4 row []) t
    then row :: rows_of_type t rows else rows_of_type t rows.
Proof. reflexivity. Qed.

Lemma wide_rows_cons (row : list str) (rows : list (list str)) :
  filter (fun r => 5 <=? length r) (row :: rows)
  = if 5 <=? @length str row
    then row :: filter (fun r => 5 <=? length r) rows
    else filter (fun r => 5 <=? length r) rows.
Proof. reflexivity. Qed.

(** The loop, started on any dict. *)
Lemma tally_from (rows : list (list str)) (d : list (str * Z)) :
  let step := fun tipo_count row =>
                if 5 <=? length row then
                  let tipo := nth 4 row [] in
                  count_set tipo_count tipo
                    (count_get tipo_count tipo 0 + 1)%Z
                else tipo_count in
  let d' := fold_left step rows d in
  (NoDup (map fst d) -> NoDup (map fst d'))
  /\ (forall t, count_get d' t 0
                = (count_get d t 0
                   + Z.of_nat (length (rows_of_type t rows)))%Z)
  /\ count_sum d'
     = (count_sum d
        + Z.of_nat (length (filter (fun row => (5 <=? length row)%nat)
                              rows)))%Z.
Proof.
  cbv zeta; revert d; induction rows as [|row rows IH]; intros d.
  - simpl; repeat split; [auto | intros; lia | lia].
  - cbn [fold_left].
    assert (E5' : exists b, (5 <=? @length str row) = b) by eauto.
    destruct E5' as [b E5].
    change (@length (list N) row) with (@length str row); rewrite E5.
    destruct b.
    + specialize (IH (count_set d (nth 4 row [])
                        (count_get d (nth 4 row []) 0 + 1)%Z)).
      destruct IH as (Hnd & Hget & Hsum); repeat split.
      * intros H; apply Hnd, count_set_nodup; exact H.
      * intros t; rewrite Hget, count_get_set, rows_of_type_cons, E5.
        cbn [andb].
        destruct (str_eqb (nth 4 row []) t) eqn:Et; cbn [length]; [|lia].
        apply str_eqb_eq in Et; rewrite Et; lia.
      * etransitivity; [exact Hsum|].
        rewrite count_set_sum, wide_rows_cons, E5.
        cbn [length]; lia.
    + specialize (IH d); destruct IH as (Hnd & Hget & Hsum); repeat split.
      * exact Hnd.
      * intros t; rewrite Hget, rows_of_type_cons, E5; reflexivity.
      * etransitivity; [exact Hsum|].
        rewrite wide_rows_cons, E5; reflexivity.
Qed.

(** X19. When the sheet is read, [get_statistics] reports no error; its
    total is the number of rows below the header; each type appears once
    in [por_tipo], with the number of rows of five cells or more whose
    fifth cell is that type; and the counts add up to the number of rows
    of five cells or more, which is at most the total. *)
Theorem get_statistics_counts {E : Type} (str_of : E -> str)
    (values : list (list str)) :
  let st := get_statistics str_of true (Returned (Some values)) in
  let rows := tl values in
  stat_error st = None
  /\ total st = Z.of_nat (length rows)
  /\ NoDup (map fst (por_tipo st))
  /\ (forall t, count_get (por_tipo st) t 0
                = Z.of_nat (length (rows_of_type t rows)))
  /\ fold_right Z.add 0%Z (map snd (por_tipo st))
     = Z.of_nat (length (filter (fun row => 5 <=? length row) rows))
  /\ (fold_right Z.add 0%Z (map snd (por_tipo st)) <= total st)%Z.
Proof.
  cbv zeta; unfold get_statistics; cbn [negb].
  destruct values as [|header rows]; [simpl; repeat split; try constructor;
                                      lia|].
  destruct rows as [|row rows]; [simpl; repeat split; try constructor; lia|].
  cbn [length Nat.leb tl total por_tipo stat_error].
  destruct (tally_from (row :: rows) []) as (Hnd & Hget & Hsum).
  assert (Hs : fold_right Z.add 0%Z (map snd (tally (row :: rows)))
               = Z.of_nat (length (filter (fun r => 5 <=? length r)
                                     (row :: rows)))) by exact Hsum.
  repeat split.
  - cbn [length]; lia.
  - apply Hnd; constructor.
  - intros t; exact (Hget t).
  - exact Hs.
  - rewrite Hs.
    pose proof (filter_length_le (fun r => 5 <=? length r) (row :: rows)).
    cbn [length] in *; lia.
Qed.
End StatisticsFacts.

(* ================================================================== *)
(** ** The cache of web pages: what is stored is served *)

Section ScraperFacts.
Context {P : Platform} {W : Web}.

Lemma alist_get_set {A} (d : list (str * A)) (k : str) (v : A) :
  alist_get (alist_set d k v) k = Some v.
Proof.
  induction d as [|[k0 v0] d IH]; simpl.
  - rewrite str_eqb_refl; reflexivity.
  - destruct (str_eqb k0 k) eqn:E; simpl; rewrite E; [reflexivity | exact IH].
Qed.

Lemma alist_get_set_other {A} (d : list (str * A)) (k k' : str) (v : A) :
  k <> k' -> alist_get (alist_set d k v) k' = alist_get d k'.
Proof.
  intros Hne; induction d as [|[k0 v0] d IH]; simpl.
  - destruct (str_eqb k k') eqn:E; [|reflexivity].
    apply str_eqb_eq in E; congruence.
  - destruct (str_eqb k0 k) eqn:E; simpl.
    + apply str_eqb_eq in E; subst k0.
      destruct (str_eqb k k') eqn:E'; [|reflexivity].
      apply str_eqb_eq in E'; congruence.
    + destruct (str_eqb k0 k'); [reflexivity | exact IH].
Qed.

(** X20. A page that was just fetched with a non-empty text is served
    from the cache by the next call for it that finds the cache fresh:
    that call returns the same text, reads the clock once, downloads
    nothing, saves nothing and leaves the scraper as it is.  The cached
    text of any other page is as before the fetch. *)
Theorem get_page_content_round_trip (self : WebScraper) (url : str)
    (w : world) (text : str) :
  fst (_extract_text_from_page url w) = Some text ->
  text <> [] ->
  let first := get_page_content self url true w in
  let self1 := snd (fst first) in
  let w1 := snd first in
  fst (fst first) = Some text
  /\ (forall other, other <> url ->
        alist_get (cache self1) other = alist_get (cache self) other)
  /\ (age_below (fst (time_time w1))
                (fst (time_time (snd (_extract_text_from_page url w))))
                CACHE_REFRESH_INTERVAL = true ->
      get_page_content self1 url false w1
      = (Some text, self1, snd (time_time w1))).
Proof.
  intros Hfetch Hne; cbv zeta.
  destruct (_extract_text_from_page url w) as [content w2] eqn:Ex.
  cbn [fst snd] in *; subst content.
  destruct text as [|c t]; [congruence|].
  destruct (time_time w2) as [now w3] eqn:Et.
  assert (Hfirst : get_page_content self url true w
                   = (Some (c :: t),
                      {| cache := alist_set (cache self) url (c :: t);
                         cache_timestamps :=
                           alist_set (cache_timestamps self) url now |},
                      _save_cache (alist_set (cache self) url (c :: t))
                        (alist_set (cache_timestamps self) url now) w3)).
  { unfold get_page_content; cbn [negb]; rewrite Ex, Et; reflexivity. }
  rewrite Hfirst; cbn [fst snd]; repeat split.
  - intros other Ho; cbn [cache]; apply alist_get_set_other; congruence.
  - intros Hfresh.
    unfold get_page_content, _is_cache_valid.
    cbn [negb cache_timestamps cache].
    rewrite alist_get_set.
    destruct (time_time (_save_cache _ _ w3)) as [now' w4];
      cbn [fst snd] in *.
    rewrite Hfresh, alist_get_set; reflexivity.
Qed.

(** X21. When the download of a page gives nothing (no text, or an empty
    one), a forced [get_page_content] returns that nothing, although an
    older text may be cached, and neither changes the scraper nor saves
    the cache. *)
Theorem get_page_content_failed (self : WebScraper) (url : str)
    (w : world) :
  truthy (fst (_extract_text_from_page url w)) = false ->
  get_page_content self url true w
  = (fst (_extract_text_from_page url w), self,
     snd (_extract_text_from_page url w)).
Proof.
  intros Hfail; unfold get_page_content; cbn [negb].
  destruct (_extract_text_from_page url w) as [[[|c t]|] w2];
    cbn [fst snd] in *; try reflexivity.
  discriminate.
Qed.
End ScraperFacts.

(* ================================================================== *)
(** ** More runs on concrete inputs *)

(** Without a key, the exhausted OpenRouter chain is the whole run. *)
Lemma generate_response_gate_closed_witness :
  fst (@generate_response Latin1 (Scripted []) ask_matricula
         (u "Reglamento de matrícula") (u "") None
         (@fresh Latin1 (Scripted []) world_exhausted)) = None
  /\ gemini_calls
       (new_events
          (@generate_response Latin1 (Scripted []) ask_matricula
             (u "Reglamento de matrícula") (u "") None)
          (@fresh Latin1 (Scripted []) world_exhausted)) = 0.
Proof.
  destruct (@generate_response_gate_closed Latin1 (Scripted [])
              ask_matricula (u "Reglamento de matrícula") (u "") None
              (@fresh Latin1 (Scripted []) world_exhausted))
    as [Hres Hcalls].
  - left; reflexivity.
  - split; [rewrite Hres; vm_compute; reflexivity | exact Hcalls].
Defined.

(** OpenRouter gives nothing and the first Gemini model answers. *)
Lemma generate_response_gemini_first_witness :
  fst (@generate_response Latin1 (Scripted (u "key")) ask_matricula
         (u "Reglamento de matrícula") (u "") None
         (@fresh Latin1 (Scripted (u "key")) world_gemini_answers))
  = Some reply_price
  /\ gemini_calls
       (new_events
          (@generate_response Latin1 (Scripted (u "key")) ask_matricula
             (u "Reglamento de matrícula") (u "") None)
          (@fresh Latin1 (Scripted (u "key")) world_gemini_answers)) = 1.
Proof.
  destruct (@generate_response_gemini_first Latin1 (Scripted (u "key"))
              ask_matricula (u "Reglamento de matrícula") (u "") None
              (@fresh Latin1 (Scripted (u "key")) world_gemini_answers)
              (u "gemini-2.0-flash")
              [u "gemini-1.5-flash"; u "gemini-1.5-pro"])
    as [Hrun Hcalls].
  - vm_compute; reflexivity.
  - vm_compute; reflexivity.
  - reflexivity.
  - vm_compute; reflexivity.
  - split; [rewrite Hrun; vm_compute; reflexivity | exact Hcalls].
Defined.

Lemma backoff_of_bounds_witness :
  (60 <= @backoff_of 1)%Z
  /\ (@backoff_of 1 <= @backoff_of 6)%Z
  /\ (@backoff_of 6 <= 600)%Z.
Proof. apply (backoff_of_bounds 1 6); lia. Defined.

(** A throttling error handled at 1000 closes the gate until 1060; the
    check at 1070 lets Gemini through again. *)
Lemma throttling_closes_gate_witness :
  fst (@_can_call_gemini (Scripted (u "key"))
         (snd (@_handle_gemini_error (Scripted (u "key"))
                 (u "429 Too Many Requests")
                 (@fresh Latin1 (Scripted (u "key")) world_two_errors))))
  = true.
Proof.
  rewrite (@throttling_closes_gate (Scripted (u "key"))
             (u "429 Too Many Requests")
             (@fresh Latin1 (Scripted (u "key")) world_two_errors)).
  - vm_compute; reflexivity.
  - discriminate.
  - vm_compute; reflexivity.
Defined.

Lemma is_useful_response_with_digit_witness :
  @_is_useful_response Latin1 (Some reply_price) (u "fechas") = true.
Proof.
  apply (@is_useful_response_with_digit Latin1).
  - vm_compute; lia.
  - apply any_in_none; vm_compute; reflexivity.
  - exists 52%N; split; [|reflexivity].
    vm_compute; repeat (first [left; reflexivity | right]).
Defined.

Lemma is_useful_response_plain_label_witness :
  @_is_useful_response Latin1 (Some reply_decline) (u "general") = false.
Proof.
  rewrite (@is_useful_response_plain_label Latin1).
  - vm_compute; reflexivity.
  - intros Hin; apply str_in_In in Hin; vm_compute in Hin; discriminate.
  - vm_compute; lia.
Defined.

Lemma sanitize_input_clean_witness :
  sanitize_input (@JStr Empty_set ask_matricula) = ask_matricula.
Proof.
  apply sanitize_input_clean.
  - apply Forall_forall; intros c Hc; vm_compute in Hc.
    repeat (destruct Hc as [<- | Hc];
            [split; [repeat split; discriminate | reflexivity]|]).
    destruct Hc.
  - intros c Hc; vm_compute in Hc; inversion Hc; reflexivity.
  - intros c Hc; vm_compute in Hc; inversion Hc; reflexivity.
Defined.

(** A request to a server that is not authenticated. *)
Lemma chat_rejected_untouched_witness :
  fst (@chat Latin1 (Scripted (u "key"))
         (ScriptedServer (u "key") false request_row_7 (u "Reglamento"))
         (@arriving Latin1 (Scripted (u "key")) world_second_model))
  = Response401
  /\ new_writes
       (@chat Latin1 (Scripted (u "key"))
          (ScriptedServer (u "key") false request_row_7 (u "Reglamento")))
       (@arriving Latin1 (Scripted (u "key")) world_second_model) = []
  /\ new_calls
       (@chat Latin1 (Scripted (u "key"))
          (ScriptedServer (u "key") false request_row_7 (u "Reglamento")))
       (@arriving Latin1 (Scripted (u "key")) world_second_model) = [].
Proof.
  assert (Hreply : fst (@chat Latin1 (Scripted (u "key"))
                          (ScriptedServer (u "key") false request_row_7
                             (u "Reglamento"))
                          (@arriving Latin1 (Scripted (u "key"))
                             world_second_model)) = Response401)
    by (vm_compute; reflexivity).
  split; [exact Hreply|].
  destruct (@chat_rejected_untouched Latin1 (Scripted (u "key"))
              (ScriptedServer (u "key") false request_row_7
                 (u "Reglamento"))
              (@arriving Latin1 (Scripted (u "key")) world_second_model)
              (or_introl Hreply)) as (Hw & Hc & _).
  split; assumption.
Defined.

(** An authenticated request whose answer comes from the second
    OpenRouter model and updates row 7: the Sheets manager is built, the
    sheet has its headers, and the one row sent is the update of row 7
    with the question and the answer. *)
Lemma chat_reply_200_witness :
  fst (@chat Latin1 (Scripted (u "key"))
         (ScriptedServer (u "key") true request_row_7 (u "Reglamento"))
         (@arriving Latin1 (Scripted (u "key")) world_second_model))
  = Response200 reply_price (u "matrícula") (RowInt 7)
  /\ @_is_useful_response Latin1 (Some reply_price) (u "matrícula") = true
  /\ new_writes
       (@chat Latin1 (Scripted (u "key"))
          (ScriptedServer (u "key") true request_row_7 (u "Reglamento")))
       (@arriving Latin1 (Scripted (u "key")) world_second_model)
     = [ValuesUpdate (u "A7:F7")
          [ u "2024-03-01"; u "10:00:00"; ask_matricula; reply_price;
            u "matrícula"; u "completado" ]].
Proof.
  assert (Hreply : fst (@chat Latin1 (Scripted (u "key"))
                          (ScriptedServer (u "key") true request_row_7
                             (u "Reglamento"))
                          (@arriving Latin1 (Scripted (u "key"))
                             world_second_model))
                   = Response200 reply_price (u "matrícula") (RowInt 7))
    by (vm_compute; reflexivity).
  split; [exact Hreply|].
  destruct (@chat_reply_200 Latin1 (Scripted (u "key"))
              (ScriptedServer (u "key") true request_row_7 (u "Reglamento"))
              (@arriving Latin1 (Scripted (u "key")) world_second_model)
              _ _ _ Hreply)
    as (header & rows & raw & _ & _ & _ & _ & [(Hap & _) | (Hu & _)]).
  - vm_compute in Hap; discriminate.
  - split; [exact Hu | vm_compute; reflexivity].
Defined.

(** The same question without a row number, on a sheet that has the
    question on row 2 since a moment ago: [log_consultation] finds the
    duplicate and sends the update of row 2, and the reply names row
    2. *)
Example chat_updates_duplicate :
  let V := ScriptedSheetServer (u "key") true
             (JDict [(u "message", JStr ask_matricula)]) (u "Reglamento")
             sheet_asked in
  let s := @arriving Latin1 (Scripted (u "key")) world_second_model in
  fst (@chat Latin1 (Scripted (u "key")) V s)
  = Response200 reply_price (u "matrícula") (RowInt 2)
  /\ new_writes (@chat Latin1 (Scripted (u "key")) V) s
     = [ValuesUpdate (u "A2:F2")
          [ u "2024-03-01"; u "10:00:00"; ask_matricula; reply_price;
            u "matrícula"; u "completado" ]].
Proof. cbv zeta; split; vm_compute; reflexivity. Qed.

(** On a sheet without that question the row is appended, and the reply
    names the row read off the range of the reply of the API; a sheet
    without headers gets them first. *)
Example chat_appends_row :
  let V := ScriptedSheetServer (u "key") true
             (JDict [(u "message", JStr ask_matricula)]) (u "Reglamento")
             [] in
  let s := @arriving Latin1 (Scripted (u "key")) world_second_model in
  fst (@chat Latin1 (Scripted (u "key")) V s)
  = Response200 reply_price (u "matrícula") (RowInt 108)
  /\ new_writes (@chat Latin1 (Scripted (u "key")) V) s
     = [ ValuesUpdate (u "A1:I1") headers;
         ValuesAppend
           [ u "2024-03-01"; u "10:00:00"; ask_matricula; reply_price;
             u "matrícula"; u "completado"; []; []; [] ] ].
Proof. cbv zeta; split; vm_compute; reflexivity. Qed.

(** A Sheets manager built without credentials has no service: the
    answer is replied, nothing is sent, and the reply names [False]. *)
Example chat_without_service :
  let V := ScriptedSheetServer (u "key") true
             (JDict [(u "message", JStr ask_matricula)]) (u "Reglamento")
             [] in
  let s :=
    {| sv_ai := @fresh Latin1 (Scripted (u "key")) world_second_model;
       sv_sheets_manager := Some {| sheets_service_ready := false |};
       sv_sheets := [] |} in
  fst (@chat Latin1 (Scripted (u "key")) V s)
  = Response200 reply_price (u "matrícula") RowFalse
  /\ new_writes (@chat Latin1 (Scripted (u "key")) V) s = [].
Proof. cbv zeta; split; vm_compute; reflexivity. Qed.

(** A page fetched at 1000 is served from the cache at 1070. *)
Lemma get_page_content_round_trip_witness :
  @get_page_content (Scripted (u "key"))
    (ScriptedWeb (u "key") (Some reply_price))
    (snd (fst (@get_page_content (Scripted (u "key"))
                 (ScriptedWeb (u "key") (Some reply_price))
                 {| cache := []; cache_timestamps := [] |}
                 (u "https://iestpjva.edu.pe/admision/matricula") true
                 world_two_errors)))
    (u "https://iestpjva.edu.pe/admision/matricula") false
    (snd (@get_page_content (Scripted (u "key"))
            (ScriptedWeb (u "key") (Some reply_price))
            {| cache := []; cache_timestamps := [] |}
            (u "https://iestpjva.edu.pe/admision/matricula") true
            world_two_errors))
  = (Some reply_price,
     {| cache := [(u "https://iestpjva.edu.pe/admision/matricula",
                   reply_price)];
        cache_timestamps :=
          [(u "https://iestpjva.edu.pe/admision/matricula",
            (1000%Z : @timestamp (Scripted (u "key"))))] |},
     {| clock_readings := []; openrouter_replies := [];
        gemini_results := [] |}).
Proof.
  destruct (@get_page_content_round_trip (Scripted (u "key"))
              (ScriptedWeb (u "key") (Some reply_price))
              {| cache := []; cache_timestamps := [] |}
              (u "https://iestpjva.edu.pe/admision/matricula")
              world_two_errors reply_price)
    as (_ & _ & Hserved).
  - reflexivity.
  - vm_compute; discriminate.
  - rewrite Hserved; [vm_compute; reflexivity|].
    vm_compute; reflexivity.
Defined.

(** A page that cannot be downloaded, with an older text in the cache. *)
Lemma get_page_content_failed_witness :
  @get_page_content (Scripted (u "key")) (ScriptedWeb (u "key") None)
    {| cache := [(u "https://iestpjva.edu.pe/contactanos", reply_price)];
       cache_timestamps :=
         [(u "https://iestpjva.edu.pe/contactanos",
           (5%Z : @timestamp (Scripted (u "key"))))] |}
    (u "https://iestpjva.edu.pe/contactanos") true world_two_errors
  = (None,
     {| cache := [(u "https://iestpjva.edu.pe/contactanos", reply_price)];
        cache_timestamps :=
         [(u "https://iestpjva.edu.pe/contactanos",
           (5%Z : @timestamp (Scripted (u "key"))))] |},
     world_two_errors).
Proof.
  rewrite (@get_page_content_failed (Scripted (u "key"))
             (ScriptedWeb (u "key") None)); reflexivity.
Defined.

(* ================================================================== *)
(** ** Downloading a PDF: retries and the cache *)

Section DriveFacts.
Context {U : Unicode} {P : Platform} {D : Drive}.





Lemma download_pdf_cached_entry (self : GoogleDriveManager)
    (file_id file_name modified_time : str) (cached : pdf_entry)
    (w : world) :
  service_ready self = true ->
  alist_get (pdf_cache self) file_id = Some cached ->
  modified_time <> [] ->
  entry_modified_time cached = Some modified_time ->
  download_pdf self file_id file_name (Some modified_time) w
  = (entry_text cached, self, w, 0).
Proof.
  intros Hr Hc Hne Hm; unfold download_pdf.
  rewrite Hr; cbn [negb]; rewrite Hc, Hm.
  destruct modified_time as [|c t]; [congruence|].
  cbn [truthy]; rewrite str_eqb_refl; reflexivity.
Qed.

(** X23. With the service not connected and no credentials to reconnect
    with, [download_pdf] returns [None] without a download, even for a
    file whose text is cached under the modification time asked for. *)
Theorem download_pdf_disconnected (self : GoogleDriveManager)
    (file_id file_name : str) (modified_time : option str) (w : world) :
  service_ready self = false ->
  fst (credentials_found w) = false ->
  download_pdf self file_id file_name modified_time w
  = (None, self, snd (credentials_found w), 0).
Proof.
  intros Hr Hc; unfold download_pdf, reconnect; rewrite Hr; cbn [negb].
  destruct (credentials_found w) as [creds w']; cbn [fst snd] in *.
  subst creds; reflexivity.
Qed.

(** X24. With the service connected and a file that is not cached yet: if
    the first download succeeds, [download_pdf] returns the text of its
    pages after one download, and a second call for the same
    modification time returns the same text without downloading and
    without changing the manager or the world. *)
Theorem download_pdf_round_trip (self : GoogleDriveManager)
    (file_id file_name modified_time : str) (w : world)
    (pages : list (option str)) :
  service_ready self = true ->
  alist_get (pdf_cache self) file_id = None ->
  modified_time <> [] ->
  fst (fetch_pages file_id w) = Returned pages ->
  let text := join [10%N; 10%N] (page_parts 0 pages) in
  let first := download_pdf self file_id file_name (Some modified_time) w in
  let self1 := snd (fst (fst first)) in
  let w1 := snd (fst first) in
  fst (fst (fst first)) = Some text
  /\ snd first = 1
  /\ download_pdf self1 file_id file_name (Some modified_time) w1
     = (Some text, self1, w1, 0).
Proof.
  intros Hr Hc Hne Hf; cbv zeta.
  destruct (fetch_pages file_id w) as [r wa] eqn:Ef; cbn [fst] in Hf.
  subst r.
  destruct (time_time wa) as [now wb] eqn:Et.
  assert (Hfirst :
            download_pdf self file_id file_name (Some modified_time) w
            = (Some (join [10%N; 10%N] (page_parts 0 pages)),
               {| service_ready := true;
                  pdf_cache :=
                    alist_set (pdf_cache self) file_id
                      {| entry_text :=
                           Some (join [10%N; 10%N] (page_parts 0 pages));
                         entry_modified_time := Some modified_time;
                         entry_cached_at := Some now;
                         entry_name := Some file_name |} |},
               wb, 1)).
  { unfold download_pdf; rewrite Hr; cbn [negb]; rewrite Hc.
    cbn [download_attempts]; rewrite Ef, Et, Hr; reflexivity. }
  rewrite Hfirst; cbn [fst snd]; repeat split.
  apply download_pdf_cached_entry with
    (cached := {| entry_text :=
                    Some (join [10%N; 10%N] (page_parts 0 pages));
                  entry_modified_time := Some modified_time;
                  entry_cached_at := Some now;
                  entry_name := Some file_name |}).
  - reflexivity.
  - cbn [pdf_cache]; apply alist_get_set.
  - exact Hne.
  - reflexivity.
Qed.

End DriveFacts.

Lemma download_pdf_disconnected_witness :
  @download_pdf Latin1 (Scripted (u "key"))
    (ScriptedDrive (u "key") false (Returned sample_pages))
    {| service_ready := false; pdf_cache := [] |}
    (u "file-1") (u "[01] PRECIOS.pdf") (Some (u "2024-03-01T10:00:00Z"))
    world_two_errors
  = (None, {| service_ready := false; pdf_cache := [] |},
     world_two_errors, 0).
Proof.
  rewrite (@download_pdf_disconnected Latin1 (Scripted (u "key"))
             (ScriptedDrive (u "key") false (Returned sample_pages)));
    reflexivity.
Defined.

(** The first download succeeds: pages 1 and 3 make the text, and the
    second call is served from the cache. *)
Lemma download_pdf_round_trip_witness :
  fst (fst (fst (@download_pdf Latin1 (Scripted (u "key"))
                   (ScriptedDrive (u "key") true (Returned sample_pages))
                   drive_connected (u "file-1") (u "[01] PRECIOS.pdf")
                   (Some (u "2024-03-01T10:00:00Z")) world_two_errors)))
  = Some (u "--- Página 1 ---" ++ [10%N]
          ++ u "Costo de matrícula: S/. 450.00" ++ [10%N; 10%N]
          ++ u "--- Página 3 ---" ++ [10%N] ++ u "Requisitos")
  /\ snd (@download_pdf Latin1 (Scripted (u "key"))
            (ScriptedDrive (u "key") true (Returned sample_pages))
            drive_connected (u "file-1") (u "[01] PRECIOS.pdf")
            (Some (u "2024-03-01T10:00:00Z")) world_two_errors) = 1.
Proof.
  destruct (@download_pdf_round_trip Latin1 (Scripted (u "key"))
              (ScriptedDrive (u "key") true (Returned sample_pages))
              drive_connected (u "file-1") (u "[01] PRECIOS.pdf")
              (u "2024-03-01T10:00:00Z") world_two_errors sample_pages)
    as (Htext & Hmade & _).
  - reflexivity.
  - reflexivity.
  - vm_compute; discriminate.
  - reflexivity.
  - split; [rewrite Htext; vm_compute; reflexivity | exact Hmade].
Defined.

